(** * TrustSpace: JSON-file datastore, auth service and verification sessions

    A shallow embedding of the store of [utils/database.py] and of its
    older copy [database-implementation.py], of [utils/auth.py] and of the
    session bookkeeping of [video-verification.py].

    Python values are an inductive type, dictionaries are insertion-ordered
    association lists, and every function that touches the disk, the clock
    or the random generator runs in a small state-and-exception monad over
    an explicit [world].  The world carries a schedule of injected I/O
    faults, so that what the code does when a write fails half-way can be
    stated.  Library functions whose results the code only passes along
    (SHA-256, PyJWT, date formatting, [str.lower], [float] on strings) are
    section variables. *)

From Stdlib Require Import ZArith QArith_base List String Ascii Bool Lia.
From stdpp Require Import base option list strings gmap.

Close Scope Q_scope.
Local Open Scope string_scope.
Local Open Scope list_scope.
Set Warnings "-register-all".

(** ** Python values *)

(** The values that [json.load] produces.  Numbers are integers: JSON
    floating-point literals are outside the model. *)
Inductive value : Type :=
  | VNone
  | VBool (b : bool)
  | VInt (z : Z)
  | VStr (s : string)
  | VList (l : list value)
  | VDict (d : list (string * value)).

(** A Python [dict] with string keys, in insertion order. *)
Abbreviation dict := (list (string * value)).

(** Exceptions, by class.  [FileNotFoundError] is kept apart from the other
    [OSError]s and [ExpiredSignatureError] from the other
    [InvalidTokenError]s because the handlers of the source tell them
    apart. *)
Inductive exn : Type :=
  | KeyError
  | TypeError
  | ValueError
  | AttributeError
  | OverflowError
  | OSError
  | FileNotFoundError
  | JSONDecodeError
  | ExpiredSignatureError
  | InvalidTokenError.

Inductive result (A : Type) : Type :=
  | Ok (a : A)
  | Raise (e : exn).
Arguments Ok {A} a.
Arguments Raise {A} e.

#[global] Instance result_ret : MRet result := fun _ a => Ok a.
#[global] Instance result_bind : MBind result := fun _ _ f r =>
  match r with
  | Ok a => f a
  | Raise e => Raise e
  end.

(** *** Dictionary primitives *)

(** [d.get(key)]: the binding of [key], if any. *)
Fixpoint dict_get (key : string) (d : dict) : option value :=
  match d with
  | [] => None
  | (k, v) :: rest => if String.eqb k key then Some v else dict_get key rest
  end.

(** [key in d] *)
Definition dict_has (key : string) (d : dict) : bool :=
  match dict_get key d with
  | Some _ => true
  | None => false
  end.

(** [d[key]], which raises [KeyError] on a missing key. *)
Definition getitem (d : dict) (key : string) : result value :=
  match dict_get key d with
  | Some v => Ok v
  | None => Raise KeyError
  end.

(** [d[key] = v]: an existing key keeps its position, a new key goes last. *)
Fixpoint dict_set (key : string) (v : value) (d : dict) : dict :=
  match d with
  | [] => [(key, v)]
  | (k, v') :: rest =>
      if String.eqb k key then (k, v) :: rest
      else (k, v') :: dict_set key v rest
  end.

(** [d.update(other)] *)
Definition dict_update (d other : dict) : dict :=
  fold_left (fun acc kv => dict_set (fst kv) (snd kv) acc) other d.

(** The dict display [{**a, **b}]. *)
Definition dict_merge (a b : dict) : dict :=
  dict_update (dict_update [] a) b.

(** [d.setdefault(key, v)], for its effect on [d]. *)
Definition dict_setdefault (key : string) (v : value) (d : dict) : dict :=
  if dict_has key d then d else dict_set key v d.

(** *** Comparisons *)

(** [a == b].  [bool] is a subclass of [int], so [True == 1]; dictionaries
    compare without regard to order. *)
Fixpoint py_eq (a b : value) : bool :=
  match a, b with
  | VNone, VNone => true
  | VBool x, VBool y => Bool.eqb x y
  | VBool x, VInt y => (Z.b2z x =? y)%Z
  | VInt x, VBool y => (x =? Z.b2z y)%Z
  | VInt x, VInt y => (x =? y)%Z
  | VStr s, VStr t => String.eqb s t
  | VList l1, VList l2 =>
      (fix go (l1 l2 : list value) : bool :=
         match l1, l2 with
         | [], [] => true
         | x :: xs, y :: ys => py_eq x y && go xs ys
         | _, _ => false
         end) l1 l2
  | VDict d1, VDict d2 =>
      (length d1 =? length d2)%nat &&
      (fix go (d : list (string * value)) : bool :=
         match d with
         | [] => true
         | (k, v) :: rest =>
             match dict_get k d2 with
             | Some v' => py_eq v v'
             | None => false
             end && go rest
         end) d1
  | _, _ => false
  end.

(** [a < b].  Numbers compare with numbers, strings with strings
    (lexicographically), lists with lists (at the first differing
    element); anything else raises [TypeError]. *)
Fixpoint py_lt (a b : value) : result bool :=
  match a, b with
  | VBool x, VBool y => Ok (Z.b2z x <? Z.b2z y)%Z
  | VBool x, VInt y => Ok (Z.b2z x <? y)%Z
  | VInt x, VBool y => Ok (x <? Z.b2z y)%Z
  | VInt x, VInt y => Ok (x <? y)%Z
  | VStr s, VStr t => Ok (String.ltb s t)
  | VList l1, VList l2 =>
      (fix go (l1 l2 : list value) : result bool :=
         match l1, l2 with
         | [], [] => Ok false
         | [], _ :: _ => Ok true
         | _ :: _, [] => Ok false
         | x :: xs, y :: ys => if py_eq x y then go xs ys else py_lt x y
         end) l1 l2
  | _, _ => Raise TypeError
  end.

(** [a > b] *)
Definition py_gt (a b : value) : result bool := py_lt b a.

(** Truth value of an optional [filters] argument: [None] and [{}] are
    false. *)
Definition truthy (filters : option dict) : bool :=
  match filters with
  | None | Some [] => false
  | Some (_ :: _) => true
  end.

(** ** The world: files, injected I/O faults, clock, random ids *)

(** What a path holds: a JSON array of objects, or bytes that do not
    parse.  An absent file is an absent key of the file map.  Directories
    are not modelled: [os.makedirs] is a no-op. *)
Inductive file : Type :=
  | Json (records : list dict)
  | Corrupt.

(** The fate of one write-side system call. [FailDuring] is a failure
    after the file was opened for writing (and so truncated). *)
Inductive fault : Type :=
  | NoFault
  | FailBefore
  | FailDuring.

Inductive event : Type :=
  | EvWrite (path : string) (f : fault)
  | EvReplace (src dst : string) (f : fault)
  | EvSleep (seconds : Q)
  | EvPrint.

(** [faults] is the schedule of injected faults, one per write-side call;
    once it is exhausted calls succeed.  [clock] is in seconds since the
    epoch and is moved by the environment only.  [uuids] is the random
    source, of which [uuid_next] identifiers are used up.  [trace] is
    chronological. *)
Record world : Type := World {
  files : gmap string file;
  faults : list fault;
  clock : Z;
  uuids : nat -> string;
  uuid_next : nat;
  trace : list event
}.

Definition M (A : Type) : Type := world -> result A * world.

#[global] Instance M_ret : MRet M := fun _ a w => (Ok a, w).
#[global] Instance M_bind : MBind M := fun _ _ f m w =>
  match m w with
  | (Ok a, w') => f a w'
  | (Raise e, w') => (Raise e, w')
  end.

Definition raise {A : Type} (e : exn) : M A := fun w => (Raise e, w).

Definition lift {A : Type} (r : result A) : M A := fun w => (r, w).

(** [try: body / except ... as e: handler e].  State changes made by the
    body before it raised are kept. *)
Definition try_except {A : Type} (body : M A) (handler : exn -> M A) : M A :=
  fun w =>
    match body w with
    | (Ok a, w') => (Ok a, w')
    | (Raise e, w') => handler e w'
    end.

Definition log (e : event) (w : world) : world :=
  World (files w) (faults w) (clock w) (uuids w) (uuid_next w) (trace w ++ [e]).

Definition set_files (fs : gmap string file) (w : world) : world :=
  World fs (faults w) (clock w) (uuids w) (uuid_next w) (trace w).

Definition set_clock (t : Z) (w : world) : world :=
  World (files w) (faults w) t (uuids w) (uuid_next w) (trace w).

(** Take the next injected fault off the schedule. *)
Definition next_fault (w : world) : fault * world :=
  match faults w with
  | [] => (NoFault, w)
  | f :: rest =>
      (f, World (files w) rest (clock w) (uuids w) (uuid_next w) (trace w))
  end.

(** [with open(path, 'r') as f: return json.load(f)] *)
Definition read_json (path : string) : M (list dict) := fun w =>
  match files w !! path with
  | None => (Raise FileNotFoundError, w)
  | Some Corrupt => (Raise JSONDecodeError, w)
  | Some (Json records) => (Ok records, w)
  end.

(** [with open(path, 'w') as f: json.dump(data, f)].  Opening truncates,
    so a failure during the write leaves unparsable content behind. *)
Definition write_json (path : string) (data : list dict) : M unit := fun w =>
  let '(f, w1) := next_fault w in
  let w2 := log (EvWrite path f) w1 in
  match f with
  | NoFault => (Ok tt, set_files (<[path := Json data]> (files w2)) w2)
  | FailBefore => (Raise OSError, w2)
  | FailDuring => (Raise OSError, set_files (<[path := Corrupt]> (files w2)) w2)
  end.

(** [os.replace(src, dst)]: atomic, it happens entirely or not at all. *)
Definition os_replace (src dst : string) : M unit := fun w =>
  let '(f, w1) := next_fault w in
  let w2 := log (EvReplace src dst f) w1 in
  match f with
  | NoFault =>
      match files w2 !! src with
      | None => (Raise FileNotFoundError, w2)
      | Some content =>
          (Ok tt, set_files (<[dst := content]> (delete src (files w2))) w2)
      end
  | FailBefore | FailDuring => (Raise OSError, w2)
  end.

Definition sleep (seconds : Q) : M unit := fun w => (Ok tt, log (EvSleep seconds) w).

Definition print : M unit := fun w => (Ok tt, log EvPrint w).

(** [datetime.now()], as seconds since the epoch. *)
Definition datetime_now : M Z := fun w => (Ok (clock w), w).

(** [str(uuid.uuid4())]: the next identifier of the random source. *)
Definition uuid4 : M string := fun w =>
  (Ok (uuids w (uuid_next w)),
   World (files w) (faults w) (clock w) (uuids w) (S (uuid_next w)) (trace w)).

(** ** utils/database.py *)

Module Database.

Definition USERS_FILE : string := "data/users.json".
Definition PROPERTIES_FILE : string := "data/properties.json".
Definition BOOKINGS_FILE : string := "data/bookings.json".
Definition REVIEWS_FILE : string := "data/reviews.json".

(** [load_data(file_path)] *)
Definition load_data (file_path : string) : M (list dict) :=
  try_except (read_json file_path)
    (fun e =>
       match e with
       | FileNotFoundError | JSONDecodeError =>
           write_json file_path [] ;; mret []
       | _ => raise e
       end).

Definition max_retries : nat := 5.
Definition retry_delay : Q := 1 # 2.

(** How the body of one turn of a [for] loop ends. *)
Inductive flow (A : Type) : Type :=
  | Continue
  | Return (a : A).
Arguments Continue {A}.
Arguments Return {A} a.

(** The [for attempt in ...] loop of [save_data] over the attempts that
    are left.  A loop that runs out returns Python's [None]. *)
Fixpoint save_data_loop (attempts : list nat) (data : list dict)
    (file_path : string) : M (option bool) :=
  match attempts with
  | [] => mret None
  | attempt :: rest =>
      r ← try_except
            (let temp_file := file_path +:+ ".tmp" in
             write_json temp_file data ;;
             os_replace temp_file file_path ;;
             mret (Return true))
            (fun _ =>
               if (attempt <? max_retries - 1)%nat
               then sleep retry_delay ;; mret Continue
               else print ;; mret (Return false));
      match r with
      | Return b => mret (Some b)
      | Continue => save_data_loop rest data file_path
      end
  end.

(** [save_data(data, file_path)] *)
Definition save_data (data : list dict) (file_path : string) : M (option bool) :=
  save_data_loop (seq 0 max_retries) data file_path.

(** One filter [key, value] of [get_properties] applied to [prop], given
    the current [matches] flag. *)
Definition property_filter (prop : dict) (key : string) (value : value)
    (matches : bool) : result bool :=
  if String.eqb key "price_min" then
    price ← getitem prop "price_per_day";
    below ← py_lt price value;
    mret (if below : bool then false else matches)
  else if String.eqb key "price_max" then
    price ← getitem prop "price_per_day";
    above ← py_gt price value;
    mret (if above : bool then false else matches)
  else
    match dict_get key prop with
    | Some stored => mret (if negb (py_eq stored value) then false else matches)
    | None => mret matches
    end.

(** [for key, value in filters.items(): ...] *)
Fixpoint property_matches (prop : dict) (items : dict) (matches : bool)
    : result bool :=
  match items with
  | [] => mret matches
  | (key, value) :: rest =>
      matches' ← property_filter prop key value matches;
      property_matches prop rest matches'
  end.

(** [for prop in properties: ...], collecting the matching ones. *)
Fixpoint filter_properties (properties : list dict) (filters : dict)
    : result (list dict) :=
  match properties with
  | [] => mret []
  | prop :: rest =>
      matches ← property_matches prop filters true;
      filtered ← filter_properties rest filters;
      mret (if matches : bool then prop :: filtered else filtered)
  end.

(** [get_properties(filters=None)] *)
Definition get_properties (filters : option dict) : M (list dict) :=
  properties ← load_data PROPERTIES_FILE;
  if negb (truthy filters) then mret properties
  else lift (filter_properties properties (default [] filters)).

(** [for field in required_fields: if field not in data: raise ValueError] *)
Fixpoint require_fields (required_fields : list string) (data : dict)
    : result unit :=
  match required_fields with
  | [] => mret tt
  | field :: rest =>
      if dict_has field data then require_fields rest data
      else Raise ValueError
  end.

(** The loop of [update_property] from index [i] on; [properties] is the
    whole list, [rest] what is left to visit. *)
Fixpoint update_property_loop (properties : list dict) (i : nat)
    (rest : list dict) (property_id : value) (property_data : dict) : M bool :=
  match rest with
  | [] => mret false
  | prop :: rest' =>
      id ← lift (getitem prop "id");
      if py_eq id property_id then
        id' ← lift (getitem prop "id");
        owner_id ← lift (getitem prop "owner_id");
        created_at ← lift (getitem prop "created_at");
        let existing_data :=
          [("id", id'); ("owner_id", owner_id); ("created_at", created_at)] in
        save_data (<[i := dict_merge existing_data property_data]> properties)
                  PROPERTIES_FILE ;;
        mret true
      else update_property_loop properties (S i) rest' property_id property_data
  end.

(** [update_property(property_id, property_data)] *)
Definition update_property (property_id : value) (property_data : dict) : M bool :=
  properties ← load_data PROPERTIES_FILE;
  update_property_loop properties 0 properties property_id property_data.

(** The loop of [update_booking_status]. *)
Fixpoint update_booking_status_loop (bookings : list dict) (i : nat)
    (rest : list dict) (booking_id new_status : value) : M bool :=
  match rest with
  | [] => mret false
  | booking :: rest' =>
      id ← lift (getitem booking "id");
      if py_eq id booking_id then
        save_data (<[i := dict_set "status" new_status booking]> bookings)
                  BOOKINGS_FILE ;;
        mret true
      else update_booking_status_loop bookings (S i) rest' booking_id new_status
  end.

(** [update_booking_status(booking_id, new_status)] *)
Definition update_booking_status (booking_id new_status : value) : M bool :=
  bookings ← load_data BOOKINGS_FILE;
  update_booking_status_loop bookings 0 bookings booking_id new_status.

(** The filter loop that [get_bookings] and [get_reviews] share:
    [for key, value in filters.items():
       if key in record and record[key] != value: matches = False]. *)
Fixpoint record_matches (record : dict) (items : dict) (matches : bool) : bool :=
  match items with
  | [] => matches
  | (key, value) :: rest =>
      record_matches record rest
        (match dict_get key record with
         | Some stored => if negb (py_eq stored value) then false else matches
         | None => matches
         end)
  end.

(** [get_bookings(filters=None)] *)
Definition get_bookings (filters : option dict) : M (list dict) :=
  bookings ← load_data BOOKINGS_FILE;
  if negb (truthy filters) then mret bookings
  else mret (List.filter
               (fun booking => record_matches booking (default [] filters) true)
               bookings).

(** [get_reviews(filters=None)] *)
Definition get_reviews (filters : option dict) : M (list dict) :=
  reviews ← load_data REVIEWS_FILE;
  if negb (truthy filters) then mret reviews
  else mret (List.filter
               (fun review => record_matches review (default [] filters) true)
               reviews).

(** [os.path.exists(path)] *)
Definition path_exists (path : string) : M bool := fun w =>
  (Ok (match files w !! path with Some _ => true | None => false end), w).

(** [random.choice(seq)] and [random.randint(a, b)] out of one raw draw of
    the random generator. *)
Definition choice {A : Type} (fallback : A) (seq : list A) (draw : nat) : A :=
  nth (draw mod length seq) seq fallback.

Definition randint (a b : Z) (draw : nat) : Z :=
  (a + Z.of_nat draw mod (b - a + 1))%Z.

(** The tables of [generate_sample_properties]. *)
Definition property_types : list (string * string) :=
  [("House", "Beautiful traditional Rajasthani house with modern amenities");
   ("Apartment", "Modern apartment with city views");
   ("Villa", "Luxury villa with private garden");
   ("Garden", "Spacious garden venue perfect for events");
   ("Hall", "Elegant banquet hall with traditional decor");
   ("Event Space", "Versatile event space with modern facilities")].

Definition locations : list string :=
  ["Malviya Nagar"; "C-Scheme"; "Bani Park"; "Vaishali Nagar"; "Raja Park";
   "Sitapura"; "Jawahar Circle"; "Civil Lines"; "Mansarovar"; "Pratap Nagar";
   "Vidyadhar Nagar"; "Sector 3"; "Sector 4"; "Sector 5"; "Sector 6";
   "Sector 7"; "Sector 8"; "Sector 9"; "Sector 10"; "Sector 11"].

Definition property_names : list string :=
  ["Royal Heritage Villa"; "Pink City Palace"; "Jaipur Royal Estate";
   "Rajasthani Royal Villa"; "Pink Pearl Apartment"; "Heritage Garden Estate";
   "Royal Palace Villa"; "Pink City Mansion"; "Rajasthani Royal Palace";
   "Pink Pearl Villa"; "Heritage Palace Estate"; "Royal Garden Villa";
   "Pink City Estate"; "Rajasthani Pearl Villa"; "Heritage Royal Palace";
   "Royal Pearl Villa"; "Pink Palace Estate"; "Rajasthani Heritage Villa";
   "Pink Pearl Palace"; "Heritage Royal Estate"; "Royal Palace Garden";
   "Pink City Pearl"; "Rajasthani Palace Estate"; "Heritage Pearl Villa";
   "Royal Garden Palace"; "Pink Estate Villa"; "Rajasthani Royal Garden";
   "Pink Palace Villa"; "Heritage Estate Palace"; "Royal Pearl Estate";
   "Pink City Garden"; "Rajasthani Pearl Palace"; "Heritage Palace Villa";
   "Royal Estate Palace"; "Pink Pearl Garden"; "Rajasthani Heritage Palace";
   "Pink Palace Pearl"; "Heritage Royal Garden"; "Royal Garden Pearl";
   "Pink Estate Palace"; "Rajasthani Palace Villa"; "Heritage Pearl Palace";
   "Royal Estate Garden"; "Pink City Pearl"; "Rajasthani Royal Estate";
   "Pink Palace Garden"; "Heritage Estate Villa"; "Royal Pearl Garden"].

Section Clock.

(** [datetime.isoformat] and [datetime.strftime('%Y-%m-%d %H:%M:%S')]. *)
Variables isoformat strftime : Z -> string.

(** [create_property(property_data)] *)
Definition create_property (property_data : dict) : M dict :=
  try_except
    (properties ← get_properties None;
     let required_fields :=
       ["id"; "owner_id"; "title"; "location"; "property_type";
        "price_per_day"; "capacity"] in
     lift (require_fields required_fields property_data) ;;
     let property_data := dict_set "status" (VStr "pending") property_data in
     let property_data := dict_set "verified" (VBool false) property_data in
     let property_data :=
       dict_set "blockchain_registered" (VBool false) property_data in
     created ← datetime_now;
     let property_data :=
       dict_set "created_at" (VStr (isoformat created)) property_data in
     updated ← datetime_now;
     let property_data :=
       dict_set "updated_at" (VStr (isoformat updated)) property_data in
     write_json "data/properties.json" (properties ++ [property_data]) ;;
     mret property_data)
    (fun e => print ;; raise e).

(** [create_booking(booking_data)] *)
Definition create_booking (booking_data : dict) : M bool :=
  bookings ← load_data BOOKINGS_FILE;
  let required_fields :=
    ["id"; "property_id"; "guest_id"; "owner_id"; "check_in"; "check_out";
     "status"] in
  if negb (forallb (fun field => dict_has field booking_data) required_fields)
  then mret false
  else
    now ← datetime_now;
    let booking_data :=
      dict_setdefault "created_at" (VStr (strftime now)) booking_data in
    let booking_data :=
      dict_setdefault "payment_status" (VStr "pending") booking_data in
    save_data (bookings ++ [booking_data]) BOOKINGS_FILE ;;
    mret true.

(** [create_review(review_data)] *)
Definition create_review (review_data : dict) : M bool :=
  reviews ← load_data REVIEWS_FILE;
  let required_fields := ["id"; "property_id"; "user_id"; "rating"; "comment"] in
  if negb (forallb (fun field => dict_has field review_data) required_fields)
  then mret false
  else
    now ← datetime_now;
    let review_data :=
      dict_setdefault "created_at" (VStr (strftime now)) review_data in
    let review_data := dict_setdefault "verified" (VBool false) review_data in
    save_data (reviews ++ [review_data]) REVIEWS_FILE ;;
    mret true.

(** The body of the loop of [generate_sample_properties]; [draw] gives
    the raw draws of the random generator, of which turn [i] uses seven. *)
Definition sample_property (draw : nat -> nat) (i : nat) : M dict :=
  let property_type :=
    choice "" (map fst property_types) (draw (7 * i)%nat) in
  let location := choice "" locations (draw (7 * i + 1)%nat) in
  let name := choice "" property_names (draw (7 * i + 2)%nat) in
  let price := randint 1000 10000 (draw (7 * i + 3)%nat) in
  let capacity :=
    if existsb (String.eqb property_type) ["House"; "Apartment"]
    then randint 4 8 (draw (7 * i + 4)%nat)
    else if existsb (String.eqb property_type) ["Villa"]
    then randint 8 15 (draw (7 * i + 4)%nat)
    else randint 20 100 (draw (7 * i + 4)%nat) in
  id ← uuid4;
  let description :=
    default "" (snd <$> List.find (fun kv => String.eqb (fst kv) property_type)
                          property_types)
    +:+ " located in the heart of " +:+ location
    +:+ ". Perfect for your stay in the Pink City." in
  let verified := choice false [true; false] (draw (7 * i + 5)%nat) in
  let blockchain_registered := choice false [true; false] (draw (7 * i + 6)%nat) in
  now ← datetime_now;
  mret [("id", VStr id);
        ("owner_id", VStr "sample_owner_id");
        ("title", VStr (name +:+ " in " +:+ location));
        ("location", VStr location);
        ("property_type", VStr property_type);
        ("price_per_day", VInt price);
        ("capacity", VInt capacity);
        ("description", VStr description);
        ("images", VList []);
        ("verified", VBool verified);
        ("blockchain_registered", VBool blockchain_registered);
        ("status", VStr "active");
        ("created_at", VStr (strftime now))].

(** [for i in range(...): properties.append(...)] *)
Fixpoint sample_properties_loop (draw : nat -> nat) (turns : list nat)
    : M (list dict) :=
  match turns with
  | [] => mret []
  | i :: rest =>
      property_data ← sample_property draw i;
      properties ← sample_properties_loop draw rest;
      mret (property_data :: properties)
  end.

(** [generate_sample_properties()] *)
Definition generate_sample_properties (draw : nat -> nat) : M (list dict) :=
  sample_properties_loop draw (seq 0 50).

(** [initialize_sample_data()] *)
Definition initialize_sample_data (draw : nat -> nat) : M bool :=
  properties ← generate_sample_properties draw;
  save_data properties PROPERTIES_FILE ;;
  users_exist ← path_exists USERS_FILE;
  (if negb users_exist then save_data [] USERS_FILE ;; mret tt else mret tt) ;;
  bookings_exist ← path_exists BOOKINGS_FILE;
  (if negb bookings_exist then save_data [] BOOKINGS_FILE ;; mret tt else mret tt) ;;
  reviews_exist ← path_exists REVIEWS_FILE;
  (if negb reviews_exist then save_data [] REVIEWS_FILE ;; mret tt else mret tt) ;;
  mret true.

End Clock.

End Database.

(** The loop shared by the update functions of [auth.py] and
    [video-verification.py]:
    [for r in records: if r['id'] == id: <change r in place>; <leave the loop>].
    The records are aliased by the list, so the change shows in the list.
    The flag tells whether a record matched. *)
Fixpoint change_first (records : list dict) (id : value) (change : dict -> dict)
    : result (list dict * bool) :=
  match records with
  | [] => mret ([], false)
  | r :: rest =>
      rid ← getitem r "id";
      if py_eq rid id then mret (change r :: rest, true)
      else
        '(rest', found) ← change_first rest id change;
        mret (r :: rest', found)
  end.

(** [for r in records: if r['id'] == id: return r] and then [return None]. *)
Fixpoint find_by_id (records : list dict) (id : value) : result (option dict) :=
  match records with
  | [] => mret None
  | r :: rest =>
      rid ← getitem r "id";
      if py_eq rid id then mret (Some r) else find_by_id rest id
  end.

(** ** utils/auth.py *)

Module Auth.

Section Auth.

(** [hashlib.sha256(s.encode()).hexdigest()], the signing key read from the
    environment, and [datetime.isoformat]. *)
Variable sha256_hex : string -> string.
Variable SECRET_KEY : string.
Variable isoformat : Z -> string.

(** PyJWT: the tokens, [jwt.encode(payload, key, algorithm="HS256")] and
    [jwt.decode(token, key, algorithms=["HS256"])], which reads the clock
    and raises [ExpiredSignatureError] or another [InvalidTokenError]. *)
Variable token : Type.
Variable jwt_encode : dict -> string -> token.
Variable jwt_decode : token -> string -> M dict.

(** Naive local time, which follows the time zone of the host:
    [datetime.fromtimestamp(t)], the reading of the local wall clock at
    the instant [t] (what [datetime.now()] holds), and
    [datetime.timestamp()], the instant that a wall-clock reading stands
    for.  Readings are counted in seconds, as instants are. *)
Variable fromtimestamp : Z -> Z.
Variable timestamp : Z -> Z.

(** [hash_password(password)] *)
Definition hash_password (password : string) : string := sha256_hex password.

(** [load_users()] *)
Definition load_users : M (list dict) :=
  try_except (read_json "data/users.json")
    (fun e =>
       match e with
       | FileNotFoundError | JSONDecodeError =>
           write_json "data/users.json" [] ;; mret []
       | _ => raise e
       end).

(** [save_users(users)] *)
Definition save_users (users : list dict) : M unit :=
  write_json "data/users.json" users.

(** [any(user['email'] == email for user in users)] *)
Fixpoint any_email (users : list dict) (email : string) : result bool :=
  match users with
  | [] => mret false
  | user :: rest =>
      e ← getitem user "email";
      if py_eq e (VStr email) then mret true else any_email rest email
  end.

(** [register_user(email, password, full_name, user_type)] *)
Definition register_user (email password full_name user_type : string)
    : M (bool * string) :=
  users ← load_users;
  taken ← lift (any_email users email);
  if taken : bool then mret (false, "Email already registered")
  else
    id ← uuid4;
    now ← datetime_now;
    let new_user :=
      [("id", VStr id);
       ("email", VStr email);
       ("password_hash", VStr (hash_password password));
       ("full_name", VStr full_name);
       ("user_type", VStr user_type);
       ("kyc_verified", VBool false);
       ("created_at", VStr (isoformat now));
       ("wallet_address", VNone);
       ("profile_image", VNone);
       ("kyc_documents", VList [])] in
    save_users (users ++ [new_user]) ;;
    mret (true, "User registered successfully").

(** The loop of [verify_user]. *)
Fixpoint verify_user_loop (users : list dict) (email password_hash : string)
    : M (bool * option token * option dict) :=
  match users with
  | [] => mret (false, None, None)
  | user :: rest =>
      e ← lift (getitem user "email");
      hit ← (if py_eq e (VStr email) then
               h ← lift (getitem user "password_hash");
               mret (py_eq h (VStr password_hash))
             else mret false);
      if hit : bool then
        now ← datetime_now;
        let expiration := (fromtimestamp now + 24 * 3600)%Z in
        user_id ← lift (getitem user "id");
        email' ← lift (getitem user "email");
        let payload :=
          [("user_id", user_id); ("email", email');
           ("exp", VInt (timestamp expiration))] in
        let token := jwt_encode payload SECRET_KEY in
        mret (true, Some token, Some user)
      else verify_user_loop rest email password_hash
  end.

(** [verify_user(email, password)] *)
Definition verify_user (email password : string)
    : M (bool * option token * option dict) :=
  users ← load_users;
  let password_hash := hash_password password in
  verify_user_loop users email password_hash.

(** [verify_token(token)] *)
Definition verify_token (tok : token) : M (bool * value * value) :=
  try_except
    (payload ← jwt_decode tok SECRET_KEY;
     user_id ← lift (getitem payload "user_id");
     mret (true, user_id, VDict payload))
    (fun e =>
       match e with
       | ExpiredSignatureError => mret (false, VNone, VStr "Token expired")
       | InvalidTokenError => mret (false, VNone, VStr "Invalid token")
       | _ => raise e
       end).

(** [update_kyc_status(user_id, verified=True)] *)
Definition update_kyc_status (user_id verified : value) : M bool :=
  users ← load_users;
  '(users', found) ← lift (change_first users user_id
                             (dict_set "kyc_verified" verified));
  if found : bool then save_users users' ;; mret true
  else mret false.

(** [update_user_role(user_id, new_role)] *)
Definition update_user_role (user_id new_role : value) : M bool :=
  users ← load_users;
  '(users', _) ← lift (change_first users user_id (dict_set "user_type" new_role));
  save_users users' ;;
  mret true.

(** [update_user_profile(user_id, profile_data)] *)
Definition update_user_profile (user_id : value) (profile_data : dict) : M bool :=
  users ← load_users;
  '(users', _) ← lift (change_first users user_id
                         (fun user => dict_update user profile_data));
  save_users users' ;;
  mret true.

(** [update_user_wallet(user_id, wallet_address)] *)
Definition update_user_wallet (user_id wallet_address : value) : M bool :=
  users ← load_users;
  '(users', _) ← lift (change_first users user_id
                         (dict_set "wallet_address" wallet_address));
  save_users users' ;;
  mret true.

(** The loop of [upload_kyc_document]: at the first user with the id, make
    sure there is a [kyc_documents] list and append [document] to it. *)
Fixpoint upload_kyc_document_loop (users : list dict) (user_id : value)
    (document : dict) : result (list dict * bool) :=
  match users with
  | [] => mret ([], false)
  | user :: rest =>
      id ← getitem user "id";
      if py_eq id user_id then
        let user :=
          if negb (dict_has "kyc_documents" user)
          then dict_set "kyc_documents" (VList []) user else user in
        documents ← getitem user "kyc_documents";
        match documents with
        | VList l =>
            mret (dict_set "kyc_documents" (VList (l ++ [VDict document])) user
                  :: rest, true)
        | _ => Raise AttributeError
        end
      else
        '(rest', found) ← upload_kyc_document_loop rest user_id document;
        mret (user :: rest', found)
  end.

(** [upload_kyc_document(user_id, document_type, file_path)] *)
Definition upload_kyc_document (user_id document_type file_path : value) : M bool :=
  users ← load_users;
  now ← datetime_now;
  let document :=
    [("type", document_type);
     ("file_path", file_path);
     ("uploaded_at", VStr (isoformat now));
     ("verified", VBool false)] in
  '(users', found) ← lift (upload_kyc_document_loop users user_id document);
  if found : bool then save_users users' ;; mret true
  else mret false.

(** [get_user_data(user_id)] *)
Definition get_user_data (user_id : value) : M (option dict) :=
  users ← load_users;
  lift (find_by_id users user_id).

End Auth.

End Auth.

(** ** main-app.py: the access check *)

Module MainApp.

Section MainApp.

Variable SECRET_KEY : string.
Variable token : Type.
Variable jwt_decode : token -> string -> M dict.

(** [check_auth()], with the two fields of the UI session that it reads
    as arguments.  A token that is present counts as true: PyJWT never
    issues the empty string. *)
Definition check_auth (session_user : option dict) (auth_token : option token)
    : M bool :=
  match session_user, auth_token with
  | Some (field :: fields), Some tok =>
      '(valid, user_id, payload) ← Auth.verify_token SECRET_KEY token jwt_decode tok;
      if valid : bool then
        id ← lift (getitem (field :: fields) "id");
        if py_eq user_id id then mret true else mret false
      else mret false
  | _, _ => mret false
  end.

End MainApp.

End MainApp.

(** ** video-verification.py: the session bookkeeping *)

Module VideoStream.

Section Sessions.

Variable isoformat : Z -> string.

(** [load_verification_sessions()] *)
Definition load_verification_sessions : M (list dict) :=
  try_except (read_json "data/verification_sessions.json")
    (fun e =>
       match e with
       | FileNotFoundError | JSONDecodeError =>
           write_json "data/verification_sessions.json" [] ;; mret []
       | _ => raise e
       end).

(** [save_verification_sessions(sessions)] *)
Definition save_verification_sessions (sessions : list dict) : M unit :=
  write_json "data/verification_sessions.json" sessions.

(** [start_live_verification_session(property_id, owner_id, renter_id)] *)
Definition start_live_verification_session (property_id owner_id renter_id : value)
    : M (option string) :=
  session_id ← uuid4;
  now ← datetime_now;
  let session_data :=
    [("id", VStr session_id);
     ("property_id", property_id);
     ("owner_id", owner_id);
     ("renter_id", renter_id);
     ("created_at", VStr (isoformat now));
     ("status", VStr "pending");
     ("images", VList [])] in
  try_except
    (sessions ← load_verification_sessions;
     save_verification_sessions (sessions ++ [session_data]) ;;
     mret (Some session_id))
    (fun _ => print ;; mret None).

(** The loop of [add_verification_image]: at the first session with the
    id, append to its [images] and stamp [last_updated]. *)
Fixpoint add_verification_image_loop (sessions : list dict) (session_id : value)
    (image_data : value) (last_updated : string) : result (list dict * bool) :=
  match sessions with
  | [] => mret ([], false)
  | session :: rest =>
      id ← getitem session "id";
      if py_eq id session_id then
        images ← getitem session "images";
        match images with
        | VList l =>
            mret (dict_set "last_updated" (VStr last_updated)
                    (dict_set "images" (VList (l ++ [image_data])) session)
                  :: rest, true)
        | _ => Raise AttributeError
        end
      else
        '(rest', found) ←
          add_verification_image_loop rest session_id image_data last_updated;
        mret (session :: rest', found)
  end.

(** [add_verification_image(session_id, image_data)].  The clock is read
    once before the loop, as in [complete_verification_session] below. *)
Definition add_verification_image (session_id image_data : value) : M bool :=
  sessions ← load_verification_sessions;
  now ← datetime_now;
  '(sessions', found) ←
    lift (add_verification_image_loop sessions session_id image_data
            (isoformat now));
  if found : bool then save_verification_sessions sessions' ;; mret true
  else mret false.

(** The three assignments of [complete_verification_session]. *)
Definition complete (verified : value) (completed_at : string) (session : dict)
    : dict :=
  dict_set "completed_at" (VStr completed_at)
    (dict_set "verified" verified
       (dict_set "status" (VStr "completed") session)).

(** [complete_verification_session(session_id, verified=True)].  The
    source reads the clock inside the loop, at the matching session;
    reading it has no effect, so it is read once before the loop. *)
Definition complete_verification_session (session_id verified : value) : M bool :=
  sessions ← load_verification_sessions;
  now ← datetime_now;
  '(sessions', found) ← lift (change_first sessions session_id
                                (complete verified (isoformat now)));
  if found : bool then save_verification_sessions sessions' ;; mret true
  else mret false.

(** [get_verification_session(session_id)] *)
Definition get_verification_session (session_id : value) : M (option dict) :=
  sessions ← load_verification_sessions;
  lift (find_by_id sessions session_id).

End Sessions.

End VideoStream.

(** ** database-implementation.py *)

(** The integer nearest to [z] among the IEEE-754 doubles (ties to even):
    integers below [2^53] in magnitude are doubles themselves, larger ones
    keep 53 significant bits. *)
Definition nearest_double (z : Z) : Z :=
  let a := Z.abs z in
  if (a <? 2 ^ 53)%Z then z
  else
    let shift := (Z.log2 a - 52)%Z in
    let q := Z.shiftr a shift in
    let r := (a - Z.shiftl q shift)%Z in
    let half := (2 ^ (shift - 1))%Z in
    let q' := if (half <? r)%Z || ((r =? half)%Z && Z.odd q)
              then (q + 1)%Z else q in
    (Z.sgn z * Z.shiftl q' shift)%Z.

(** [needle in haystack] on strings. *)
Fixpoint contains (needle haystack : string) : bool :=
  String.prefix needle haystack ||
  match haystack with
  | EmptyString => false
  | String _ rest => contains needle rest
  end.

(** [[p for p in properties if test(p)]] *)
Fixpoint comprehension (test : dict -> result bool) (properties : list dict)
    : result (list dict) :=
  match properties with
  | [] => mret []
  | p :: rest =>
      keep ← test p;
      kept ← comprehension test rest;
      mret (if keep : bool then p :: kept else kept)
  end.

Module DatabaseImpl.

Definition PROPERTIES_FILE : string := "data/properties.json".
Definition BOOKINGS_FILE : string := "data/bookings.json".
Definition REVIEWS_FILE : string := "data/reviews.json".

(** [load_data] and [save_data] have the same text as in
    [utils/database.py]. *)
Definition load_data : string -> M (list dict) := Database.load_data.
Definition save_data : list dict -> string -> M (option bool) :=
  Database.save_data.

Section Runtime.

(** [datetime.isoformat], [str.lower], and [float] on a string (with its
    finite results as rationals). *)
Variable isoformat : Z -> string.
Variable str_lower : string -> string.
Variable float_of_str : string -> result Q.

(** [float(v)] *)
Definition py_float (v : value) : result Q :=
  match v with
  | VInt z =>
      let d := nearest_double z in
      if (2 ^ 1024 <=? Z.abs d)%Z then Raise OverflowError
      else Ok (inject_Z d)
  | VBool b => Ok (inject_Z (Z.b2z b))
  | VStr s => float_of_str s
  | VNone | VList _ | VDict _ => Raise TypeError
  end.

(** [x >= v] and [x <= v] for a float [x]: exact against a number, a
    [TypeError] against anything else. *)
Definition float_ge (x : Q) (v : value) : result bool :=
  match v with
  | VInt z => Ok (Qle_bool (inject_Z z) x)
  | VBool b => Ok (Qle_bool (inject_Z (Z.b2z b)) x)
  | _ => Raise TypeError
  end.

Definition float_le (x : Q) (v : value) : result bool :=
  match v with
  | VInt z => Ok (Qle_bool x (inject_Z z))
  | VBool b => Ok (Qle_bool x (inject_Z (Z.b2z b)))
  | _ => Raise TypeError
  end.

(** [v.lower()], an [AttributeError] unless [v] is a string. *)
Definition lower (v : value) : result string :=
  match v with
  | VStr s => Ok (str_lower s)
  | _ => Raise AttributeError
  end.

(** [p[key] == wanted] *)
Definition field_equals (key : string) (wanted : value) (p : dict) : result bool :=
  stored ← getitem p key;
  mret (py_eq stored wanted).

(** [float(p['price_per_day']) >= lo and float(p['price_per_day']) <= hi] *)
Definition price_between (lo hi : value) (p : dict) : result bool :=
  price ← getitem p "price_per_day";
  x ← py_float price;
  above ← float_ge x lo;
  if above : bool then
    price' ← getitem p "price_per_day";
    x' ← py_float price';
    float_le x' hi
  else mret false.

(** [filters['location'].lower() in p['location'].lower()] *)
Definition location_contains (wanted : value) (p : dict) : result bool :=
  needle ← lower wanted;
  location ← getitem p "location";
  haystack ← lower location;
  mret (contains needle haystack).

(** One [if key in filters: filtered = [...]] stage. *)
Definition stage (filters : dict) (key : string)
    (test : value -> dict -> result bool) (properties : list dict)
    : result (list dict) :=
  match dict_get key filters with
  | Some wanted => comprehension (test wanted) properties
  | None => mret properties
  end.

(** The filter stages of [get_properties], in the order of the source. *)
Definition apply_filters (filters : dict) (properties : list dict)
    : result (list dict) :=
  filtered ← stage filters "owner_id" (field_equals "owner_id") properties;
  filtered ← stage filters "status" (field_equals "status") filtered;
  filtered ← stage filters "verified" (field_equals "verified") filtered;
  filtered ← match dict_get "price_min" filters, dict_get "price_max" filters with
             | Some lo, Some hi => comprehension (price_between lo hi) filtered
             | _, _ => mret filtered
             end;
  filtered ← stage filters "location" location_contains filtered;
  stage filters "property_type" (field_equals "property_type") filtered.

(** [get_properties(filters=None)] *)
Definition get_properties (filters : option dict) : M (list dict) :=
  properties ← load_data PROPERTIES_FILE;
  if negb (truthy filters) then mret properties
  else lift (apply_filters (default [] filters) properties).

(** [create_property(owner_id, property_data)] *)
Definition create_property (owner_id : value) (property_data : dict) : M dict :=
  properties ← load_data PROPERTIES_FILE;
  id ← uuid4;
  created ← datetime_now;
  updated ← datetime_now;
  let new_property :=
    dict_merge
      [("id", VStr id);
       ("owner_id", owner_id);
       ("created_at", VStr (isoformat created));
       ("updated_at", VStr (isoformat updated));
       ("status", VStr "active");
       ("verified", VBool false);
       ("blockchain_registered", VBool false);
       ("contract_address", VNone)]
      property_data in
  save_data (properties ++ [new_property]) PROPERTIES_FILE ;;
  mret new_property.

(** The loop of [update_property] from index [i] on. *)
Fixpoint update_property_loop (properties : list dict) (i : nat)
    (rest : list dict) (property_id : value) (updated_data : dict)
    : M (option dict) :=
  match rest with
  | [] => mret None
  | prop :: rest' =>
      id ← lift (getitem prop "id");
      if py_eq id property_id then
        let updated := dict_update prop updated_data in
        now ← datetime_now;
        let updated := dict_set "updated_at" (VStr (isoformat now)) updated in
        save_data (<[i := updated]> properties) PROPERTIES_FILE ;;
        mret (Some updated)
      else update_property_loop properties (S i) rest' property_id updated_data
  end.

(** [update_property(property_id, updated_data)] *)
Definition update_property (property_id : value) (updated_data : dict)
    : M (option dict) :=
  properties ← load_data PROPERTIES_FILE;
  update_property_loop properties 0 properties property_id updated_data.

(** [create_review(review_data)] *)
Definition create_review (review_data : dict) : M dict :=
  reviews ← load_data REVIEWS_FILE;
  id ← uuid4;
  now ← datetime_now;
  let new_review :=
    dict_merge
      [("id", VStr id);
       ("created_at", VStr (isoformat now));
       ("blockchain_registered", VBool false);
       ("transaction_hash", VNone)]
      review_data in
  save_data (reviews ++ [new_review]) REVIEWS_FILE ;;
  mret new_review.

(** [create_booking(booking_data)] *)
Definition create_booking (booking_data : dict) : M dict :=
  bookings ← load_data BOOKINGS_FILE;
  id ← uuid4;
  now ← datetime_now;
  let new_booking :=
    dict_merge
      [("id", VStr id);
       ("created_at", VStr (isoformat now));
       ("status", VStr "pending");
       ("payment_status", VStr "pending");
       ("contract_address", VNone);
       ("transaction_hash", VNone)]
      booking_data in
  save_data (bookings ++ [new_booking]) BOOKINGS_FILE ;;
  mret new_booking.

(** [x in xs] on a list, by [==]. *)
Definition py_in (x : value) (xs : list value) : bool :=
  existsb (fun y => py_eq y x) xs.

(** [[p['id'] for p in properties if p['owner_id'] == owner_id]] *)
Fixpoint owned_ids (properties : list dict) (owner_id : value)
    : result (list value) :=
  match properties with
  | [] => mret []
  | p :: rest =>
      owner ← getitem p "owner_id";
      ids ← (if py_eq owner owner_id then id ← getitem p "id"; mret [id]
             else mret []);
      ids' ← owned_ids rest owner_id;
      mret (ids ++ ids')
  end.

(** [get_bookings(filters=None)] *)
Definition get_bookings (filters : option dict) : M (list dict) :=
  bookings ← load_data BOOKINGS_FILE;
  if negb (truthy filters) then mret bookings
  else
    let filters := default [] filters in
    filtered ← lift (
      filtered ← stage filters "renter_id" (field_equals "renter_id") bookings;
      filtered ← stage filters "property_id" (field_equals "property_id") filtered;
      stage filters "status" (field_equals "status") filtered);
    match dict_get "owner_id" filters with
    | Some owner_id =>
        properties ← load_data PROPERTIES_FILE;
        property_ids ← lift (owned_ids properties owner_id);
        lift (comprehension
                (fun b => property_id ← getitem b "property_id";
                          mret (py_in property_id property_ids))
                filtered)
    | None => mret filtered
    end.

(** The loop of [update_booking] from index [i] on. *)
Fixpoint update_booking_loop (bookings : list dict) (i : nat)
    (rest : list dict) (booking_id : value) (updated_data : dict)
    : M (option dict) :=
  match rest with
  | [] => mret None
  | booking :: rest' =>
      id ← lift (getitem booking "id");
      if py_eq id booking_id then
        let updated := dict_update booking updated_data in
        save_data (<[i := updated]> bookings) BOOKINGS_FILE ;;
        mret (Some updated)
      else update_booking_loop bookings (S i) rest' booking_id updated_data
  end.

(** [update_booking(booking_id, updated_data)] *)
Definition update_booking (booking_id : value) (updated_data : dict)
    : M (option dict) :=
  bookings ← load_data BOOKINGS_FILE;
  update_booking_loop bookings 0 bookings booking_id updated_data.

(** The truth value of a Python value. *)
Definition value_truthy (v : value) : bool :=
  match v with
  | VNone => false
  | VBool b => b
  | VInt z => negb (z =? 0)%Z
  | VStr s => negb (String.eqb s "")
  | VList l => match l with [] => false | _ => true end
  | VDict d => match d with [] => false | _ => true end
  end.

(** [get_reviews(property_id=None, user_id=None)] *)
Definition get_reviews (property_id user_id : value) : M (list dict) :=
  reviews ← load_data REVIEWS_FILE;
  if value_truthy property_id then
    lift (comprehension (field_equals "property_id" property_id) reviews)
  else if value_truthy user_id then
    lift (comprehension (field_equals "reviewer_id" user_id) reviews)
  else mret reviews.

End Runtime.

End DatabaseImpl.

(** ** Vocabulary of the statements *)

(** Whether one attempt of [save_data] (write the temporary file, then
    rename it) gets through the fault schedule, and what it leaves of the
    schedule. *)
Definition attempt_succeeds (fs : list fault) : bool * list fault :=
  match fs with
  | [] => (true, [])
  | NoFault :: [] => (true, [])
  | NoFault :: NoFault :: rest => (true, rest)
  | NoFault :: _ :: rest => (false, rest)
  | _ :: rest => (false, rest)
  end.

(** Every one of the next [n] attempts fails. *)
Fixpoint all_attempts_fail (n : nat) (fs : list fault) : bool :=
  match n with
  | O => true
  | S n' =>
      negb (fst (attempt_succeeds fs))
      && all_attempts_fail n' (snd (attempt_succeeds fs))
  end.

(** The attempts and the delays of a trace. *)
Inductive step : Type :=
  | Attempt
  | Delay (seconds : Q).

Definition step_of (e : event) : option step :=
  match e with
  | EvWrite _ _ => Some Attempt
  | EvSleep seconds => Some (Delay seconds)
  | EvReplace _ _ _ | EvPrint => None
  end.

Definition steps (events : list event) : list step := omap step_of events.

(** [n] failed attempts with a delay between consecutive ones. *)
Fixpoint failed_run (n : nat) : list step :=
  match n with
  | O => []
  | S O => [Attempt]
  | S n' => Attempt :: Delay Database.retry_delay :: failed_run n'
  end.

(** A world holding the given files, with no faults scheduled. *)
Definition world_of (fs : list (string * file)) (fl : list fault) (now : Z) : world :=
  World (list_to_map fs) fl now (fun _ => "00000000-0000-4000-8000-000000000000") 0 [].

(** The record's [status] is [s]. *)
Definition status_is (s : string) (p : dict) : bool :=
  match dict_get "status" p with
  | Some v => py_eq v (VStr s)
  | None => false
  end.

(** The record has no [status], or its [status] is [s]. *)
Definition status_absent_or (s : string) (p : dict) : bool :=
  match dict_get "status" p with
  | Some v => py_eq v (VStr s)
  | None => true
  end.

(** The record's [price_per_day] is an integer. *)
Definition integer_price (p : dict) : bool :=
  match dict_get "price_per_day" p with
  | Some (VInt _) => true
  | _ => false
  end.

(** The record's [price_per_day] is an integer that [float] represents
    exactly. *)
Definition exact_price (p : dict) : bool :=
  match dict_get "price_per_day" p with
  | Some (VInt z) => (Z.abs z <? 2 ^ 53)%Z
  | _ => false
  end.

(** The record's [price_per_day] is an integer in [[lo, hi]]. *)
Definition price_within (lo hi : Z) (p : dict) : bool :=
  match dict_get "price_per_day" p with
  | Some (VInt z) => (lo <=? z)%Z && (z <=? hi)%Z
  | _ => false
  end.

(** The record has an [id], which is / is not [id]. *)
Definition id_matches (id : value) (r : dict) : bool :=
  match dict_get "id" r with
  | Some v => py_eq v id
  | None => false
  end.

Definition id_differs (id : value) (r : dict) : bool :=
  match dict_get "id" r with
  | Some v => negb (py_eq v id)
  | None => false
  end.

(** The user record has this email and this password hash. *)
Definition credentials_match (email password_hash : string) (user : dict) : bool :=
  match dict_get "email" user, dict_get "password_hash" user with
  | Some e, Some h => py_eq e (VStr email) && py_eq h (VStr password_hash)
  | _, _ => false
  end.

(** The user record has the fields that [verify_user] reads. *)
Definition user_fields_ok (user : dict) : bool :=
  dict_has "id" user && dict_has "email" user && dict_has "password_hash" user.

(** Sample records. *)
Definition alice : dict :=
  [("id", VStr "u1");
   ("email", VStr "alice@example.com");
   ("password_hash", VStr "sha256:pw123");
   ("full_name", VStr "Alice");
   ("user_type", VStr "owner");
   ("kyc_verified", VBool false)].

Definition cottage : dict :=
  [("id", VStr "p1");
   ("owner_id", VStr "u1");
   ("created_at", VStr "2024-01-01T00:00:00");
   ("title", VStr "Cottage");
   ("price_per_day", VInt 5000);
   ("capacity", VInt 4);
   ("status", VStr "active")].

(** A listing that was stored without a [status]. *)
Definition barn : dict :=
  [("id", VStr "p2");
   ("owner_id", VStr "u1");
   ("created_at", VStr "2024-01-02T00:00:00");
   ("title", VStr "Barn");
   ("price_per_day", VInt 800)].

Definition properties_world (stored : list dict) : world :=
  world_of [("data/properties.json", Json stored)] [] 0.

(** Stand-ins for [str.lower] and for [float] on strings in the examples. *)
Definition toy_lower (s : string) : string := s.
Definition toy_float (s : string) : result Q := Raise ValueError.

(** The expiry of a token issued at the instant [now]: the instant at
    which the local wall clock reads 24 hours more than it does at [now].
    That is 24 hours after [now] unless the offset of the local zone
    changes in between. *)
Definition token_expiry (fromtimestamp timestamp : Z -> Z) (now : Z) : Z :=
  timestamp (fromtimestamp now + 24 * 3600)%Z.

(** The payload of the token that [verify_user] issues for [user], with
    its expiry. *)
Definition issued_payload (user : dict) (expiry : Z) : dict :=
  [("user_id", default VNone (dict_get "id" user));
   ("email", default VNone (dict_get "email" user));
   ("exp", VInt expiry)].

(** A local zone for the examples, 5 hours 30 minutes ahead of UTC all
    year. *)
Definition toy_fromtimestamp (t : Z) : Z := (t + 19800)%Z.
Definition toy_timestamp (reading : Z) : Z := (reading - 19800)%Z.

(** A local zone whose clocks go back by one hour at the instant 50000,
    from 2 hours to 1 hour ahead of UTC; a reading that occurs twice
    stands for its first occurrence. *)
Definition autumn_fromtimestamp (t : Z) : Z :=
  if (t <? 50000)%Z then (t + 7200)%Z else (t + 3600)%Z.
Definition autumn_timestamp (reading : Z) : Z :=
  if (reading <? 57200)%Z then (reading - 7200)%Z else (reading - 3600)%Z.

(** What the statements assume of PyJWT: decoding, with the key it was
    signed with, a token whose [exp] claim has passed raises
    [ExpiredSignatureError] (and leaves the world alone). *)
Definition rejects_expired {token : Type} (jwt_encode : dict -> string -> token)
    (jwt_decode : token -> string -> M dict) : Prop :=
  forall (payload : dict) (key : string) (exp : Z) (w : world),
    dict_get "exp" payload = Some (VInt exp) ->
    (exp < clock w)%Z ->
    jwt_decode (jwt_encode payload key) key w = (Raise ExpiredSignatureError, w).

(** A symbolic PyJWT for the examples: a token is its payload together
    with the key it was signed with; any other string is [Garbled].
    Decoding checks the signature, then the [exp] claim against the clock
    (expired when [exp <= now]). *)
Inductive toy_token : Type :=
  | Signed (payload : dict) (key : string)
  | Garbled (text : string).

Definition toy_encode (payload : dict) (key : string) : toy_token :=
  Signed payload key.

Definition toy_decode (tok : toy_token) (key : string) : M dict :=
  match tok with
  | Garbled _ => raise InvalidTokenError
  | Signed payload signed_with =>
      if negb (String.eqb signed_with key) then raise InvalidTokenError
      else
        match dict_get "exp" payload with
        | None => mret payload
        | Some (VInt exp) =>
            now ← datetime_now;
            if (exp <=? now)%Z then raise ExpiredSignatureError else mret payload
        | Some _ => raise InvalidTokenError
        end
  end.

(** The fields that [update_property] of [utils/database.py] carries over. *)
Definition carried_over (key : string) : bool :=
  String.eqb key "id" || String.eqb key "owner_id" || String.eqb key "created_at".

(** A review with a rating outside [1..5]. *)
Definition rave : dict :=
  [("id", VStr "r1");
   ("property_id", VStr "p1");
   ("user_id", VStr "u1");
   ("rating", VInt 7);
   ("comment", VStr "Off the scale");
   ("verified", VBool false)].

(** A pending verification session. *)
Definition viewing : dict :=
  [("id", VStr "s1");
   ("property_id", VStr "p1");
   ("owner_id", VStr "u1");
   ("renter_id", VStr "u2");
   ("created_at", VStr "2024-01-01T00:00:00");
   ("status", VStr "pending");
   ("images", VList [])].

(** The data of a new listing, as the listing form of the application
    passes it to [create_property]. *)
Definition loft : dict :=
  [("id", VStr "p9");
   ("owner_id", VStr "u1");
   ("title", VStr "Loft");
   ("location", VStr "C-Scheme");
   ("property_type", VStr "Apartment");
   ("price_per_day", VInt 5000);
   ("capacity", VInt 4)].

(** A stand-in for SHA-256 in the examples. *)
Definition toy_hash (s : string) : string := "sha256:" +:+ s.

(** A stand-in for the date formats in the examples. *)
Definition toy_format (t : Z) : string :=
  if (t =? 0)%Z then "1970-01-01T00:00:00" else "later".

(** The fields that [create_property] of [utils/database.py] sets itself. *)
Definition set_by_create (key : string) : bool :=
  existsb (String.eqb key)
    ["status"; "verified"; "blockchain_registered"; "created_at"; "updated_at"].

(** The fields that [create_property] of [utils/database.py] requires. *)
Definition required_of_property : list string :=
  ["id"; "owner_id"; "title"; "location"; "property_type"; "price_per_day";
   "capacity"].

(** The record does not contradict the filter [kv]: it lacks the key or
    has the wanted value under it. *)
Definition agrees_with (record : dict) (kv : string * value) : bool :=
  match dict_get (fst kv) record with
  | Some stored => py_eq stored (snd kv)
  | None => true
  end.

(** A booking as the application passes it to [create_booking]. *)
Definition stay : dict :=
  [("id", VStr "b1");
   ("property_id", VStr "p1");
   ("guest_id", VStr "u2");
   ("owner_id", VStr "u1");
   ("check_in", VStr "2024-01-01");
   ("check_out", VStr "2024-01-03");
   ("status", VStr "pending")].

(** The user record has this email. *)
Definition has_email (email : string) (user : dict) : bool :=
  match dict_get "email" user with
  | Some e => py_eq e (VStr email)
  | None => false
  end.

(** What the statements assume of PyJWT for tokens that are still valid:
    decoding, with the key it was signed with, a token whose [exp] claim
    lies ahead gives back the payload (and leaves the world alone). *)
Definition accepts_unexpired {token : Type} (jwt_encode : dict -> string -> token)
    (jwt_decode : token -> string -> M dict) : Prop :=
  forall (payload : dict) (key : string) (exp : Z) (w : world),
    dict_get "exp" payload = Some (VInt exp) ->
    (clock w < exp)%Z ->
    jwt_decode (jwt_encode payload key) key w = (Ok payload, w).

(** The KYC documents of a user record: none when the field is absent,
    undefined when the field is not a list. *)
Definition documents_of (user : dict) : option (list value) :=
  match dict_get "kyc_documents" user with
  | None => Some []
  | Some (VList l) => Some l
  | Some _ => None
  end.

(** The capacity lies in the range that [generate_sample_properties]
    draws from for the property type. *)
Definition capacity_fits (property_type : string) (capacity : Z) : bool :=
  if existsb (String.eqb property_type) ["House"; "Apartment"]
  then (4 <=? capacity)%Z && (capacity <=? 8)%Z
  else if String.eqb property_type "Villa"
  then (8 <=? capacity)%Z && (capacity <=? 15)%Z
  else (20 <=? capacity)%Z && (capacity <=? 100)%Z.

(** A sample listing: one of the six property types, a price between 1000
    and 10000, a capacity that fits the type, active, and owned by the
    placeholder owner. *)
Definition well_formed_sample (p : dict) : bool :=
  match dict_get "price_per_day" p, dict_get "capacity" p,
        dict_get "property_type" p, dict_get "owner_id" p with
  | Some (VInt price), Some (VInt capacity), Some (VStr property_type),
    Some (VStr owner) =>
      (1000 <=? price)%Z && (price <=? 10000)%Z
      && capacity_fits property_type capacity
      && existsb (String.eqb property_type) (map fst Database.property_types)
      && String.eqb owner "sample_owner_id"
      && status_is "active" p
  | _, _, _, _ => false
  end.

(** The property is owned by [owner_id] and has an [id], which is the
    booking's [property_id]. *)
Definition books_property_of (owner_id : value) (booking property : dict) : bool :=
  match dict_get "owner_id" property, dict_get "id" property,
        dict_get "property_id" booking with
  | Some owner, Some id, Some property_id =>
      py_eq owner owner_id && py_eq id property_id
  | _, _, _ => false
  end.

(** The record has the value [wanted] under [key]. *)
Definition field_is (key : string) (wanted : value) (record : dict) : bool :=
  match dict_get key record with
  | Some stored => py_eq stored wanted
  | None => false
  end.

(** * Properties *)

(** ** Values and dictionaries *)

Lemma py_eq_VStr (v : value) (s : string) :
  py_eq v (VStr s) = true <-> v = VStr s.
Proof.
  destruct v; simpl; split; intros H; try discriminate.
  - apply String.eqb_eq in H. now subst.
  - injection H as ->. apply String.eqb_refl.
Qed.

Lemma dict_get_set_eq (k : string) (v : value) (d : dict) :
  dict_get k (dict_set k v d) = Some v.
Proof.
  induction d as [|[k' v'] d IH]; simpl.
  - now rewrite String.eqb_refl.
  - destruct (String.eqb k' k) eqn:E; simpl; rewrite E; auto.
Qed.

Lemma dict_get_set_ne (k k' : string) (v : value) (d : dict) :
  k <> k' -> dict_get k' (dict_set k v d) = dict_get k' d.
Proof.
  intros Hne. induction d as [|[k0 v0] d IH]; simpl.
  - apply String.eqb_neq in Hne. now rewrite Hne.
  - destruct (String.eqb k0 k) eqn:E; simpl.
    + apply String.eqb_eq in E. subst k0.
      apply String.eqb_neq in Hne. now rewrite Hne.
    + now rewrite IH.
Qed.

Lemma dict_set_same (k : string) (v : value) (d : dict) :
  dict_get k d = Some v -> dict_set k v d = d.
Proof.
  induction d as [|[k0 v0] d IH]; simpl; [discriminate|].
  destruct (String.eqb k0 k); intros H.
  - now injection H as ->.
  - now rewrite IH.
Qed.

Lemma dict_set_set (k : string) (v1 v2 : value) (d : dict) :
  dict_set k v2 (dict_set k v1 d) = dict_set k v2 d.
Proof.
  induction d as [|[k0 v0] d IH]; simpl.
  - now rewrite String.eqb_refl.
  - destruct (String.eqb k0 k) eqn:E; simpl; rewrite E; [reflexivity|].
    now rewrite IH.
Qed.

(** Keys that [other] does not mention are untouched by [d.update(other)]. *)
Lemma dict_get_update_other (k : string) (d other : dict) :
  dict_has k other = false -> dict_get k (dict_update d other) = dict_get k d.
Proof.
  unfold dict_update, dict_has. revert d.
  induction other as [|[k0 v0] other IH]; intros d H; simpl in *; [reflexivity|].
  destruct (String.eqb k0 k) eqn:E; [discriminate|].
  rewrite IH by assumption.
  apply dict_get_set_ne. now apply String.eqb_neq.
Qed.

(** With distinct keys in [other], its bindings are those of the update. *)
Lemma dict_get_update_in (k : string) (v : value) (d other : dict) :
  NoDup (map fst other) -> dict_get k other = Some v ->
  dict_get k (dict_update d other) = Some v.
Proof.
  unfold dict_update. revert d.
  induction other as [|[k0 v0] other IH]; intros d Hnd H; simpl in *; [discriminate|].
  inversion Hnd as [|? ? Hnotin Hnd']; subst.
  destruct (String.eqb k0 k) eqn:E.
  - apply String.eqb_eq in E. subst k0. injection H as ->.
    change (dict_get k (dict_update (dict_set k v d) other) = Some v).
    rewrite dict_get_update_other; [apply dict_get_set_eq|].
    unfold dict_has. destruct (dict_get k other) eqn:G; [|reflexivity].
    exfalso. apply Hnotin. clear -G.
    induction other as [|[k1 v1] other IH]; simpl in *; [discriminate|].
    destruct (String.eqb k1 k) eqn:E.
    + apply String.eqb_eq in E. subst. now left.
    + right. now apply IH.
  - now apply IH.
Qed.

(** ** The monad *)

Lemma bind_Ok {A B : Type} (m : M A) (f : A -> M B) (w w' : world) (a : A) :
  m w = (Ok a, w') -> (m ≫= f) w = f a w'.
Proof. intros H. unfold mbind, M_bind. now rewrite H. Qed.

Lemma bind_Raise {A B : Type} (m : M A) (f : A -> M B) (w w' : world) (e : exn) :
  m w = (Raise e, w') -> (m ≫= f) w = (Raise e, w').
Proof. intros H. unfold mbind, M_bind. now rewrite H. Qed.

(** ** C9: [load_data] and [load_users] *)

Lemma read_json_present (path : string) (records : list dict) (w : world) :
  files w !! path = Some (Json records) -> read_json path w = (Ok records, w).
Proof. intros H. unfold read_json. now rewrite H. Qed.

Lemma write_json_no_fault (path : string) (data : list dict) (w : world) :
  fst (next_fault w) = NoFault ->
  exists w', write_json path data w = (Ok tt, w')
    /\ files w' = <[path := Json data]> (files w)
    /\ faults w' = tl (faults w)
    /\ clock w' = clock w
    /\ trace w' = trace w ++ [EvWrite path NoFault].
Proof.
  intros H. destruct w as [fs flt c us un tr].
  unfold write_json, next_fault in *. simpl in *.
  destruct flt as [|f flt]; simpl in *; [|subst f];
    (eexists; split; [reflexivity|simpl; auto]).
Qed.

Lemma load_with_fallback (path : string) (w : world) :
  let load :=
    try_except (read_json path)
      (fun e =>
         match e with
         | FileNotFoundError | JSONDecodeError => write_json path [] ;; mret []
         | _ => raise e
         end) in
  (forall records, files w !! path = Some (Json records) ->
     load w = (Ok records, w))
  /\ (files w !! path = None \/ files w !! path = Some Corrupt ->
      fst (next_fault w) = NoFault ->
      exists w', load w = (Ok [], w')
        /\ files w' = <[path := Json []]> (files w)
        /\ faults w' = tl (faults w)
        /\ clock w' = clock w
        /\ trace w' = trace w ++ [EvWrite path NoFault]).
Proof.
  simpl. split.
  - intros records H. unfold try_except. now rewrite (read_json_present _ _ _ H).
  - intros Hmissing Hfault.
    destruct (write_json_no_fault path [] w Hfault) as (w' & Hw & Hrest).
    exists w'. split; [|exact Hrest].
    unfold try_except, read_json.
    destruct Hmissing as [-> | ->]; now rewrite (bind_Ok _ _ _ _ _ Hw).
Qed.

(** C9. [load_data] returns the persisted collection when the file exists
    and parses; when the file is absent or does not parse (and the write of
    the replacement goes through) it returns the empty sequence and leaves
    the file holding an empty collection.  [load_users] does the same for
    the users file. *)
Theorem load_data_returns_collection_or_empty (path : string) (w : world) :
  (forall records, files w !! path = Some (Json records) ->
     Database.load_data path w = (Ok records, w))
  /\ (files w !! path = None \/ files w !! path = Some Corrupt ->
      fst (next_fault w) = NoFault ->
      exists w', Database.load_data path w = (Ok [], w')
        /\ files w' !! path = Some (Json []))
  /\ (forall users, files w !! "data/users.json" = Some (Json users) ->
     Auth.load_users w = (Ok users, w))
  /\ (files w !! "data/users.json" = None
      \/ files w !! "data/users.json" = Some Corrupt ->
      fst (next_fault w) = NoFault ->
      exists w', Auth.load_users w = (Ok [], w')
        /\ files w' !! "data/users.json" = Some (Json [])).
Proof.
  destruct (load_with_fallback path w) as [Hd1 Hd2].
  destruct (load_with_fallback "data/users.json" w) as [Hu1 Hu2].
  repeat split.
  - exact Hd1.
  - intros Hm Hf. destruct (Hd2 Hm Hf) as (w' & Hl & Hfiles & _).
    exists w'. split; [exact Hl|]. rewrite Hfiles. apply lookup_insert_eq.
  - exact Hu1.
  - intros Hm Hf. destruct (Hu2 Hm Hf) as (w' & Hl & Hfiles & _).
    exists w'. split; [exact Hl|]. rewrite Hfiles. apply lookup_insert_eq.
Qed.

Lemma load_data_returns_collection_or_empty_witness :
  Database.load_data "data/users.json"
    (world_of [("data/users.json", Json [alice])] [] 0)
  = (Ok [alice], world_of [("data/users.json", Json [alice])] [] 0)
  /\ (exists w', Database.load_data "data/reviews.json" (world_of [] [] 0)
                 = (Ok [], w')
               /\ files w' !! "data/reviews.json" = Some (Json []))
  /\ (exists w', Auth.load_users
                   (world_of [("data/users.json", Corrupt)] [NoFault] 0)
                 = (Ok [], w')
               /\ files w' !! "data/users.json" = Some (Json [])).
Proof.
  split; [|split].
  - apply (load_data_returns_collection_or_empty "data/users.json"
             (world_of [("data/users.json", Json [alice])] [] 0)).
    reflexivity.
  - apply (load_data_returns_collection_or_empty "data/reviews.json"
             (world_of [] [] 0)); [left|]; reflexivity.
  - apply (load_data_returns_collection_or_empty "data/users.json"
             (world_of [("data/users.json", Corrupt)] [NoFault] 0));
      [right|]; reflexivity.
Defined.

(** ** C5, C3: [save_data] *)

Lemma string_length_append (s t : string) :
  String.length (s +:+ t) = String.length s + String.length t.
Proof. induction s; simpl; auto. Qed.

Lemma tmp_path_distinct (path : string) : path +:+ ".tmp" <> path.
Proof.
  intros H. apply (f_equal String.length) in H.
  rewrite string_length_append in H. simpl in H. lia.
Qed.

Lemma steps_app (l1 l2 : list event) : steps (l1 ++ l2) = steps l1 ++ steps l2.
Proof. apply omap_app. Qed.

(** One attempt: write the temporary file, rename it over the target. *)
Lemma attempt_spec (data : list dict) (path : string) (w : world) :
  let tmp := path +:+ ".tmp" in
  exists r w' evs,
    (write_json tmp data ;; os_replace tmp path ;; mret (Database.Return true)) w
      = (r, w')
    /\ trace w' = trace w ++ evs
    /\ steps evs = [Attempt]
    /\ faults w' = snd (attempt_succeeds (faults w))
    /\ (if fst (attempt_succeeds (faults w))
        then r = Ok (Database.Return true)
             /\ files w' !! path = Some (Json data)
        else (exists e, r = Raise e)
             /\ files w' !! path = files w !! path).
Proof.
  intros tmp. pose proof (tmp_path_distinct path) as Hne. fold tmp in Hne.
  destruct w as [fs flt c us un tr].
  unfold mbind, M_bind, mret, M_ret, write_json, os_replace, next_fault, log,
    set_files.
  destruct flt as [|f1 flt]; [|destruct f1]; simpl.
  - rewrite lookup_insert_eq. simpl.
    do 3 eexists. split; [reflexivity|]. simpl.
    split; [rewrite <- app_assoc; reflexivity|].
    split; [reflexivity|]. split; [reflexivity|].
    split; [reflexivity|]. apply lookup_insert_eq.
  - destruct flt as [|f2 flt]; [|destruct f2]; simpl;
      rewrite ?lookup_insert_eq; simpl;
      (do 3 eexists; split; [reflexivity|]; simpl;
       split; [rewrite <- app_assoc; reflexivity|];
       split; [reflexivity|]; split; [reflexivity|]).
    + split; [reflexivity|]. apply lookup_insert_eq.
    + split; [reflexivity|]. apply lookup_insert_eq.
    + split; [eauto|]. now apply lookup_insert_ne.
    + split; [eauto|]. now apply lookup_insert_ne.
  - do 3 eexists. split; [reflexivity|]. simpl.
    split; [reflexivity|]. split; [reflexivity|]. split; [reflexivity|].
    split; [eauto|reflexivity].
  - do 3 eexists. split; [reflexivity|]. simpl.
    split; [reflexivity|]. split; [reflexivity|]. split; [reflexivity|].
    split; [eauto|]. now apply lookup_insert_ne.
Qed.

Lemma save_data_loop_cons (attempt : nat) (rest : list nat) (data : list dict)
    (path : string) (w : world) :
  Database.save_data_loop (attempt :: rest) data path w =
  match (write_json (path +:+ ".tmp") data ;;
         os_replace (path +:+ ".tmp") path ;;
         mret (Database.Return true)) w with
  | (Ok (Database.Return b), w') => (Ok (Some b), w')
  | (Ok Database.Continue, w') => Database.save_data_loop rest data path w'
  | (Raise _, w') =>
      if (attempt <? 4)%nat
      then Database.save_data_loop rest data path (log (EvSleep (1 # 2)) w')
      else (Ok (Some false), log EvPrint w')
  end.
Proof.
  change (Database.save_data_loop (attempt :: rest) data path w) with
    ((try_except
        (write_json (path +:+ ".tmp") data ;;
         os_replace (path +:+ ".tmp") path ;;
         mret (Database.Return true))
        (fun _ =>
           if (attempt <? 4)%nat
           then sleep Database.retry_delay ;; mret Database.Continue
           else print ;; mret (Database.Return false))
      ≫= (fun r => match r with
                    | Database.Return b => mret (Some b)
                    | Database.Continue => Database.save_data_loop rest data path
                    end)) w).
  unfold mbind at 1. unfold M_bind at 1. unfold try_except.
  destruct ((write_json (path +:+ ".tmp") data ;;
             os_replace (path +:+ ".tmp") path ;;
             mret (Database.Return true)) w) as [[[|b]|e] w']; try reflexivity.
  destruct (attempt <? 4)%nat; reflexivity.
Qed.

(** The retry loop over the attempts [a, a+1, ..., 4]: it always returns,
    it touches the target only by a completed rename, and it gives up
    exactly when each of its attempts fails. *)
Lemma save_data_loop_spec (data : list dict) (path : string) :
  forall (n a : nat) (w : world), a + n = 5 ->
  exists r w' evs,
    Database.save_data_loop (seq a n) data path w = (Ok r, w')
    /\ trace w' = trace w ++ evs
    /\ clock w' = clock w
    /\ (if all_attempts_fail n (faults w)
        then r = match n with O => None | S _ => Some false end
             /\ steps evs = failed_run n
             /\ files w' !! path = files w !! path
        else r = Some true
             /\ files w' !! path = Some (Json data)).
Proof.
  induction n as [|n IH]; intros a w Ha.
  - exists None, w, []. simpl. rewrite app_nil_r. repeat split.
  - simpl seq. rewrite save_data_loop_cons.
    destruct (attempt_spec data path w) as (r0 & w1 & evs1 & Hbody & Htr & Hst & Hfl & Hcase).
    cbv zeta in Hbody. rewrite Hbody.
    assert (Hclock : clock w1 = clock w).
    { clear -Hbody. destruct w as [fs flt c us un tr].
      unfold mbind, M_bind, mret, M_ret, write_json, os_replace, next_fault,
        log, set_files in Hbody.
      destruct flt as [|[] [|[] ?]]; simpl in Hbody;
        rewrite ?lookup_insert_eq in Hbody; simpl in Hbody;
        injection Hbody as _ <-; reflexivity. }
    simpl all_attempts_fail.
    destruct (fst (attempt_succeeds (faults w))) eqn:Hok; simpl.
    + destruct Hcase as [-> Hfile].
      exists (Some true), w1, evs1. auto.
    + destruct Hcase as [[e ->] Hfile].
      destruct (Nat.ltb_spec a 4) as [Hlt|Hge].
      * destruct (IH (S a) (log (EvSleep (1 # 2)) w1) ltac:(lia))
          as (r & w' & evs & Hloop & Htr' & Hclock' & Hcase').
        exists r, w', (evs1 ++ EvSleep (1 # 2) :: evs).
        split; [exact Hloop|].
        split; [rewrite Htr'; simpl; rewrite Htr, <- !app_assoc; reflexivity|].
        split; [rewrite Hclock'; exact Hclock|].
        simpl in Hcase'. rewrite Hfl in Hcase'.
        destruct (all_attempts_fail n (snd (attempt_succeeds (faults w)))).
        -- destruct Hcase' as (-> & Hsteps & Hfile').
           destruct n as [|n]; [lia|].
           split; [reflexivity|].
           split; [|now rewrite Hfile'].
           rewrite steps_app, Hst.
           change (steps (EvSleep (1 # 2) :: evs)) with (Delay (1 # 2) :: steps evs).
           rewrite Hsteps. reflexivity.
        -- exact Hcase'.
      * assert (n = 0) by lia. subst n.
        exists (Some false), (log EvPrint w1), (evs1 ++ [EvPrint]).
        split; [reflexivity|].
        split; [simpl; rewrite Htr, <- app_assoc; reflexivity|].
        split; [exact Hclock|].
        simpl. split; [reflexivity|].
        split; [|exact Hfile].
        rewrite steps_app, Hst. reflexivity.
Qed.

(** C5. [save_data] never raises: it returns a success flag.  When every
    one of its attempts fails it has made five attempts with a delay of
    half a second between consecutive ones, and the flag is false; when an
    attempt succeeds the flag is true (and the target holds the data). *)
Theorem save_data_retries_then_reports (data : list dict) (path : string)
    (w : world) :
  exists r w' evs,
    Database.save_data data path w = (Ok (Some r), w')
    /\ trace w' = trace w ++ evs
    /\ (if all_attempts_fail 5 (faults w)
        then r = false
             /\ steps evs =
                [Attempt; Delay (1 # 2); Attempt; Delay (1 # 2); Attempt;
                 Delay (1 # 2); Attempt; Delay (1 # 2); Attempt]
        else r = true /\ files w' !! path = Some (Json data)).
Proof.
  destruct (save_data_loop_spec data path 5 0 w eq_refl)
    as (r & w' & evs & Hrun & Htr & _ & Hcase).
  unfold Database.save_data, Database.max_retries.
  destruct (all_attempts_fail 5 (faults w)).
  - destruct Hcase as (-> & Hsteps & _).
    exists false, w', evs. repeat split; assumption.
  - destruct Hcase as (-> & Hfile).
    exists true, w', evs. repeat split; assumption.
Qed.

(** C3 (amended). [save_data] commits the whole collection through the
    temporary sibling file and an atomic rename: under every schedule of
    faults the target afterwards holds either the new collection (flag
    true) or exactly what it held before (flag false).  The auth service's
    [save_users] writes the users file in place instead: a failure during
    the write leaves it unparsable. *)
Theorem save_data_atomic_save_users_in_place (data : list dict) (path : string)
    (w : world) :
  (exists r w',
     Database.save_data data path w = (Ok (Some r), w')
     /\ files w' !! path = if r : bool then Some (Json data) else files w !! path)
  /\ (forall rest, faults w = FailDuring :: rest ->
      exists w', Auth.save_users data w = (Raise OSError, w')
        /\ files w' !! "data/users.json" = Some Corrupt).
Proof.
  split.
  - destruct (save_data_loop_spec data path 5 0 w eq_refl)
      as (r & w' & evs & Hrun & _ & _ & Hcase).
    unfold Database.save_data, Database.max_retries.
    destruct (all_attempts_fail 5 (faults w)).
    + destruct Hcase as (-> & _ & Hfile). now exists false, w'.
    + destruct Hcase as (-> & Hfile). now exists true, w'.
  - intros rest Hfaults. destruct w as [fs flt c us un tr]. simpl in Hfaults.
    subst flt. eexists. split; [reflexivity|]. apply lookup_insert_eq.
Qed.

Lemma save_data_atomic_save_users_in_place_witness :
  exists w',
    Auth.save_users [alice]
      (world_of [("data/users.json", Json [alice])] [FailDuring] 0)
    = (Raise OSError, w')
    /\ files w' !! "data/users.json" = Some Corrupt.
Proof.
  apply (proj2 (save_data_atomic_save_users_in_place [alice] "data/users.json"
                  (world_of [("data/users.json", Json [alice])] [FailDuring] 0))
           []).
  reflexivity.
Defined.

(** C3, as stated, fails: with a failure during the write, a role update
    of the auth service leaves the users file unparsable, not with its
    previous contents. *)
Lemma users_write_not_atomic :
  files (world_of [("data/users.json", Json [alice])] [FailDuring] 0)
    !! "data/users.json" = Some (Json [alice])
  /\ files (snd (Auth.update_user_role (VStr "u1") (VStr "renter")
                   (world_of [("data/users.json", Json [alice])] [FailDuring] 0)))
       !! "data/users.json" = Some Corrupt.
Proof. split; vm_compute; reflexivity. Qed.

(** ** C1, C6: [get_properties] *)

Lemma status_is_spec (s : string) (p : dict) :
  status_is s p = true <-> dict_get "status" p = Some (VStr s).
Proof.
  unfold status_is. destruct (dict_get "status" p) as [v|].
  - rewrite py_eq_VStr. split; congruence.
  - split; discriminate.
Qed.

Lemma status_absent_or_spec (s : string) (p : dict) :
  status_absent_or s p = true
  <-> dict_get "status" p = None \/ dict_get "status" p = Some (VStr s).
Proof.
  unfold status_absent_or. destruct (dict_get "status" p) as [v|].
  - rewrite py_eq_VStr. split; [intros ->; now right|].
    intros [H|H]; congruence.
  - split; auto.
Qed.

Lemma get_properties_filtered (filters : dict) (stored : list dict) (w : world) :
  filters <> [] ->
  files w !! Database.PROPERTIES_FILE = Some (Json stored) ->
  Database.get_properties (Some filters) w
  = (Database.filter_properties stored filters, w).
Proof.
  intros Hne Hfile. unfold Database.get_properties.
  destruct (load_with_fallback Database.PROPERTIES_FILE w) as [Hload _].
  rewrite (bind_Ok _ _ _ _ _ (Hload _ Hfile)).
  destruct filters; [congruence|reflexivity].
Qed.

Lemma filter_properties_status (s : string) (stored : list dict) :
  Database.filter_properties stored [("status", VStr s)]
  = Ok (List.filter (status_absent_or s) stored).
Proof.
  induction stored as [|p stored IH]; [reflexivity|].
  simpl Database.filter_properties. rewrite IH.
  unfold Database.property_filter, status_absent_or. simpl.
  destruct (dict_get "status" p) as [v|]; simpl; [|reflexivity].
  destruct (py_eq v (VStr s)); reflexivity.
Qed.

Lemma filter_properties_price (lo hi : Z) (stored : list dict) :
  forallb integer_price stored = true ->
  Database.filter_properties stored [("price_min", VInt lo); ("price_max", VInt hi)]
  = Ok (List.filter (price_within lo hi) stored)
  /\ Database.filter_properties stored [("price_max", VInt hi); ("price_min", VInt lo)]
  = Ok (List.filter (price_within lo hi) stored).
Proof.
  induction stored as [|p stored IH]; [intros _; split; reflexivity|].
  simpl forallb. intros [Hp Hrest]%andb_true_iff.
  destruct (IH Hrest) as [IH1 IH2].
  simpl Database.filter_properties. rewrite IH1, IH2.
  unfold Database.property_filter, price_within, integer_price, getitem, py_gt in *.
  simpl.
  destruct (dict_get "price_per_day" p) as [[| | z | | |]|]; try discriminate.
  simpl.
  destruct (Z.ltb_spec z lo), (Z.ltb_spec hi z), (Z.leb_spec lo z),
    (Z.leb_spec z hi); simpl; try lia; split; reflexivity.
Qed.

Section ImplFilters.

Variable str_lower : string -> string.
Variable float_of_str : string -> result Q.

Lemma impl_get_properties_filtered (filters : dict) (stored : list dict)
    (w : world) :
  filters <> [] ->
  files w !! DatabaseImpl.PROPERTIES_FILE = Some (Json stored) ->
  DatabaseImpl.get_properties str_lower float_of_str (Some filters) w
  = (DatabaseImpl.apply_filters str_lower float_of_str filters stored, w).
Proof.
  intros Hne Hfile. unfold DatabaseImpl.get_properties, DatabaseImpl.load_data.
  destruct (load_with_fallback DatabaseImpl.PROPERTIES_FILE w) as [Hload _].
  rewrite (bind_Ok _ _ _ _ _ (Hload _ Hfile)).
  destruct filters; [congruence|reflexivity].
Qed.

Lemma comprehension_status (s : string) (stored : list dict) :
  comprehension (DatabaseImpl.field_equals "status" (VStr s)) stored
  = if forallb (dict_has "status") stored
    then Ok (List.filter (status_is s) stored)
    else Raise KeyError.
Proof.
  induction stored as [|p stored IH]; [reflexivity|].
  simpl. rewrite IH.
  unfold DatabaseImpl.field_equals, getitem, status_is, dict_has.
  destruct (dict_get "status" p) as [v|]; simpl; [|reflexivity].
  destruct (forallb _ stored); simpl; [|reflexivity].
  destruct (py_eq v (VStr s)); reflexivity.
Qed.

Lemma impl_apply_filters_status (s : string) (stored : list dict) :
  DatabaseImpl.apply_filters str_lower float_of_str [("status", VStr s)] stored
  = if forallb (dict_has "status") stored
    then Ok (List.filter (status_is s) stored)
    else Raise KeyError.
Proof.
  unfold DatabaseImpl.apply_filters, DatabaseImpl.stage. simpl.
  rewrite comprehension_status.
  destruct (forallb _ stored); reflexivity.
Qed.

Lemma nearest_double_exact (z : Z) :
  (Z.abs z < 2 ^ 53)%Z -> nearest_double z = z.
Proof.
  intros H. unfold nearest_double.
  destruct (Z.ltb_spec (Z.abs z) (2 ^ 53)); [reflexivity|lia].
Qed.

Lemma py_float_exact (z : Z) :
  (Z.abs z < 2 ^ 53)%Z ->
  DatabaseImpl.py_float float_of_str (VInt z) = Ok (inject_Z z).
Proof.
  intros H. unfold DatabaseImpl.py_float. rewrite nearest_double_exact by exact H.
  assert (2 ^ 53 < 2 ^ 1024)%Z by (apply Z.pow_lt_mono_r; lia).
  destruct (Z.leb_spec (2 ^ 1024) (Z.abs z)); [lia|reflexivity].
Qed.

Lemma Qle_bool_inject_Z (a b : Z) :
  Qle_bool (inject_Z a) (inject_Z b) = (a <=? b)%Z.
Proof. unfold Qle_bool, inject_Z. simpl. now rewrite !Z.mul_1_r. Qed.

Lemma price_between_exact (lo hi z : Z) (p : dict) :
  dict_get "price_per_day" p = Some (VInt z) ->
  (Z.abs z < 2 ^ 53)%Z ->
  DatabaseImpl.price_between float_of_str (VInt lo) (VInt hi) p
  = Ok ((lo <=? z)%Z && (z <=? hi)%Z).
Proof.
  intros Hget Hz.
  unfold DatabaseImpl.price_between, getitem. rewrite Hget.
  cbv beta iota delta [mbind result_bind].
  rewrite (py_float_exact z Hz).
  cbv beta iota delta [DatabaseImpl.float_ge DatabaseImpl.float_le].
  rewrite !Qle_bool_inject_Z.
  destruct (lo <=? z)%Z; reflexivity.
Qed.

Lemma comprehension_price (lo hi : Z) (stored : list dict) :
  forallb exact_price stored = true ->
  comprehension (DatabaseImpl.price_between float_of_str (VInt lo) (VInt hi)) stored
  = Ok (List.filter (price_within lo hi) stored).
Proof.
  induction stored as [|p stored IH]; [reflexivity|].
  simpl forallb. intros [Hp Hrest]%andb_true_iff.
  simpl comprehension. rewrite (IH Hrest).
  unfold exact_price in Hp. unfold price_within.
  destruct (dict_get "price_per_day" p) as [[| | z | | |]|] eqn:Hget;
    try discriminate.
  apply Z.ltb_lt in Hp.
  rewrite (price_between_exact lo hi z p Hget Hp).
  simpl. rewrite Hget. destruct ((lo <=? z)%Z && (z <=? hi)%Z); reflexivity.
Qed.

Lemma impl_apply_filters_price (lo hi : Z) (stored : list dict) :
  forallb exact_price stored = true ->
  DatabaseImpl.apply_filters str_lower float_of_str
    [("price_min", VInt lo); ("price_max", VInt hi)] stored
  = Ok (List.filter (price_within lo hi) stored)
  /\ DatabaseImpl.apply_filters str_lower float_of_str
    [("price_max", VInt hi); ("price_min", VInt lo)] stored
  = Ok (List.filter (price_within lo hi) stored).
Proof.
  intros H. unfold DatabaseImpl.apply_filters, DatabaseImpl.stage. simpl.
  rewrite (comprehension_price lo hi stored H). split; reflexivity.
Qed.

(** C1 (amended). With the filter [{status: s}], the list operation of
    [utils/database.py] returns exactly the stored records whose [status]
    is absent or equal to [s], in stored order; the one of
    [database-implementation.py] returns exactly the records whose [status]
    equals [s] when every stored record has a [status], and raises
    [KeyError] otherwise. *)
Theorem get_properties_status_filter (s : string) (stored : list dict)
    (w : world) :
  files w !! "data/properties.json" = Some (Json stored) ->
  Database.get_properties (Some [("status", VStr s)]) w
  = (Ok (List.filter (status_absent_or s) stored), w)
  /\ DatabaseImpl.get_properties str_lower float_of_str
       (Some [("status", VStr s)]) w
     = (if forallb (dict_has "status") stored
        then Ok (List.filter (status_is s) stored)
        else Raise KeyError, w).
Proof.
  intros Hfile. split.
  - rewrite (get_properties_filtered _ stored) by (congruence || exact Hfile).
    now rewrite filter_properties_status.
  - rewrite (impl_get_properties_filtered _ stored) by (congruence || exact Hfile).
    now rewrite impl_apply_filters_status.
Qed.

(** C6 (amended). With the filters [{price_min: lo, price_max: hi}], when
    every stored record has an integer [price_per_day], the list operation
    keeps exactly the records with [lo <= price_per_day <= hi], in stored
    order ([database-implementation.py]: when moreover [float] represents
    every stored price exactly).  So, in such a store, a listing priced
    5000 is kept for [1000, 6000] and dropped for [6000, 10000]. *)
Theorem get_properties_price_range (lo hi : Z) (stored : list dict)
    (w : world) :
  files w !! "data/properties.json" = Some (Json stored) ->
  forallb integer_price stored = true ->
  Database.get_properties
    (Some [("price_min", VInt lo); ("price_max", VInt hi)]) w
  = (Ok (List.filter (price_within lo hi) stored), w)
  /\ Database.get_properties
       (Some [("price_max", VInt hi); ("price_min", VInt lo)]) w
     = (Ok (List.filter (price_within lo hi) stored), w)
  /\ (forallb exact_price stored = true ->
      DatabaseImpl.get_properties str_lower float_of_str
        (Some [("price_min", VInt lo); ("price_max", VInt hi)]) w
      = (Ok (List.filter (price_within lo hi) stored), w)).
Proof.
  intros Hfile Hint.
  destruct (filter_properties_price lo hi stored Hint) as [H1 H2].
  split; [|split].
  - rewrite (get_properties_filtered _ stored) by (congruence || exact Hfile).
    now rewrite H1.
  - rewrite (get_properties_filtered _ stored) by (congruence || exact Hfile).
    now rewrite H2.
  - intros Hexact.
    rewrite (impl_get_properties_filtered _ stored) by (congruence || exact Hfile).
    now rewrite (proj1 (impl_apply_filters_price lo hi stored Hexact)).
Qed.

End ImplFilters.

Lemma get_properties_status_filter_witness :
  files (properties_world [barn; cottage]) !! "data/properties.json"
  = Some (Json [barn; cottage])
  /\ Database.get_properties (Some [("status", VStr "active")])
       (properties_world [barn; cottage])
     = (Ok (List.filter (status_absent_or "active") [barn; cottage]),
        properties_world [barn; cottage])
  /\ DatabaseImpl.get_properties toy_lower toy_float
       (Some [("status", VStr "active")]) (properties_world [barn; cottage])
     = (if forallb (dict_has "status") [barn; cottage]
        then Ok (List.filter (status_is "active") [barn; cottage])
        else Raise KeyError, properties_world [barn; cottage]).
Proof.
  split; [reflexivity|].
  apply (get_properties_status_filter toy_lower toy_float "active" [barn; cottage]
           (properties_world [barn; cottage])).
  reflexivity.
Defined.

Lemma get_properties_price_range_witness :
  fst (Database.get_properties
         (Some [("price_min", VInt 1000); ("price_max", VInt 6000)])
         (properties_world [cottage])) = Ok [cottage]
  /\ fst (Database.get_properties
            (Some [("price_min", VInt 6000); ("price_max", VInt 10000)])
            (properties_world [cottage])) = Ok []
  /\ fst (DatabaseImpl.get_properties toy_lower toy_float
            (Some [("price_min", VInt 1000); ("price_max", VInt 6000)])
            (properties_world [cottage])) = Ok [cottage]
  /\ fst (DatabaseImpl.get_properties toy_lower toy_float
            (Some [("price_min", VInt 6000); ("price_max", VInt 10000)])
            (properties_world [cottage])) = Ok [].
Proof.
  destruct (get_properties_price_range toy_lower toy_float 1000 6000 [cottage]
              (properties_world [cottage]) eq_refl eq_refl) as (H1 & _ & H2).
  destruct (get_properties_price_range toy_lower toy_float 6000 10000 [cottage]
              (properties_world [cottage]) eq_refl eq_refl) as (H3 & _ & H4).
  rewrite H1, H3, (H2 eq_refl), (H4 eq_refl). repeat split.
Defined.


(** The scenario of the specification, end to end: a listing created with
    price 5000 and capacity 4 is found in the range [1000, 6000] and not in
    [6000, 10000]. *)
Example created_listing_found_by_price :
  (found ← fst (Database.get_properties
                  (Some [("price_min", VInt 1000); ("price_max", VInt 6000)])
                  (snd (Database.create_property toy_format loft
                          (world_of [] [] 0))));
   mret (map (dict_get "id") found)) = Ok [Some (VStr "p9")]
  /\ fst (Database.get_properties
            (Some [("price_min", VInt 6000); ("price_max", VInt 10000)])
            (snd (Database.create_property toy_format loft (world_of [] [] 0))))
     = Ok [].
Proof. split; vm_compute; reflexivity. Qed.

(** C6, as stated, fails.  [update_property] of [utils/database.py] with
    partial data that does not mention the price leaves a record without
    [price_per_day]; from then on the price range query raises [KeyError]
    in both modules instead of including the listing priced 5000.  And
    [database-implementation.py] compares [float(price_per_day)]: a
    listing priced 2^53 + 1 is dropped from the range
    [2^53 + 1, 2^53 + 1]. *)
Lemma price_range_query_misses_listing_in_range :
  dict_get "price_per_day" cottage = Some (VInt 5000)
  /\ files (snd (Database.update_property (VStr "p2") [("title", VStr "Old barn")]
                   (properties_world [cottage; barn])))
       !! "data/properties.json"
     = Some (Json [cottage;
                   [("id", VStr "p2");
                    ("owner_id", VStr "u1");
                    ("created_at", VStr "2024-01-02T00:00:00");
                    ("title", VStr "Old barn")]])
  /\ fst (Database.get_properties
            (Some [("price_min", VInt 1000); ("price_max", VInt 6000)])
            (snd (Database.update_property (VStr "p2")
                    [("title", VStr "Old barn")]
                    (properties_world [cottage; barn]))))
     = Raise KeyError
  /\ fst (DatabaseImpl.get_properties toy_lower toy_float
            (Some [("price_min", VInt 1000); ("price_max", VInt 6000)])
            (snd (Database.update_property (VStr "p2")
                    [("title", VStr "Old barn")]
                    (properties_world [cottage; barn]))))
     = Raise KeyError
  /\ fst (DatabaseImpl.get_properties toy_lower toy_float
            (Some [("price_min", VInt 9007199254740993);
                   ("price_max", VInt 9007199254740993)])
            (properties_world
               [[("id", VStr "p3"); ("price_per_day", VInt 9007199254740993)]]))
     = Ok [].
Proof. repeat split; vm_compute; reflexivity. Qed.

(** C1, as stated, fails: a stored record with no [status] field is
    returned under the filter [{status: "active"}]. *)
Lemma status_filter_returns_record_without_status :
  fst (Database.get_properties (Some [("status", VStr "active")])
         (properties_world [barn; cottage])) = Ok [barn; cottage]
  /\ dict_get "status" barn = None.
Proof. split; vm_compute; reflexivity. Qed.

(** ** C2: [update_property] *)

Lemma save_data_succeeds (data : list dict) (path : string) (w : world) :
  all_attempts_fail 5 (faults w) = false ->
  exists w', Database.save_data data path w = (Ok (Some true), w')
    /\ files w' !! path = Some (Json data)
    /\ clock w' = clock w.
Proof.
  intros Hsome.
  destruct (save_data_loop_spec data path 5 0 w eq_refl)
    as (r & w' & evs & Hrun & _ & Hclock & Hcase).
  rewrite Hsome in Hcase. destruct Hcase as [-> Hfile].
  exists w'. auto.
Qed.

Lemma lift_bind {A B : Type} (a : A) (f : A -> M B) (w : world) :
  (lift (Ok a) ≫= f) w = f a w.
Proof. reflexivity. Qed.

Lemma id_differs_inv (id : value) (r : dict) :
  id_differs id r = true ->
  exists v, dict_get "id" r = Some v /\ py_eq v id = false.
Proof.
  unfold id_differs. destruct (dict_get "id" r) as [v|]; [|discriminate].
  intros H. exists v. split; [reflexivity|]. now destruct (py_eq v id).
Qed.

Lemma id_matches_inv (id : value) (r : dict) :
  id_matches id r = true ->
  exists v, dict_get "id" r = Some v /\ py_eq v id = true.
Proof.
  unfold id_matches. destruct (dict_get "id" r) as [v|]; [|discriminate].
  intros H. now exists v.
Qed.

Lemma update_property_loop_found (property_id : value) (property_data : dict)
    (all after : list dict) (prop : dict) (id owner_id created_at : value) :
  forall (before : list dict) (i : nat) (w : world),
  forallb (id_differs property_id) before = true ->
  dict_get "id" prop = Some id -> py_eq id property_id = true ->
  dict_get "owner_id" prop = Some owner_id ->
  dict_get "created_at" prop = Some created_at ->
  Database.update_property_loop all i (before ++ prop :: after)
    property_id property_data w
  = (Database.save_data
       (<[i + length before :=
            dict_merge [("id", id); ("owner_id", owner_id);
                        ("created_at", created_at)] property_data]> all)
       Database.PROPERTIES_FILE ;; mret true) w.
Proof.
  induction before as [|p before IH]; intros i w Hbefore Hid Heq Howner Hcreated.
  - simpl app. simpl Database.update_property_loop.
    unfold getitem. rewrite Hid, Howner, Hcreated.
    rewrite lift_bind, Heq, !lift_bind. now rewrite Nat.add_0_r.
  - simpl in Hbefore. apply andb_true_iff in Hbefore as [Hp Hbefore].
    destruct (id_differs_inv _ _ Hp) as (v & Hv & Hne).
    simpl app. simpl Database.update_property_loop.
    unfold getitem. rewrite Hv, lift_bind, Hne. fold (getitem p).
    rewrite (IH (S i) w Hbefore Hid Heq Howner Hcreated).
    simpl length. now rewrite Nat.add_succ_r.
Qed.

Lemma insert_at_length (before after : list dict) (prop updated : dict) :
  <[0 + length before := updated]> (before ++ prop :: after)
  = before ++ updated :: after.
Proof.
  rewrite Nat.add_0_l. replace (length before) with (length before + 0) by lia.
  now rewrite insert_app_r.
Qed.

Section UpdateProperty.

Variable isoformat : Z -> string.

Lemma impl_update_property_loop_found (property_id : value) (updated_data : dict)
    (all after : list dict) (prop : dict) :
  forall (before : list dict) (i : nat) (w : world),
  forallb (id_differs property_id) before = true ->
  id_matches property_id prop = true ->
  DatabaseImpl.update_property_loop isoformat all i (before ++ prop :: after)
    property_id updated_data w
  = (let updated :=
       dict_set "updated_at" (VStr (isoformat (clock w)))
         (dict_update prop updated_data) in
     DatabaseImpl.save_data (<[i + length before := updated]> all)
       DatabaseImpl.PROPERTIES_FILE ;; mret (Some updated)) w.
Proof.
  induction before as [|p before IH]; intros i w Hbefore Hprop.
  - destruct (id_matches_inv _ _ Hprop) as (v & Hv & Heq).
    simpl app. simpl DatabaseImpl.update_property_loop.
    unfold getitem. rewrite Hv, lift_bind, Heq.
    now rewrite Nat.add_0_r.
  - simpl in Hbefore. apply andb_true_iff in Hbefore as [Hp Hbefore].
    destruct (id_differs_inv _ _ Hp) as (v & Hv & Hne).
    simpl app. simpl DatabaseImpl.update_property_loop.
    unfold getitem. rewrite Hv, lift_bind, Hne. fold (getitem p).
    rewrite (IH (S i) w Hbefore Hprop).
    simpl length. now rewrite Nat.add_succ_r.
Qed.

(** C2 (amended). On the first stored record whose [id] matches, when the
    save goes through: [update_property] of [utils/database.py] replaces
    the record by the partial data laid over the record's [id], [owner_id]
    and [created_at], so the new record holds every field of the partial
    data as given, and of the fields that the partial data does not
    mention exactly those three keep their value and every other one is
    dropped; [update_property] of [database-implementation.py] merges, so
    the new record holds every field of the partial data as given and
    every field that the partial data does not mention keeps its value,
    except that [updated_at] is set to the time of the call.  In both,
    [created_at] keeps its value when the partial data does not mention
    it. *)
Theorem update_property_unmentioned_fields (property_id : value)
    (partial : dict) (before after : list dict) (prop : dict) (w : world) :
  files w !! "data/properties.json" = Some (Json (before ++ prop :: after)) ->
  all_attempts_fail 5 (faults w) = false ->
  forallb (id_differs property_id) before = true ->
  id_matches property_id prop = true ->
  dict_has "owner_id" prop = true ->
  dict_has "created_at" prop = true ->
  NoDup (map fst partial) ->
  (exists w' updated,
     Database.update_property property_id partial w = (Ok true, w')
     /\ files w' !! "data/properties.json"
        = Some (Json (before ++ updated :: after))
     /\ (forall key,
           dict_get key updated
           = match dict_get key partial with
             | Some given => Some given
             | None => if carried_over key then dict_get key prop else None
             end)
     /\ (dict_has "created_at" partial = false ->
         dict_get "created_at" updated = dict_get "created_at" prop))
  /\ (exists w' updated,
     DatabaseImpl.update_property isoformat property_id partial w
     = (Ok (Some updated), w')
     /\ files w' !! "data/properties.json"
        = Some (Json (before ++ updated :: after))
     /\ dict_get "updated_at" updated = Some (VStr (isoformat (clock w)))
     /\ (forall key, key <> "updated_at" ->
           dict_get key updated
           = match dict_get key partial with
             | Some given => Some given
             | None => dict_get key prop
             end)
     /\ (dict_has "created_at" partial = false ->
         dict_get "created_at" updated = dict_get "created_at" prop)).
Proof.
  intros Hfile Hsave Hbefore Hprop Howner Hcreated Hdistinct.
  destruct (load_with_fallback "data/properties.json" w) as [Hload _].
  specialize (Hload _ Hfile).
  split.
  - destruct (id_matches_inv _ _ Hprop) as (id & Hid & Heq).
    unfold dict_has in Howner, Hcreated.
    destruct (dict_get "owner_id" prop) as [owner_id|] eqn:Ho; [|discriminate].
    destruct (dict_get "created_at" prop) as [created_at|] eqn:Hc; [|discriminate].
    unfold Database.update_property.
    rewrite (bind_Ok _ _ _ _ _ Hload).
    rewrite (update_property_loop_found property_id partial _ after prop
               id owner_id created_at before 0 w Hbefore Hid Heq Ho Hc).
    rewrite insert_at_length.
    destruct (save_data_succeeds
                (before ++ dict_merge [("id", id); ("owner_id", owner_id);
                                       ("created_at", created_at)] partial :: after)
                Database.PROPERTIES_FILE w Hsave) as (w' & Hrun & Hfile' & _).
    rewrite (bind_Ok _ _ _ _ _ Hrun).
    assert (Hkeys : forall key,
              dict_get key (dict_merge [("id", id); ("owner_id", owner_id);
                                        ("created_at", created_at)] partial)
              = match dict_get key partial with
                | Some given => Some given
                | None => if carried_over key then dict_get key prop else None
                end).
    { intros key. unfold dict_merge.
      destruct (dict_get key partial) as [given|] eqn:Hkey.
      - now apply dict_get_update_in.
      - rewrite dict_get_update_other by (unfold dict_has; now rewrite Hkey).
        change (dict_update [] [("id", id); ("owner_id", owner_id);
                                ("created_at", created_at)])
          with [("id", id); ("owner_id", owner_id); ("created_at", created_at)].
        unfold carried_over. cbn [dict_get].
        rewrite !(String.eqb_sym key).
        destruct (String.eqb_spec "id" key) as [<-|H1]; [now rewrite Hid|].
        destruct (String.eqb_spec "owner_id" key) as [<-|H2]; [now rewrite Ho|].
        destruct (String.eqb_spec "created_at" key) as [<-|H3]; [now rewrite Hc|].
        reflexivity. }
    eexists w', _. split; [reflexivity|]. split; [exact Hfile'|].
    split; [exact Hkeys|].
    intros Hunmentioned. rewrite Hkeys. unfold dict_has in Hunmentioned.
    destruct (dict_get "created_at" partial); [discriminate|exact Hc].
  - unfold DatabaseImpl.update_property, DatabaseImpl.load_data.
    rewrite (bind_Ok _ _ _ _ _ Hload).
    rewrite (impl_update_property_loop_found property_id partial _ after prop
               before 0 w Hbefore Hprop).
    cbv zeta. rewrite insert_at_length.
    destruct (save_data_succeeds
                (before ++ dict_set "updated_at" (VStr (isoformat (clock w)))
                             (dict_update prop partial) :: after)
                Database.PROPERTIES_FILE w Hsave) as (w' & Hrun & Hfile' & _).
    unfold DatabaseImpl.save_data.
    rewrite (bind_Ok _ _ _ _ _ Hrun).
    assert (Hkeys : forall key, key <> "updated_at" ->
              dict_get key (dict_set "updated_at" (VStr (isoformat (clock w)))
                              (dict_update prop partial))
              = match dict_get key partial with
                | Some given => Some given
                | None => dict_get key prop
                end).
    { intros key Hne. rewrite dict_get_set_ne by congruence.
      destruct (dict_get key partial) as [given|] eqn:Hkey.
      - now apply dict_get_update_in.
      - apply dict_get_update_other. unfold dict_has. now rewrite Hkey. }
    eexists w', _. split; [reflexivity|]. split; [exact Hfile'|].
    split; [apply dict_get_set_eq|]. split; [exact Hkeys|].
    intros Hunmentioned. rewrite Hkeys by discriminate.
    unfold dict_has in Hunmentioned.
    destruct (dict_get "created_at" partial); [discriminate|reflexivity].
Qed.

End UpdateProperty.

Lemma update_property_unmentioned_fields_witness :
  exists w' updated,
    Database.update_property (VStr "p1") [("price_per_day", VInt 6000)]
      (properties_world [barn; cottage]) = (Ok true, w')
    /\ files w' !! "data/properties.json" = Some (Json ([barn] ++ updated :: []))
    /\ dict_get "price_per_day" updated = Some (VInt 6000)
    /\ dict_get "created_at" updated = dict_get "created_at" cottage
    /\ dict_get "title" updated = None.
Proof.
  assert (Hdistinct : NoDup (map fst [("price_per_day", VInt 6000)])).
  { apply (bool_decide_unpack (NoDup (map fst [("price_per_day", VInt 6000)]))).
    vm_compute. exact I. }
  destruct (update_property_unmentioned_fields toy_format (VStr "p1")
              [("price_per_day", VInt 6000)] [barn] [] cottage
              (properties_world [barn; cottage])
              eq_refl eq_refl eq_refl eq_refl eq_refl eq_refl Hdistinct)
    as [(w' & updated & Hrun & Hfile & Hkeys & _) _].
  exists w', updated. split; [exact Hrun|]. split; [exact Hfile|].
  split; [exact (Hkeys "price_per_day")|].
  split; [exact (Hkeys "created_at")|exact (Hkeys "title")].
Defined.

(** C2, as stated, fails: [update_property] of [utils/database.py] drops the
    [title] (and [capacity], [status]) of a listing when the partial data
    mentions only the price. *)
Lemma update_property_drops_unmentioned_field :
  dict_has "title" [("price_per_day", VInt 6000)] = false
  /\ dict_get "title" cottage = Some (VStr "Cottage")
  /\ Database.update_property (VStr "p1") [("price_per_day", VInt 6000)]
       (properties_world [cottage])
     = (Ok true,
        World
          (<["data/properties.json" :=
               Json [[("id", VStr "p1");
                      ("owner_id", VStr "u1");
                      ("created_at", VStr "2024-01-01T00:00:00");
                      ("price_per_day", VInt 6000)]]]> ∅)
          [] 0 (uuids (properties_world [cottage])) 0
          [EvWrite "data/properties.json.tmp" NoFault;
           EvReplace "data/properties.json.tmp" "data/properties.json" NoFault]).
Proof. repeat split; vm_compute; reflexivity. Qed.

(** ** C7: [create_review] *)

Lemma dict_get_setdefault_ne (k k' : string) (v : value) (d : dict) :
  k <> k' -> dict_get k' (dict_setdefault k v d) = dict_get k' d.
Proof.
  intros H. unfold dict_setdefault.
  destruct (dict_has k d); [reflexivity|now apply dict_get_set_ne].
Qed.

Section CreateReview.

Variables strftime isoformat : Z -> string.

(** C7 (amended). [create_review] stores the review with the rating it was
    given, whatever that value is: the stored record's [rating] is the
    supplied one, unchecked ([utils/database.py] only requires the key to
    be present). *)
Theorem create_review_stores_given_rating (review_data : dict)
    (reviews : list dict) (w : world) :
  files w !! "data/reviews.json" = Some (Json reviews) ->
  all_attempts_fail 5 (faults w) = false ->
  (forallb (fun field => dict_has field review_data)
     ["id"; "property_id"; "user_id"; "rating"; "comment"] = true ->
   exists w' stored,
     Database.create_review strftime review_data w = (Ok true, w')
     /\ files w' !! "data/reviews.json" = Some (Json (reviews ++ [stored]))
     /\ dict_get "rating" stored = dict_get "rating" review_data)
  /\ (NoDup (map fst review_data) ->
      exists w' stored,
        DatabaseImpl.create_review isoformat review_data w = (Ok stored, w')
        /\ files w' !! "data/reviews.json" = Some (Json (reviews ++ [stored]))
        /\ dict_get "rating" stored = dict_get "rating" review_data).
Proof.
  intros Hfile Hsave.
  destruct (load_with_fallback "data/reviews.json" w) as [Hload _].
  specialize (Hload _ Hfile).
  split.
  - intros Hrequired. unfold Database.create_review.
    rewrite (bind_Ok _ _ _ _ _ Hload). rewrite Hrequired.
    cbn [negb]. unfold datetime_now at 1. unfold mbind at 1, M_bind at 1.
    destruct (save_data_succeeds
                (reviews ++
                 [dict_setdefault "verified" (VBool false)
                    (dict_setdefault "created_at" (VStr (strftime (clock w)))
                       review_data)])
                Database.REVIEWS_FILE w Hsave) as (w' & Hrun & Hfile' & _).
    rewrite (bind_Ok _ _ _ _ _ Hrun).
    eexists w', _. split; [reflexivity|]. split; [exact Hfile'|].
    now rewrite !dict_get_setdefault_ne.
  - intros Hkeys. unfold DatabaseImpl.create_review, DatabaseImpl.load_data.
    rewrite (bind_Ok _ _ _ _ _ Hload).
    unfold uuid4 at 1. unfold mbind at 1, M_bind at 1.
    unfold datetime_now at 1. unfold mbind at 1, M_bind at 1.
    cbn [clock].
    set (w1 := World (files w) (faults w) (clock w) (uuids w)
                 (S (uuid_next w)) (trace w)).
    set (stored := dict_merge _ review_data).
    destruct (save_data_succeeds (reviews ++ [stored])
                Database.REVIEWS_FILE w1 Hsave) as (w' & Hrun & Hfile' & _).
    unfold DatabaseImpl.save_data.
    rewrite (bind_Ok _ _ _ _ _ Hrun).
    exists w', stored. split; [reflexivity|]. split; [exact Hfile'|].
    subst stored. unfold dict_merge.
    destruct (dict_get "rating" review_data) as [v|] eqn:Hrating.
    + now apply dict_get_update_in.
    + rewrite dict_get_update_other; [reflexivity|].
      unfold dict_has. now rewrite Hrating.
Qed.

End CreateReview.

Lemma create_review_stores_given_rating_witness :
  (exists w' stored,
     Database.create_review toy_format rave
       (world_of [("data/reviews.json", Json [])] [] 0) = (Ok true, w')
     /\ files w' !! "data/reviews.json" = Some (Json ([] ++ [stored]))
     /\ dict_get "rating" stored = dict_get "rating" rave)
  /\ (exists w' stored,
     DatabaseImpl.create_review toy_format rave
       (world_of [("data/reviews.json", Json [])] [] 0) = (Ok stored, w')
     /\ files w' !! "data/reviews.json" = Some (Json ([] ++ [stored]))
     /\ dict_get "rating" stored = dict_get "rating" rave).
Proof.
  destruct (create_review_stores_given_rating toy_format toy_format rave []
              (world_of [("data/reviews.json", Json [])] [] 0)
              eq_refl eq_refl) as [Hutils Himpl].
  split; [apply Hutils; reflexivity|apply Himpl].
  apply (bool_decide_unpack (NoDup (map fst rave))). vm_compute. exact I.
Defined.

(** C7, as stated, fails: a review with rating 7 is stored as it is. *)
Lemma create_review_stores_rating_out_of_range :
  fst (Database.create_review toy_format rave
         (world_of [("data/reviews.json", Json [])] [] 0)) = Ok true
  /\ files (snd (Database.create_review toy_format rave
                   (world_of [("data/reviews.json", Json [])] [] 0)))
       !! "data/reviews.json"
     = Some (Json [[("id", VStr "r1");
                    ("property_id", VStr "p1");
                    ("user_id", VStr "u1");
                    ("rating", VInt 7);
                    ("comment", VStr "Off the scale");
                    ("verified", VBool false);
                    ("created_at", VStr "1970-01-01T00:00:00")]]).
Proof. split; vm_compute; reflexivity. Qed.

(** ** C4: [verify_user] and [verify_token] *)

Lemma credentials_match_spec (email password_hash : string) (user : dict) :
  credentials_match email password_hash user = true
  <-> dict_get "email" user = Some (VStr email)
      /\ dict_get "password_hash" user = Some (VStr password_hash).
Proof.
  unfold credentials_match.
  destruct (dict_get "email" user) as [e|], (dict_get "password_hash" user) as [h|];
    try (split; [discriminate|intros [? ?]; discriminate]).
  rewrite andb_true_iff, !py_eq_VStr. split; intros [? ?]; split; congruence.
Qed.

Section AuthProperties.

Variable sha256_hex : string -> string.
Variable SECRET_KEY : string.
Variable token : Type.
Variable jwt_encode : dict -> string -> token.
Variable jwt_decode : token -> string -> M dict.
Variable fromtimestamp : Z -> Z.
Variable timestamp : Z -> Z.

Lemma verify_user_loop_spec (email password_hash : string) (w : world) :
  forall users : list dict,
  forallb user_fields_ok users = true ->
  Auth.verify_user_loop SECRET_KEY token jwt_encode fromtimestamp timestamp
    users email password_hash w
  = (match List.find (credentials_match email password_hash) users with
     | Some user =>
         Ok (true,
             Some (jwt_encode
                     (issued_payload user
                        (token_expiry fromtimestamp timestamp (clock w)))
                     SECRET_KEY),
             Some user)
     | None => Ok (false, None, None)
     end, w).
Proof.
  induction users as [|user users IH]; [reflexivity|].
  simpl forallb. intros [Huser Husers]%andb_true_iff.
  unfold user_fields_ok, dict_has in Huser.
  destruct (dict_get "id" user) as [id|] eqn:Hid; [|discriminate].
  destruct (dict_get "email" user) as [e|] eqn:He; [|discriminate].
  destruct (dict_get "password_hash" user) as [h|] eqn:Hh; [|discriminate].
  simpl List.find. unfold credentials_match at 1. rewrite He, Hh.
  simpl Auth.verify_user_loop. unfold getitem. rewrite He, Hh, Hid.
  unfold mbind, M_bind, lift, mret, M_ret, datetime_now.
  destruct (py_eq e (VStr email)); simpl andb.
  - destruct (py_eq h (VStr password_hash)).
    + unfold issued_payload, token_expiry. rewrite Hid, He. reflexivity.
    + exact (IH Husers).
  - exact (IH Husers).
Qed.

Lemma verify_token_expired (payload : dict) (exp : Z) (w : world) :
  rejects_expired jwt_encode jwt_decode ->
  dict_get "exp" payload = Some (VInt exp) ->
  (exp < clock w)%Z ->
  Auth.verify_token SECRET_KEY token jwt_decode (jwt_encode payload SECRET_KEY) w
  = (Ok (false, VNone, VStr "Token expired"), w).
Proof.
  intros Hjwt Hexp Hpast.
  unfold Auth.verify_token, try_except.
  rewrite (bind_Raise _ _ _ _ _ (Hjwt payload SECRET_KEY exp w Hexp Hpast)).
  reflexivity.
Qed.

(** C4. Over a users file whose records carry [id], [email] and
    [password_hash]: [verify_user] succeeds, returning a token, exactly
    when some stored user has both that email and the hash of that
    password; otherwise it returns [(False, None, None)].  The token it
    issues carries as expiry the instant at which the local wall clock
    reads 24 hours more than at the login, and, PyJWT raising
    [ExpiredSignatureError] on tokens whose expiry has passed,
    [verify_token] rejects it (and any token signed with the key) once
    that time has passed. *)
Theorem verify_user_iff_credentials (email password : string)
    (users : list dict) (w : world) :
  files w !! "data/users.json" = Some (Json users) ->
  forallb user_fields_ok users = true ->
  ((exists user, In user users
      /\ dict_get "email" user = Some (VStr email)
      /\ dict_get "password_hash" user = Some (VStr (sha256_hex password)))
   <-> exists tok user,
         Auth.verify_user sha256_hex SECRET_KEY token jwt_encode fromtimestamp
           timestamp email password w
         = (Ok (true, Some tok, Some user), w))
  /\ ((forall user, In user users ->
         ~ (dict_get "email" user = Some (VStr email)
            /\ dict_get "password_hash" user = Some (VStr (sha256_hex password)))) ->
      Auth.verify_user sha256_hex SECRET_KEY token jwt_encode fromtimestamp
           timestamp email password w
      = (Ok (false, None, None), w))
  /\ (rejects_expired jwt_encode jwt_decode ->
      (forall tok user w2,
         Auth.verify_user sha256_hex SECRET_KEY token jwt_encode fromtimestamp
           timestamp email password w
         = (Ok (true, Some tok, Some user), w) ->
         (token_expiry fromtimestamp timestamp (clock w) < clock w2)%Z ->
         Auth.verify_token SECRET_KEY token jwt_decode tok w2
         = (Ok (false, VNone, VStr "Token expired"), w2))
      /\ (forall payload exp w2,
            dict_get "exp" payload = Some (VInt exp) ->
            (exp < clock w2)%Z ->
            Auth.verify_token SECRET_KEY token jwt_decode
              (jwt_encode payload SECRET_KEY) w2
            = (Ok (false, VNone, VStr "Token expired"), w2))).
Proof.
  intros Hfile Hfields.
  assert (Hrun : Auth.verify_user sha256_hex SECRET_KEY token jwt_encode
                   fromtimestamp timestamp email password w
                 = (match List.find (credentials_match email (sha256_hex password))
                            users with
                    | Some user =>
                        Ok (true,
                            Some (jwt_encode
                                    (issued_payload user
                                       (token_expiry fromtimestamp timestamp
                                          (clock w)))
                                    SECRET_KEY),
                            Some user)
                    | None => Ok (false, None, None)
                    end, w)).
  { unfold Auth.verify_user, Auth.load_users, Auth.hash_password.
    destruct (load_with_fallback "data/users.json" w) as [Hload _].
    rewrite (bind_Ok _ _ _ _ _ (Hload _ Hfile)).
    now apply verify_user_loop_spec. }
  rewrite Hrun.
  destruct (List.find (credentials_match email (sha256_hex password)) users)
    as [found|] eqn:Hfind.
  - apply find_some in Hfind as [Hin Hmatch].
    apply credentials_match_spec in Hmatch.
    split; [|split].
    + split; [intros _; now eexists _, _|intros _; now exists found].
    + intros Hnone. exfalso. exact (Hnone found Hin Hmatch).
    + intros Hjwt. split.
      * intros tok user w2 Heq Hpast.
        injection Heq as <- _.
        now apply (verify_token_expired _
                     (token_expiry fromtimestamp timestamp (clock w))).
      * intros payload exp w2. now apply verify_token_expired.
  - pose proof (find_none _ _ Hfind) as Hnone.
    split; [|split].
    + split.
      * intros (user & Hin & Hmatch). apply credentials_match_spec in Hmatch.
        rewrite (Hnone user Hin) in Hmatch. discriminate.
      * intros (tok & user & Heq). discriminate.
    + reflexivity.
    + intros Hjwt. split.
      * intros tok user w2 Heq. discriminate.
      * intros payload exp w2. now apply verify_token_expired.
Qed.

End AuthProperties.

Lemma toy_jwt_rejects_expired : rejects_expired toy_encode toy_decode.
Proof.
  intros payload key exp w Hexp Hpast.
  assert (Hle : (exp <=? clock w)%Z = true) by (apply Z.leb_le; lia).
  unfold toy_decode, toy_encode.
  rewrite String.eqb_refl, Hexp.
  unfold mbind, M_bind, datetime_now, raise. cbn [negb]. cbv beta iota.
  now rewrite Hle.
Defined.

Lemma verify_user_iff_credentials_witness :
  Auth.verify_user toy_hash "secret" toy_token toy_encode toy_fromtimestamp
    toy_timestamp
    "alice@example.com" "pw123"
    (world_of [("data/users.json", Json [alice])] [] 0)
  = (Ok (true, Some (toy_encode (issued_payload alice 86400) "secret"), Some alice),
     world_of [("data/users.json", Json [alice])] [] 0)
  /\ Auth.verify_user toy_hash "secret" toy_token toy_encode toy_fromtimestamp
    toy_timestamp
       "alice@example.com" "guess"
       (world_of [("data/users.json", Json [alice])] [] 0)
     = (Ok (false, None, None), world_of [("data/users.json", Json [alice])] [] 0)
  /\ Auth.verify_token "secret" toy_token toy_decode
       (toy_encode (issued_payload alice 86400) "secret") (world_of [] [] 86401)
     = (Ok (false, VNone, VStr "Token expired"), world_of [] [] 86401).
Proof.
  destruct (verify_user_iff_credentials toy_hash "secret" toy_token toy_encode
              toy_decode toy_fromtimestamp toy_timestamp "alice@example.com" "guess" [alice]
              (world_of [("data/users.json", Json [alice])] [] 0)
              eq_refl eq_refl) as (_ & Hfail & _).
  destruct (verify_user_iff_credentials toy_hash "secret" toy_token toy_encode
              toy_decode toy_fromtimestamp toy_timestamp "alice@example.com" "pw123" [alice]
              (world_of [("data/users.json", Json [alice])] [] 0)
              eq_refl eq_refl) as (_ & _ & Hexpired).
  split; [reflexivity|]. split.
  - apply Hfail. intros user [<-|[]] [_ Hhash]. discriminate.
  - apply (proj1 (Hexpired toy_jwt_rejects_expired)
             (toy_encode (issued_payload alice 86400) "secret") alice
             (world_of [] [] 86401)); reflexivity.
Defined.

(** ** C8, C10: updates of the first record with a given id *)

Lemma change_first_found (id : value) (change : dict -> dict) (r : dict)
    (after : list dict) :
  forall before : list dict,
  forallb (id_differs id) before = true ->
  id_matches id r = true ->
  change_first (before ++ r :: after) id change
  = Ok (before ++ change r :: after, true).
Proof.
  induction before as [|p before IH]; intros Hbefore Hr.
  - destruct (id_matches_inv _ _ Hr) as (v & Hv & Heq).
    simpl. unfold getitem. rewrite Hv. simpl. now rewrite Heq.
  - simpl in Hbefore. apply andb_true_iff in Hbefore as [Hp Hbefore].
    destruct (id_differs_inv _ _ Hp) as (v & Hv & Hne).
    simpl. unfold getitem. rewrite Hv. simpl. rewrite Hne.
    now rewrite (IH Hbefore Hr).
Qed.

Lemma change_first_none (id : value) (change : dict -> dict) :
  forall records : list dict,
  forallb (id_differs id) records = true ->
  change_first records id change = Ok (records, false).
Proof.
  induction records as [|p records IH]; [reflexivity|].
  simpl. intros [Hp Hrecords]%andb_true_iff.
  destruct (id_differs_inv _ _ Hp) as (v & Hv & Hne).
  unfold getitem. rewrite Hv. simpl. rewrite Hne.
  now rewrite (IH Hrecords).
Qed.

Lemma change_first_total (id : value) (change : dict -> dict) :
  forall records : list dict,
  forallb (dict_has "id") records = true ->
  exists records' found, change_first records id change = Ok (records', found).
Proof.
  induction records as [|p records IH]; [now exists [], false|].
  simpl. intros [Hp Hrecords]%andb_true_iff.
  unfold dict_has in Hp. unfold getitem.
  destruct (dict_get "id" p) as [v|]; [|discriminate]. simpl.
  destruct (py_eq v id); [now eexists _, _|].
  destruct (IH Hrecords) as (records' & found & ->). simpl. now eexists _, _.
Qed.

Lemma find_by_id_found (id : value) (r : dict) (after : list dict) :
  forall before : list dict,
  forallb (id_differs id) before = true ->
  id_matches id r = true ->
  find_by_id (before ++ r :: after) id = Ok (Some r).
Proof.
  induction before as [|p before IH]; intros Hbefore Hr.
  - destruct (id_matches_inv _ _ Hr) as (v & Hv & Heq).
    simpl. unfold getitem. rewrite Hv. simpl. now rewrite Heq.
  - simpl in Hbefore. apply andb_true_iff in Hbefore as [Hp Hbefore].
    destruct (id_differs_inv _ _ Hp) as (v & Hv & Hne).
    simpl. unfold getitem. rewrite Hv. simpl. rewrite Hne.
    exact (IH Hbefore Hr).
Qed.

Lemma complete_twice (verified : value) (t1 t2 : string) (session : dict) :
  VideoStream.complete verified t2 (VideoStream.complete verified t1 session)
  = VideoStream.complete verified t2 session.
Proof.
  unfold VideoStream.complete.
  set (d1 := dict_set "verified" verified
               (dict_set "status" (VStr "completed") session)).
  set (d2 := dict_set "completed_at" (VStr t1) d1).
  assert (Hstatus : dict_set "status" (VStr "completed") d2 = d2).
  { apply dict_set_same. subst d2 d1.
    rewrite !dict_get_set_ne by discriminate. apply dict_get_set_eq. }
  assert (Hverified : dict_set "verified" verified d2 = d2).
  { apply dict_set_same. subst d2 d1.
    rewrite dict_get_set_ne by discriminate. apply dict_get_set_eq. }
  rewrite Hstatus, Hverified. subst d2. apply dict_set_set.
Qed.

Lemma complete_keeps_id (id verified : value) (t : string) (session : dict) :
  id_matches id (VideoStream.complete verified t session)
  = id_matches id session.
Proof.
  unfold id_matches, VideoStream.complete.
  now rewrite !dict_get_set_ne by discriminate.
Qed.

Lemma complete_fields (verified : value) (t : string) (session : dict) :
  dict_get "status" (VideoStream.complete verified t session)
  = Some (VStr "completed")
  /\ dict_get "verified" (VideoStream.complete verified t session)
     = Some verified.
Proof.
  unfold VideoStream.complete. split.
  - rewrite !dict_get_set_ne by discriminate. apply dict_get_set_eq.
  - rewrite dict_get_set_ne by discriminate. apply dict_get_set_eq.
Qed.

Section Sessions.

Variable isoformat : Z -> string.

Lemma complete_once (session_id verified : value) (before after : list dict)
    (session : dict) (w : world) :
  files w !! "data/verification_sessions.json"
  = Some (Json (before ++ session :: after)) ->
  fst (next_fault w) = NoFault ->
  forallb (id_differs session_id) before = true ->
  id_matches session_id session = true ->
  exists w',
    VideoStream.complete_verification_session isoformat session_id verified w
    = (Ok true, w')
    /\ files w'
       = <["data/verification_sessions.json" :=
             Json (before
                   ++ VideoStream.complete verified (isoformat (clock w)) session
                   :: after)]> (files w)
    /\ faults w' = tl (faults w)
    /\ clock w' = clock w.
Proof.
  intros Hfile Hfault Hbefore Hsession.
  unfold VideoStream.complete_verification_session,
    VideoStream.load_verification_sessions, VideoStream.save_verification_sessions.
  destruct (load_with_fallback "data/verification_sessions.json" w) as [Hload _].
  rewrite (bind_Ok _ _ _ _ _ (Hload _ Hfile)).
  unfold datetime_now at 1. unfold mbind at 1, M_bind at 1.
  rewrite (change_first_found _ _ _ _ _ Hbefore Hsession), lift_bind.
  destruct (write_json_no_fault "data/verification_sessions.json"
              (before ++ VideoStream.complete verified (isoformat (clock w)) session
               :: after) w Hfault) as (w' & Hwrite & Hfiles & Hfaults & Hclock & _).
  rewrite (bind_Ok _ _ _ _ _ Hwrite).
  exists w'. auto.
Qed.

(** C8. Completing an existing session twice with [verified=True] (no I/O
    fault) leaves the sessions file exactly as a single completion at the
    time of the second call does, and the session read back has [status]
    ["completed"] and [verified] [True]. *)
Theorem complete_verification_session_twice (session_id : value)
    (before after : list dict) (session : dict) (w : world) (later : Z) :
  files w !! "data/verification_sessions.json"
  = Some (Json (before ++ session :: after)) ->
  faults w = [] ->
  forallb (id_differs session_id) before = true ->
  id_matches session_id session = true ->
  exists w1 w2 once completed,
    VideoStream.complete_verification_session isoformat session_id (VBool true) w
    = (Ok true, w1)
    /\ VideoStream.complete_verification_session isoformat session_id (VBool true)
         (set_clock later w1) = (Ok true, w2)
    /\ VideoStream.complete_verification_session isoformat session_id (VBool true)
         (set_clock later w) = (Ok true, once)
    /\ files w2 = files once
    /\ VideoStream.get_verification_session session_id w2
       = (Ok (Some completed), w2)
    /\ dict_get "status" completed = Some (VStr "completed")
    /\ dict_get "verified" completed = Some (VBool true).
Proof.
  intros Hfile Hfaults Hbefore Hsession.
  assert (Hnf : forall w0, faults w0 = [] -> fst (next_fault w0) = NoFault).
  { intros w0 H0. unfold next_fault. now rewrite H0. }
  destruct (complete_once session_id (VBool true) before after session w
              Hfile (Hnf _ Hfaults) Hbefore Hsession)
    as (w1 & Hrun1 & Hfiles1 & Hfaults1 & _).
  rewrite Hfaults in Hfaults1. simpl in Hfaults1.
  set (first := VideoStream.complete (VBool true) (isoformat (clock w)) session)
    in *.
  assert (Hfile1 : files (set_clock later w1) !! "data/verification_sessions.json"
                   = Some (Json (before ++ first :: after))).
  { simpl. rewrite Hfiles1. apply lookup_insert_eq. }
  assert (Hfirst : id_matches session_id first = true).
  { subst first. now rewrite complete_keeps_id. }
  destruct (complete_once session_id (VBool true) before after first
              (set_clock later w1) Hfile1 (Hnf (set_clock later w1) Hfaults1)
              Hbefore Hfirst)
    as (w2 & Hrun2 & Hfiles2 & _).
  destruct (complete_once session_id (VBool true) before after session
              (set_clock later w) Hfile (Hnf (set_clock later w) Hfaults)
              Hbefore Hsession)
    as (once & Hrun3 & Hfiles3 & _).
  simpl in Hfiles2, Hfiles3. subst first.
  rewrite complete_twice in Hfiles2.
  set (completed := VideoStream.complete (VBool true) (isoformat later) session)
    in *.
  exists w1, w2, once, completed.
  split; [exact Hrun1|]. split; [exact Hrun2|]. split; [exact Hrun3|].
  split; [rewrite Hfiles2, Hfiles3, Hfiles1; apply insert_insert_eq|].
  split; [|subst completed; apply complete_fields].
  unfold VideoStream.get_verification_session,
    VideoStream.load_verification_sessions.
  destruct (load_with_fallback "data/verification_sessions.json" w2) as [Hload _].
  assert (Hfile2 : files w2 !! "data/verification_sessions.json"
                   = Some (Json (before ++ completed :: after))).
  { rewrite Hfiles2. apply lookup_insert_eq. }
  rewrite (bind_Ok _ _ _ _ _ (Hload _ Hfile2)).
  rewrite find_by_id_found; [reflexivity|exact Hbefore|].
  subst completed. now rewrite complete_keeps_id.
Qed.

End Sessions.

Lemma complete_verification_session_twice_witness :
  exists w1 w2 once completed,
    VideoStream.complete_verification_session toy_format (VStr "s1") (VBool true)
      (world_of [("data/verification_sessions.json", Json [viewing])] [] 0)
    = (Ok true, w1)
    /\ VideoStream.complete_verification_session toy_format (VStr "s1") (VBool true)
         (set_clock 60 w1) = (Ok true, w2)
    /\ VideoStream.complete_verification_session toy_format (VStr "s1") (VBool true)
         (set_clock 60
            (world_of [("data/verification_sessions.json", Json [viewing])] [] 0))
       = (Ok true, once)
    /\ files w2 = files once
    /\ VideoStream.get_verification_session (VStr "s1") w2
       = (Ok (Some completed), w2)
    /\ dict_get "status" completed = Some (VStr "completed")
    /\ dict_get "verified" completed = Some (VBool true).
Proof.
  apply (complete_verification_session_twice toy_format (VStr "s1") [] []
           viewing
           (world_of [("data/verification_sessions.json", Json [viewing])] [] 0)
           60); reflexivity.
Defined.

(** The shape shared by [update_user_role], [update_user_profile] and
    [update_user_wallet]: load, change the first matching user if there is
    one, save, return [True]. *)
Lemma update_user_always_saves (user_id : value) (change : dict -> dict)
    (users : list dict) (w : world) :
  files w !! "data/users.json" = Some (Json users) ->
  fst (next_fault w) = NoFault ->
  forallb (dict_has "id") users = true ->
  exists w' users',
    (users ← Auth.load_users;
     '(users', _) ← lift (change_first users user_id change);
     Auth.save_users users' ;; mret true) w = (Ok true, w')
    /\ trace w' = trace w ++ [EvWrite "data/users.json" NoFault]
    /\ files w' !! "data/users.json" = Some (Json users')
    /\ (forallb (id_differs user_id) users = true -> users' = users).
Proof.
  intros Hfile Hfault Hids.
  destruct (load_with_fallback "data/users.json" w) as [Hload _].
  unfold Auth.load_users, Auth.save_users.
  rewrite (bind_Ok _ _ _ _ _ (Hload _ Hfile)).
  destruct (change_first_total user_id change users Hids)
    as (users' & found & Hchange).
  rewrite Hchange, lift_bind.
  destruct (write_json_no_fault "data/users.json" users' w Hfault)
    as (w' & Hwrite & Hfiles & _ & _ & Htrace).
  rewrite (bind_Ok _ _ _ _ _ Hwrite).
  exists w', users'. split; [reflexivity|]. split; [exact Htrace|].
  split; [rewrite Hfiles; apply lookup_insert_eq|].
  intros Hnone. rewrite (change_first_none _ _ _ Hnone) in Hchange.
  now injection Hchange as <- _.
Qed.

(** C10. Over a users file whose records carry an [id] (and with no I/O
    fault), the role, profile and wallet updates return [True] and rewrite
    the users file for every input; when no user has the given id they
    write the collection back unchanged, whereas [update_kyc_status]
    returns [False] and writes nothing. *)
Theorem user_updates_always_report_success (user_id new_role wallet_address
    verified : value) (profile_data : dict) (users : list dict) (w : world) :
  files w !! "data/users.json" = Some (Json users) ->
  fst (next_fault w) = NoFault ->
  forallb (dict_has "id") users = true ->
  (exists w' users',
     Auth.update_user_role user_id new_role w = (Ok true, w')
     /\ trace w' = trace w ++ [EvWrite "data/users.json" NoFault]
     /\ files w' !! "data/users.json" = Some (Json users')
     /\ (forallb (id_differs user_id) users = true -> users' = users))
  /\ (exists w' users',
     Auth.update_user_profile user_id profile_data w = (Ok true, w')
     /\ trace w' = trace w ++ [EvWrite "data/users.json" NoFault]
     /\ files w' !! "data/users.json" = Some (Json users')
     /\ (forallb (id_differs user_id) users = true -> users' = users))
  /\ (exists w' users',
     Auth.update_user_wallet user_id wallet_address w = (Ok true, w')
     /\ trace w' = trace w ++ [EvWrite "data/users.json" NoFault]
     /\ files w' !! "data/users.json" = Some (Json users')
     /\ (forallb (id_differs user_id) users = true -> users' = users))
  /\ (forallb (id_differs user_id) users = true ->
      Auth.update_kyc_status user_id verified w = (Ok false, w)).
Proof.
  intros Hfile Hfault Hids.
  split; [|split; [|split]].
  - exact (update_user_always_saves user_id (dict_set "user_type" new_role)
             users w Hfile Hfault Hids).
  - exact (update_user_always_saves user_id
             (fun user => dict_update user profile_data) users w Hfile Hfault Hids).
  - exact (update_user_always_saves user_id
             (dict_set "wallet_address" wallet_address) users w Hfile Hfault Hids).
  - intros Hnone. unfold Auth.update_kyc_status, Auth.load_users.
    destruct (load_with_fallback "data/users.json" w) as [Hload _].
    rewrite (bind_Ok _ _ _ _ _ (Hload _ Hfile)).
    now rewrite (change_first_none _ _ _ Hnone).
Qed.

Lemma user_updates_always_report_success_witness :
  (exists w' users',
     Auth.update_user_role (VStr "nobody") (VStr "owner")
       (world_of [("data/users.json", Json [alice])] [] 0) = (Ok true, w')
     /\ trace w' = [] ++ [EvWrite "data/users.json" NoFault]
     /\ files w' !! "data/users.json" = Some (Json users')
     /\ (forallb (id_differs (VStr "nobody")) [alice] = true -> users' = [alice]))
  /\ Auth.update_kyc_status (VStr "nobody") (VBool true)
       (world_of [("data/users.json", Json [alice])] [] 0)
     = (Ok false, world_of [("data/users.json", Json [alice])] [] 0).
Proof.
  destruct (user_updates_always_report_success (VStr "nobody") (VStr "owner")
              (VStr "0xabc") (VBool true) [("full_name", VStr "A.")] [alice]
              (world_of [("data/users.json", Json [alice])] [] 0)
              eq_refl eq_refl eq_refl) as (Hrole & _ & _ & Hkyc).
  split; [exact Hrole|apply Hkyc; reflexivity].
Defined.

(** * Further properties of the store *)

(** ** [save_data] and [load_data] together *)

(** One attempt touches no file but the target and its temporary sibling,
    and when it succeeds the sibling is gone. *)
Lemma attempt_frame (data : list dict) (path : string) (w : world) :
  let tmp := path +:+ ".tmp" in
  forall r w',
    (write_json tmp data ;; os_replace tmp path ;; mret (Database.Return true)) w
      = (r, w') ->
    (forall p, p <> path -> p <> tmp -> files w' !! p = files w !! p)
    /\ (forall b, r = Ok b -> files w' !! tmp = None).
Proof.
  intros tmp r w'. pose proof (tmp_path_distinct path) as Hne. fold tmp in Hne.
  destruct w as [fs flt c us un tr].
  unfold mbind, M_bind, mret, M_ret, write_json, os_replace, next_fault, log,
    set_files.
  destruct flt as [|[] [|[] flt]]; simpl; rewrite ?lookup_insert_eq; simpl;
    intros [= <- <-]; simpl; (split; [intros p Hp Ht|intros b Hb]);
    try discriminate;
    rewrite ?lookup_insert_ne by congruence;
    rewrite ?lookup_delete_ne by congruence;
    rewrite ?lookup_insert_ne by congruence;
    try reflexivity; apply lookup_delete_eq.
Qed.

Lemma save_data_loop_frame (data : list dict) (path : string) :
  forall (n a : nat) (w : world) r w',
  Database.save_data_loop (seq a n) data path w = (r, w') ->
  (forall p, p <> path -> p <> path +:+ ".tmp" -> files w' !! p = files w !! p)
  /\ (r = Ok (Some true) -> files w' !! (path +:+ ".tmp") = None).
Proof.
  induction n as [|n IH]; intros a w r w' Hrun.
  - simpl in Hrun. injection Hrun as <- <-. split; [reflexivity|discriminate].
  - simpl seq in Hrun. rewrite save_data_loop_cons in Hrun.
    destruct ((write_json (path +:+ ".tmp") data ;;
               os_replace (path +:+ ".tmp") path ;;
               mret (Database.Return true)) w) as [r0 w1] eqn:Hbody.
    destruct (attempt_frame data path w r0 w1 Hbody) as [Hframe Htmp].
    destruct r0 as [[|b]|e].
    + destruct (IH _ _ _ _ Hrun) as [Hframe' Htmp'].
      split; [|exact Htmp'].
      intros p Hp Ht. now rewrite Hframe', Hframe.
    + injection Hrun as <- <-. split; [exact Hframe|].
      intros _. exact (Htmp _ eq_refl).
    + destruct (a <? 4)%nat.
      * destruct (IH _ _ _ _ Hrun) as [Hframe' Htmp'].
        split; [|exact Htmp'].
        intros p Hp Ht. rewrite Hframe' by assumption. simpl. now apply Hframe.
      * injection Hrun as <- <-. split; [|discriminate].
        intros p Hp Ht. simpl. now apply Hframe.
Qed.

(** [save_data] touches no file other than the target and its [.tmp]
    sibling, whatever fails; and after a successful save no temporary
    file is left behind. *)
Theorem save_data_leaves_other_files (data : list dict) (path : string)
    (w : world) :
  (forall p, p <> path -> p <> path +:+ ".tmp" ->
     files (snd (Database.save_data data path w)) !! p = files w !! p)
  /\ (fst (Database.save_data data path w) = Ok (Some true) ->
      files (snd (Database.save_data data path w)) !! (path +:+ ".tmp") = None).
Proof.
  unfold Database.save_data.
  destruct (Database.save_data_loop (seq 0 Database.max_retries) data path w)
    as [r w'] eqn:Hrun.
  exact (save_data_loop_frame data path _ _ _ _ _ Hrun).
Qed.

Lemma save_data_leaves_other_files_witness :
  files (snd (Database.save_data [cottage] "data/properties.json"
                (world_of [("data/users.json", Json [alice])] [] 0)))
    !! "data/users.json" = Some (Json [alice])
  /\ files (snd (Database.save_data [cottage] "data/properties.json"
                   (world_of [("data/users.json", Json [alice])] [] 0)))
       !! "data/properties.json.tmp" = None.
Proof.
  destruct (save_data_leaves_other_files [cottage] "data/properties.json"
              (world_of [("data/users.json", Json [alice])] [] 0))
    as [Hframe Htmp].
  split.
  - rewrite Hframe; [reflexivity|discriminate|discriminate].
  - apply Htmp. reflexivity.
Defined.

(** Round trip: whenever [save_data] reports success, [load_data] on the
    same path gives back exactly the saved collection, without touching
    the world. *)
Theorem save_then_load (data : list dict) (path : string) (w : world) :
  all_attempts_fail 5 (faults w) = false ->
  exists w',
    Database.save_data data path w = (Ok (Some true), w')
    /\ Database.load_data path w' = (Ok data, w').
Proof.
  intros Hsome.
  destruct (save_data_succeeds data path w Hsome) as (w' & Hrun & Hfile & _).
  exists w'. split; [exact Hrun|].
  now apply (load_with_fallback path w').
Qed.

Lemma save_then_load_witness :
  exists w',
    Database.save_data [cottage; barn] "data/properties.json"
      (world_of [] [FailBefore; NoFault; FailDuring] 0) = (Ok (Some true), w')
    /\ Database.load_data "data/properties.json" w' = (Ok [cottage; barn], w').
Proof.
  apply (save_then_load [cottage; barn] "data/properties.json"
           (world_of [] [FailBefore; NoFault; FailDuring] 0)).
  reflexivity.
Defined.

(** When the file is absent or unparsable and the write of the empty
    replacement fails, [load_data] does not return: the [OSError] escapes.
    A failure during that write leaves unparsable content. *)
Theorem load_data_fallback_write_fails (path : string) (w : world)
    (f : fault) (rest : list fault) :
  files w !! path = None \/ files w !! path = Some Corrupt ->
  faults w = f :: rest ->
  f <> NoFault ->
  exists w',
    Database.load_data path w = (Raise OSError, w')
    /\ faults w' = rest
    /\ files w' !! path = match f with
                          | FailDuring => Some Corrupt
                          | _ => files w !! path
                          end.
Proof.
  intros Hmissing Hfaults Hf. destruct w as [fs flt c us un tr].
  simpl in *. subst flt.
  unfold Database.load_data, try_except, read_json. simpl files.
  destruct f; [congruence| |];
    (destruct Hmissing as [H|H]; rewrite H; eexists; (split; [reflexivity|]);
     (split; [reflexivity|]); simpl; rewrite ?lookup_insert_eq; auto).
Qed.

Lemma load_data_fallback_write_fails_witness :
  exists w',
    Database.load_data "data/bookings.json"
      (world_of [] [FailDuring; NoFault] 0) = (Raise OSError, w')
    /\ faults w' = [NoFault]
    /\ files w' !! "data/bookings.json" = Some Corrupt.
Proof.
  apply (load_data_fallback_write_fails "data/bookings.json"
           (world_of [] [FailDuring; NoFault] 0) FailDuring [NoFault]).
  - left. reflexivity.
  - reflexivity.
  - discriminate.
Defined.

(** ** [create_property] of [utils/database.py] *)

Lemma require_fields_spec (required : list string) (data : dict) :
  Database.require_fields required data
  = if forallb (fun field => dict_has field data) required
    then Ok tt else Raise ValueError.
Proof.
  induction required as [|field required IH]; [reflexivity|].
  simpl. destruct (dict_has field data); [exact IH|reflexivity].
Qed.

Lemma get_properties_unfiltered (stored : list dict) (w : world) :
  files w !! Database.PROPERTIES_FILE = Some (Json stored) ->
  Database.get_properties None w = (Ok stored, w)
  /\ Database.get_properties (Some []) w = (Ok stored, w).
Proof.
  intros Hfile. unfold Database.get_properties.
  destruct (load_with_fallback Database.PROPERTIES_FILE w) as [Hload _].
  now rewrite !(bind_Ok _ _ _ _ _ (Hload _ Hfile)).
Qed.

Section CreateProperty.

Variable isoformat : Z -> string.

(** A property that lacks one of the seven required fields is refused
    with [ValueError]: the error is printed and raised again, and nothing
    is written. *)
Theorem create_property_missing_field (property_data : dict)
    (stored : list dict) (w : world) :
  files w !! "data/properties.json" = Some (Json stored) ->
  forallb (fun field => dict_has field property_data) required_of_property
  = false ->
  Database.create_property isoformat property_data w
  = (Raise ValueError, log EvPrint w).
Proof.
  intros Hfile Hmissing.
  unfold Database.create_property, try_except.
  destruct (get_properties_unfiltered stored w Hfile) as [Hlist _].
  rewrite (bind_Ok _ _ _ _ _ Hlist).
  rewrite require_fields_spec.
  change (forallb _ _) with
    (forallb (fun field => dict_has field property_data) required_of_property).
  rewrite Hmissing. reflexivity.
Qed.

(** A complete property is appended to the stored ones with [status]
    forced to ["pending"], [verified] and [blockchain_registered] forced
    to [False] and both timestamps set to now, whatever the caller gave
    for them; every other field is stored as given.  Afterwards the
    unfiltered list ends with it, and the [status = "active"] list does
    not contain it. *)
Theorem create_property_forces_pending (property_data : dict)
    (stored : list dict) (w : world) :
  files w !! "data/properties.json" = Some (Json stored) ->
  fst (next_fault w) = NoFault ->
  forallb (fun field => dict_has field property_data) required_of_property
  = true ->
  exists w' created,
    Database.create_property isoformat property_data w = (Ok created, w')
    /\ files w' !! "data/properties.json" = Some (Json (stored ++ [created]))
    /\ dict_get "status" created = Some (VStr "pending")
    /\ dict_get "verified" created = Some (VBool false)
    /\ dict_get "blockchain_registered" created = Some (VBool false)
    /\ dict_get "created_at" created = Some (VStr (isoformat (clock w)))
    /\ dict_get "updated_at" created = Some (VStr (isoformat (clock w)))
    /\ (forall key, set_by_create key = false ->
          dict_get key created = dict_get key property_data)
    /\ Database.get_properties None w' = (Ok (stored ++ [created]), w')
    /\ Database.get_properties (Some [("status", VStr "active")]) w'
       = (Ok (List.filter (status_absent_or "active") stored), w').
Proof.
  intros Hfile Hfault Hrequired.
  set (created :=
         dict_set "updated_at" (VStr (isoformat (clock w)))
           (dict_set "created_at" (VStr (isoformat (clock w)))
              (dict_set "blockchain_registered" (VBool false)
                 (dict_set "verified" (VBool false)
                    (dict_set "status" (VStr "pending") property_data))))).
  destruct (write_json_no_fault "data/properties.json" (stored ++ [created]) w
              Hfault) as (w' & Hwrite & Hfiles & _).
  assert (Hfile' : files w' !! "data/properties.json"
                   = Some (Json (stored ++ [created]))).
  { rewrite Hfiles. apply lookup_insert_eq. }
  exists w', created.
  split.
  { unfold Database.create_property, try_except.
    destruct (get_properties_unfiltered stored w Hfile) as [Hlist _].
    rewrite (bind_Ok _ _ _ _ _ Hlist).
    rewrite require_fields_spec.
    change (forallb _ _) with
      (forallb (fun field => dict_has field property_data) required_of_property).
    rewrite Hrequired.
    unfold mbind at 1, M_bind at 1, lift at 1.
    unfold datetime_now, mbind at 1, M_bind at 1.
    unfold mbind at 1, M_bind at 1.
    fold created. rewrite (bind_Ok _ _ _ _ _ Hwrite). reflexivity. }
  split; [exact Hfile'|].
  subst created.
  split; [rewrite !dict_get_set_ne by discriminate; apply dict_get_set_eq|].
  split; [rewrite !dict_get_set_ne by discriminate; apply dict_get_set_eq|].
  split; [rewrite !dict_get_set_ne by discriminate; apply dict_get_set_eq|].
  split; [rewrite !dict_get_set_ne by discriminate; apply dict_get_set_eq|].
  split; [apply dict_get_set_eq|].
  split.
  { intros key Hkey. unfold set_by_create in Hkey. simpl in Hkey.
    rewrite !orb_false_iff in Hkey.
    destruct Hkey as (H1 & H2 & H3 & H4 & H5 & _).
    apply String.eqb_neq in H1, H2, H3, H4, H5.
    now rewrite !dict_get_set_ne by congruence. }
  split; [now apply get_properties_unfiltered|].
  rewrite (get_properties_filtered [("status", VStr "active")] _ w')
    by (discriminate || exact Hfile').
  rewrite filter_properties_status, List.filter_app. simpl.
  unfold status_absent_or at 2.
  rewrite !dict_get_set_ne by discriminate. rewrite dict_get_set_eq. simpl.
  now rewrite app_nil_r.
Qed.

End CreateProperty.

Lemma create_property_missing_field_witness :
  Database.create_property toy_format barn (properties_world [cottage])
  = (Raise ValueError, log EvPrint (properties_world [cottage])).
Proof.
  apply (create_property_missing_field toy_format barn [cottage]
           (properties_world [cottage])); reflexivity.
Defined.

Lemma create_property_forces_pending_witness :
  exists w' created,
    Database.create_property toy_format
      (dict_set "status" (VStr "active") loft) (properties_world [cottage])
    = (Ok created, w')
    /\ dict_get "status" created = Some (VStr "pending")
    /\ Database.get_properties (Some [("status", VStr "active")]) w'
       = (Ok [cottage], w').
Proof.
  destruct (create_property_forces_pending toy_format
              (dict_set "status" (VStr "active") loft) [cottage]
              (properties_world [cottage]) eq_refl eq_refl eq_refl)
    as (w' & created & Hrun & _ & Hstatus & _ & _ & _ & _ & _ & _ & Hactive).
  exists w', created. split; [exact Hrun|]. split; [exact Hstatus|exact Hactive].
Defined.

(** ** The list operations at their edges *)

Lemma property_matches_missing_price (prop : dict) :
  dict_get "price_per_day" prop = None ->
  forall (items : dict) (matches : bool),
  dict_has "price_min" items || dict_has "price_max" items = true ->
  Database.property_matches prop items matches = Raise KeyError.
Proof.
  intros Hprice. induction items as [|[key value] items IH]; intros matches Hkeys.
  - discriminate.
  - simpl. unfold Database.property_filter, getitem. rewrite Hprice.
    unfold dict_has in Hkeys. simpl in Hkeys.
    destruct (String.eqb key "price_min") eqn:Hmin; [reflexivity|].
    destruct (String.eqb key "price_max") eqn:Hmax; [reflexivity|].
    destruct (dict_get key prop) as [stored|]; simpl; now apply IH.
Qed.

Lemma filter_properties_missing_price (items : dict) :
  dict_has "price_min" items || dict_has "price_max" items = true ->
  forall stored : list dict,
  existsb (fun p => negb (dict_has "price_per_day" p)) stored = true ->
  exists e, Database.filter_properties stored items = Raise e.
Proof.
  intros Hkeys. induction stored as [|p stored IH]; [discriminate|].
  simpl. intros Hsome. unfold dict_has at 1 in Hsome.
  destruct (dict_get "price_per_day" p) eqn:Hprice; simpl in Hsome.
  - destruct (IH Hsome) as [e ->].
    destruct (Database.property_matches p items true); simpl; eauto.
  - rewrite (property_matches_missing_price p Hprice items true Hkeys).
    simpl. eauto.
Qed.

(** In [utils/database.py], one stored record without [price_per_day]
    makes every listing that carries a price bound fail: the call raises
    instead of returning the records that do have a price. *)
Theorem get_properties_price_filter_needs_prices (filters : dict)
    (stored : list dict) (w : world) :
  files w !! "data/properties.json" = Some (Json stored) ->
  dict_has "price_min" filters || dict_has "price_max" filters = true ->
  existsb (fun p => negb (dict_has "price_per_day" p)) stored = true ->
  exists e, Database.get_properties (Some filters) w = (Raise e, w).
Proof.
  intros Hfile Hkeys Hsome.
  assert (Hne : filters <> []) by (intros ->; discriminate).
  rewrite (get_properties_filtered filters stored w Hne Hfile).
  destruct (filter_properties_missing_price filters Hkeys stored Hsome) as [e ->].
  now exists e.
Qed.

Lemma get_properties_price_filter_needs_prices_witness :
  exists e,
    Database.get_properties
      (Some [("status", VStr "active"); ("price_max", VInt 9000)])
      (properties_world [cottage; dict_set "title" (VStr "Shed") []])
    = (Raise e, properties_world [cottage; dict_set "title" (VStr "Shed") []]).
Proof.
  apply (get_properties_price_filter_needs_prices
           [("status", VStr "active"); ("price_max", VInt 9000)]
           [cottage; dict_set "title" (VStr "Shed") []]); reflexivity.
Defined.

Section ImplEdges.

Variable isoformat : Z -> string.
Variable str_lower : string -> string.
Variable float_of_str : string -> result Q.

(** In [database-implementation.py], filter keys other than the six it
    knows are ignored, and so is a price bound given without the other
    one: the listing returns every stored record. *)
Theorem impl_get_properties_ignores_lone_bound (filters : dict)
    (stored : list dict) (w : world) :
  files w !! "data/properties.json" = Some (Json stored) ->
  filters <> [] ->
  forallb (fun key => negb (dict_has key filters))
    ["owner_id"; "status"; "verified"; "location"; "property_type"] = true ->
  dict_has "price_min" filters && dict_has "price_max" filters = false ->
  DatabaseImpl.get_properties str_lower float_of_str (Some filters) w
  = (Ok stored, w).
Proof.
  intros Hfile Hne Hkeys Hprice.
  rewrite (impl_get_properties_filtered str_lower float_of_str filters stored w
             Hne Hfile).
  simpl in Hkeys. rewrite !andb_true_iff, !negb_true_iff in Hkeys.
  destruct Hkeys as (H1 & H2 & H3 & H4 & H5 & _).
  unfold dict_has in *.
  unfold DatabaseImpl.apply_filters, DatabaseImpl.stage.
  destruct (dict_get "owner_id" filters); [discriminate|].
  destruct (dict_get "status" filters); [discriminate|].
  destruct (dict_get "verified" filters); [discriminate|].
  destruct (dict_get "location" filters); [discriminate|].
  destruct (dict_get "property_type" filters); [discriminate|].
  destruct (dict_get "price_min" filters), (dict_get "price_max" filters);
    try discriminate; reflexivity.
Qed.

Lemma update_property_loop_none (property_id : value) (property_data : dict)
    (all : list dict) (w : world) :
  forall (rest : list dict) (i : nat),
  forallb (id_differs property_id) rest = true ->
  Database.update_property_loop all i rest property_id property_data w
  = (Ok false, w).
Proof.
  induction rest as [|p rest IH]; intros i Hrest; [reflexivity|].
  simpl in Hrest. apply andb_true_iff in Hrest as [Hp Hrest].
  destruct (id_differs_inv _ _ Hp) as (v & Hv & Hne).
  simpl. unfold getitem. rewrite Hv, lift_bind, Hne. now apply IH.
Qed.

Lemma impl_update_property_loop_none (property_id : value) (updated_data : dict)
    (all : list dict) (w : world) :
  forall (rest : list dict) (i : nat),
  forallb (id_differs property_id) rest = true ->
  DatabaseImpl.update_property_loop isoformat all i rest property_id
    updated_data w = (Ok None, w).
Proof.
  induction rest as [|p rest IH]; intros i Hrest; [reflexivity|].
  simpl in Hrest. apply andb_true_iff in Hrest as [Hp Hrest].
  destruct (id_differs_inv _ _ Hp) as (v & Hv & Hne).
  simpl. unfold getitem. rewrite Hv, lift_bind, Hne. now apply IH.
Qed.

Lemma update_booking_status_loop_none (booking_id new_status : value)
    (all : list dict) (w : world) :
  forall (rest : list dict) (i : nat),
  forallb (id_differs booking_id) rest = true ->
  Database.update_booking_status_loop all i rest booking_id new_status w
  = (Ok false, w).
Proof.
  induction rest as [|p rest IH]; intros i Hrest; [reflexivity|].
  simpl in Hrest. apply andb_true_iff in Hrest as [Hp Hrest].
  destruct (id_differs_inv _ _ Hp) as (v & Hv & Hne).
  simpl. unfold getitem. rewrite Hv, lift_bind, Hne. now apply IH.
Qed.

Lemma impl_update_booking_loop_none (booking_id : value) (updated_data : dict)
    (all : list dict) (w : world) :
  forall (rest : list dict) (i : nat),
  forallb (id_differs booking_id) rest = true ->
  DatabaseImpl.update_booking_loop all i rest booking_id updated_data w
  = (Ok None, w).
Proof.
  induction rest as [|p rest IH]; intros i Hrest; [reflexivity|].
  simpl in Hrest. apply andb_true_iff in Hrest as [Hp Hrest].
  destruct (id_differs_inv _ _ Hp) as (v & Hv & Hne).
  simpl. unfold getitem. rewrite Hv, lift_bind, Hne. now apply IH.
Qed.

(** An update by an id that no stored record has reports not-found
    ([False] in [utils/database.py], [None] in
    [database-implementation.py]) and changes nothing: no file is written,
    no attempt is made. *)
Theorem update_unknown_id_changes_nothing (id new_status : value)
    (partial : dict) (properties bookings : list dict) (w : world) :
  files w !! "data/properties.json" = Some (Json properties) ->
  files w !! "data/bookings.json" = Some (Json bookings) ->
  forallb (id_differs id) properties = true ->
  forallb (id_differs id) bookings = true ->
  Database.update_property id partial w = (Ok false, w)
  /\ DatabaseImpl.update_property isoformat id partial w = (Ok None, w)
  /\ Database.update_booking_status id new_status w = (Ok false, w)
  /\ DatabaseImpl.update_booking id partial w = (Ok None, w).
Proof.
  intros Hprops Hbooks Hp Hb.
  destruct (load_with_fallback "data/properties.json" w) as [Hloadp _].
  destruct (load_with_fallback "data/bookings.json" w) as [Hloadb _].
  specialize (Hloadp _ Hprops). specialize (Hloadb _ Hbooks).
  repeat split.
  - unfold Database.update_property.
    rewrite (bind_Ok _ _ _ _ _ Hloadp). now apply update_property_loop_none.
  - unfold DatabaseImpl.update_property, DatabaseImpl.load_data.
    rewrite (bind_Ok _ _ _ _ _ Hloadp). now apply impl_update_property_loop_none.
  - unfold Database.update_booking_status.
    rewrite (bind_Ok _ _ _ _ _ Hloadb). now apply update_booking_status_loop_none.
  - unfold DatabaseImpl.update_booking, DatabaseImpl.load_data.
    rewrite (bind_Ok _ _ _ _ _ Hloadb). now apply impl_update_booking_loop_none.
Qed.

Lemma save_data_gives_up (data : list dict) (path : string) (w : world) :
  all_attempts_fail 5 (faults w) = true ->
  exists w', Database.save_data data path w = (Ok (Some false), w')
    /\ files w' !! path = files w !! path.
Proof.
  intros Hall.
  destruct (save_data_loop_spec data path 5 0 w eq_refl)
    as (r & w' & evs & Hrun & _ & _ & Hcase).
  rewrite Hall in Hcase. destruct Hcase as (-> & _ & Hfile).
  now exists w'.
Qed.

(** [update_property] does not look at the flag of [save_data]: when
    every attempt to save fails it still reports success ([True], or the
    updated record), while the file keeps the old record. *)
Theorem update_property_reports_success_unsaved (property_id : value)
    (partial : dict) (before after : list dict) (prop : dict) (w : world) :
  files w !! "data/properties.json" = Some (Json (before ++ prop :: after)) ->
  all_attempts_fail 5 (faults w) = true ->
  forallb (id_differs property_id) before = true ->
  id_matches property_id prop = true ->
  dict_has "owner_id" prop = true ->
  dict_has "created_at" prop = true ->
  (exists w',
     Database.update_property property_id partial w = (Ok true, w')
     /\ files w' !! "data/properties.json"
        = Some (Json (before ++ prop :: after)))
  /\ (exists w' updated,
     DatabaseImpl.update_property isoformat property_id partial w
     = (Ok (Some updated), w')
     /\ files w' !! "data/properties.json"
        = Some (Json (before ++ prop :: after))).
Proof.
  intros Hfile Hall Hbefore Hprop Howner Hcreated.
  destruct (load_with_fallback "data/properties.json" w) as [Hload _].
  specialize (Hload _ Hfile).
  split.
  - destruct (id_matches_inv _ _ Hprop) as (id & Hid & Heq).
    unfold dict_has in Howner, Hcreated.
    destruct (dict_get "owner_id" prop) as [owner_id|] eqn:Ho; [|discriminate].
    destruct (dict_get "created_at" prop) as [created_at|] eqn:Hc; [|discriminate].
    unfold Database.update_property.
    rewrite (bind_Ok _ _ _ _ _ Hload).
    rewrite (update_property_loop_found property_id partial _ after prop
               id owner_id created_at before 0 w Hbefore Hid Heq Ho Hc).
    match goal with
    | |- context [Database.save_data ?d ?p] =>
        destruct (save_data_gives_up d p w Hall) as (w' & Hrun & Hsame)
    end.
    rewrite (bind_Ok _ _ _ _ _ Hrun).
    exists w'. split; [reflexivity|]. now rewrite <- Hfile.
  - unfold DatabaseImpl.update_property, DatabaseImpl.load_data.
    rewrite (bind_Ok _ _ _ _ _ Hload).
    rewrite (impl_update_property_loop_found isoformat property_id partial _
               after prop before 0 w Hbefore Hprop).
    cbv zeta. unfold DatabaseImpl.save_data.
    match goal with
    | |- context [Database.save_data ?d ?p] =>
        destruct (save_data_gives_up d p w Hall) as (w' & Hrun & Hsame)
    end.
    rewrite (bind_Ok _ _ _ _ _ Hrun).
    eexists w', _. split; [reflexivity|]. now rewrite <- Hfile.
Qed.

End ImplEdges.

Lemma impl_get_properties_ignores_lone_bound_witness :
  DatabaseImpl.get_properties toy_lower toy_float
    (Some [("price_min", VInt 6000); ("capacity", VInt 2)])
    (properties_world [cottage; barn])
  = (Ok [cottage; barn], properties_world [cottage; barn]).
Proof.
  apply (impl_get_properties_ignores_lone_bound toy_lower toy_float
           [("price_min", VInt 6000); ("capacity", VInt 2)] [cottage; barn]
           (properties_world [cottage; barn]));
    [reflexivity|discriminate|reflexivity|reflexivity].
Defined.

Lemma update_unknown_id_changes_nothing_witness :
  Database.update_property (VStr "nowhere") [("title", VStr "New")]
    (world_of [("data/properties.json", Json [cottage]);
               ("data/bookings.json", Json [stay])] [] 0)
  = (Ok false,
     world_of [("data/properties.json", Json [cottage]);
               ("data/bookings.json", Json [stay])] [] 0)
  /\ Database.update_booking_status (VStr "nowhere") (VStr "confirmed")
       (world_of [("data/properties.json", Json [cottage]);
                  ("data/bookings.json", Json [stay])] [] 0)
     = (Ok false,
        world_of [("data/properties.json", Json [cottage]);
                  ("data/bookings.json", Json [stay])] [] 0).
Proof.
  destruct (update_unknown_id_changes_nothing toy_format (VStr "nowhere")
              (VStr "confirmed") [("title", VStr "New")] [cottage] [stay]
              (world_of [("data/properties.json", Json [cottage]);
                         ("data/bookings.json", Json [stay])] [] 0)
              eq_refl eq_refl eq_refl eq_refl) as (H1 & _ & H3 & _).
  split; [exact H1|exact H3].
Defined.

Lemma update_property_reports_success_unsaved_witness :
  exists w',
    Database.update_property (VStr "p1") [("title", VStr "New")]
      (world_of [("data/properties.json", Json [cottage])]
         [FailBefore; FailBefore; FailBefore; FailBefore; FailBefore] 0)
    = (Ok true, w')
    /\ files w' !! "data/properties.json" = Some (Json ([] ++ cottage :: [])).
Proof.
  apply (update_property_reports_success_unsaved toy_format (VStr "p1")
           [("title", VStr "New")] [] [] cottage
           (world_of [("data/properties.json", Json [cottage])]
              [FailBefore; FailBefore; FailBefore; FailBefore; FailBefore] 0));
    reflexivity.
Defined.

(** ** Bookings and reviews of [utils/database.py] *)

Lemma dict_get_setdefault (k k' : string) (v : value) (d : dict) :
  dict_get k' (dict_setdefault k v d)
  = match dict_get k' d with
    | Some x => Some x
    | None => if String.eqb k k' then Some v else None
    end.
Proof.
  unfold dict_setdefault, dict_has.
  destruct (String.eqb_spec k k') as [<-|Hne].
  - destruct (dict_get k d) eqn:Hk; [now rewrite Hk|].
    now rewrite dict_get_set_eq.
  - destruct (dict_get k d).
    + now destruct (dict_get k' d).
    + rewrite dict_get_set_ne by exact Hne. now destruct (dict_get k' d).
Qed.

Lemma record_matches_spec (record : dict) :
  forall (items : dict) (matches : bool),
  Database.record_matches record items matches
  = matches && forallb (agrees_with record) items.
Proof.
  induction items as [|[key value] items IH]; intros matches; simpl.
  - now rewrite andb_true_r.
  - rewrite IH. unfold agrees_with. simpl.
    destruct (dict_get key record) as [stored|]; [|reflexivity].
    destruct (py_eq stored value), matches; reflexivity.
Qed.

(** [get_bookings] and [get_reviews] return, in stored order, exactly the
    records that contradict no filter: for every filter key the record
    either lacks the key or has the wanted value.  Once a filter has
    failed no later one can let the record back in. *)
Theorem get_bookings_keeps_agreeing_records (filters : dict)
    (bookings reviews : list dict) (w : world) :
  files w !! "data/bookings.json" = Some (Json bookings) ->
  files w !! "data/reviews.json" = Some (Json reviews) ->
  filters <> [] ->
  Database.get_bookings (Some filters) w
  = (Ok (List.filter (fun b => forallb (agrees_with b) filters) bookings), w)
  /\ Database.get_reviews (Some filters) w
     = (Ok (List.filter (fun r => forallb (agrees_with r) filters) reviews), w).
Proof.
  intros Hb Hr Hne.
  destruct (load_with_fallback "data/bookings.json" w) as [Hloadb _].
  destruct (load_with_fallback "data/reviews.json" w) as [Hloadr _].
  unfold Database.get_bookings, Database.get_reviews.
  rewrite (bind_Ok _ _ _ _ _ (Hloadb _ Hb)), (bind_Ok _ _ _ _ _ (Hloadr _ Hr)).
  destruct filters as [|kv filters]; [congruence|].
  split; cbn [truthy negb default]; unfold mret, M_ret; do 2 f_equal;
    apply filter_ext; intros a; apply record_matches_spec.
Qed.

Lemma get_bookings_keeps_agreeing_records_witness :
  Database.get_bookings (Some [("status", VStr "pending"); ("guest_id", VStr "u2")])
    (world_of [("data/bookings.json", Json [stay]);
               ("data/reviews.json", Json [rave])] [] 0)
  = (Ok (List.filter
           (fun b => forallb (agrees_with b)
                       [("status", VStr "pending"); ("guest_id", VStr "u2")])
           [stay]),
     world_of [("data/bookings.json", Json [stay]);
               ("data/reviews.json", Json [rave])] [] 0).
Proof.
  apply (get_bookings_keeps_agreeing_records
           [("status", VStr "pending"); ("guest_id", VStr "u2")] [stay] [rave]
           (world_of [("data/bookings.json", Json [stay]);
                      ("data/reviews.json", Json [rave])] [] 0));
    [reflexivity|reflexivity|discriminate].
Defined.

Section Bookings.

Variable strftime : Z -> string.

(** [create_booking]: a booking that lacks a required field is refused
    with [False] and nothing is written; a complete one is appended (when
    the save goes through) exactly as given, with [created_at] and
    [payment_status] filled in only where the caller left them out. *)
Theorem create_booking_fills_defaults (booking_data : dict)
    (bookings : list dict) (w : world) :
  files w !! "data/bookings.json" = Some (Json bookings) ->
  (forallb (fun field => dict_has field booking_data)
     ["id"; "property_id"; "guest_id"; "owner_id"; "check_in"; "check_out";
      "status"] = false ->
   Database.create_booking strftime booking_data w = (Ok false, w))
  /\ (forallb (fun field => dict_has field booking_data)
        ["id"; "property_id"; "guest_id"; "owner_id"; "check_in"; "check_out";
         "status"] = true ->
      all_attempts_fail 5 (faults w) = false ->
      exists w' stored,
        Database.create_booking strftime booking_data w = (Ok true, w')
        /\ files w' !! "data/bookings.json" = Some (Json (bookings ++ [stored]))
        /\ forall key,
             dict_get key stored
             = match dict_get key booking_data with
               | Some given => Some given
               | None =>
                   if String.eqb key "created_at"
                   then Some (VStr (strftime (clock w)))
                   else if String.eqb key "payment_status"
                   then Some (VStr "pending")
                   else None
               end).
Proof.
  intros Hfile.
  destruct (load_with_fallback "data/bookings.json" w) as [Hload _].
  specialize (Hload _ Hfile).
  split.
  - intros Hmissing. unfold Database.create_booking.
    rewrite (bind_Ok _ _ _ _ _ Hload). now rewrite Hmissing.
  - intros Hrequired Hsave. unfold Database.create_booking.
    rewrite (bind_Ok _ _ _ _ _ Hload). rewrite Hrequired.
    cbn [negb]. unfold datetime_now at 1. unfold mbind at 1, M_bind at 1.
    match goal with
    | |- context [Database.save_data ?d ?p] =>
        destruct (save_data_succeeds d p w Hsave) as (w' & Hrun & Hfile' & _)
    end.
    rewrite (bind_Ok _ _ _ _ _ Hrun).
    eexists w', _. split; [reflexivity|]. split; [exact Hfile'|].
    intros key. rewrite !dict_get_setdefault.
    rewrite !(String.eqb_sym _ key).
    destruct (dict_get key booking_data); [reflexivity|].
    destruct (String.eqb key "created_at"); [reflexivity|].
    now destruct (String.eqb key "payment_status").
Qed.

(** [create_review]: a review that lacks a required field is refused with
    [False] and nothing is written; a complete one is appended exactly as
    given, with [created_at] and [verified] filled in only where the
    caller left them out. *)
Theorem create_review_fills_defaults (review_data : dict)
    (reviews : list dict) (w : world) :
  files w !! "data/reviews.json" = Some (Json reviews) ->
  (forallb (fun field => dict_has field review_data)
     ["id"; "property_id"; "user_id"; "rating"; "comment"] = false ->
   Database.create_review strftime review_data w = (Ok false, w))
  /\ (forallb (fun field => dict_has field review_data)
        ["id"; "property_id"; "user_id"; "rating"; "comment"] = true ->
      all_attempts_fail 5 (faults w) = false ->
      exists w' stored,
        Database.create_review strftime review_data w = (Ok true, w')
        /\ files w' !! "data/reviews.json" = Some (Json (reviews ++ [stored]))
        /\ forall key,
             dict_get key stored
             = match dict_get key review_data with
               | Some given => Some given
               | None =>
                   if String.eqb key "created_at"
                   then Some (VStr (strftime (clock w)))
                   else if String.eqb key "verified"
                   then Some (VBool false)
                   else None
               end).
Proof.
  intros Hfile.
  destruct (load_with_fallback "data/reviews.json" w) as [Hload _].
  specialize (Hload _ Hfile).
  split.
  - intros Hmissing. unfold Database.create_review.
    rewrite (bind_Ok _ _ _ _ _ Hload). now rewrite Hmissing.
  - intros Hrequired Hsave. unfold Database.create_review.
    rewrite (bind_Ok _ _ _ _ _ Hload). rewrite Hrequired.
    cbn [negb]. unfold datetime_now at 1. unfold mbind at 1, M_bind at 1.
    match goal with
    | |- context [Database.save_data ?d ?p] =>
        destruct (save_data_succeeds d p w Hsave) as (w' & Hrun & Hfile' & _)
    end.
    rewrite (bind_Ok _ _ _ _ _ Hrun).
    eexists w', _. split; [reflexivity|]. split; [exact Hfile'|].
    intros key. rewrite !dict_get_setdefault.
    rewrite !(String.eqb_sym _ key).
    destruct (dict_get key review_data); [reflexivity|].
    destruct (String.eqb key "created_at"); [reflexivity|].
    now destruct (String.eqb key "verified").
Qed.

End Bookings.

Lemma create_booking_fills_defaults_witness :
  Database.create_booking toy_format barn
    (world_of [("data/bookings.json", Json [])] [] 0)
  = (Ok false, world_of [("data/bookings.json", Json [])] [] 0)
  /\ exists w' stored,
       Database.create_booking toy_format stay
         (world_of [("data/bookings.json", Json [])] [] 0) = (Ok true, w')
       /\ files w' !! "data/bookings.json" = Some (Json ([] ++ [stored]))
       /\ dict_get "status" stored = Some (VStr "pending")
       /\ dict_get "payment_status" stored = Some (VStr "pending").
Proof.
  destruct (create_booking_fills_defaults toy_format barn []
              (world_of [("data/bookings.json", Json [])] [] 0) eq_refl)
    as [Hrefused _].
  destruct (create_booking_fills_defaults toy_format stay []
              (world_of [("data/bookings.json", Json [])] [] 0) eq_refl)
    as [_ Hstored].
  split; [apply Hrefused; reflexivity|].
  destruct (Hstored eq_refl eq_refl) as (w' & stored & Hrun & Hfile & Hkeys).
  exists w', stored. split; [exact Hrun|]. split; [exact Hfile|].
  split; [exact (Hkeys "status")|exact (Hkeys "payment_status")].
Defined.

Lemma create_review_fills_defaults_witness :
  Database.create_review toy_format stay
    (world_of [("data/reviews.json", Json [])] [] 0)
  = (Ok false, world_of [("data/reviews.json", Json [])] [] 0)
  /\ exists w' stored,
       Database.create_review toy_format rave
         (world_of [("data/reviews.json", Json [])] [] 0) = (Ok true, w')
       /\ files w' !! "data/reviews.json" = Some (Json ([] ++ [stored]))
       /\ dict_get "created_at" stored = Some (VStr (toy_format 0)).
Proof.
  destruct (create_review_fills_defaults toy_format stay []
              (world_of [("data/reviews.json", Json [])] [] 0) eq_refl)
    as [Hrefused _].
  destruct (create_review_fills_defaults toy_format rave []
              (world_of [("data/reviews.json", Json [])] [] 0) eq_refl)
    as [_ Hstored].
  split; [apply Hrefused; reflexivity|].
  destruct (Hstored eq_refl eq_refl) as (w' & stored & Hrun & Hfile & Hkeys).
  exists w', stored. split; [exact Hrun|]. split; [exact Hfile|].
  exact (Hkeys "created_at").
Defined.

Lemma update_booking_status_loop_found (booking_id new_status : value)
    (all after : list dict) (booking : dict) :
  forall (before : list dict) (i : nat) (w : world),
  forallb (id_differs booking_id) before = true ->
  id_matches booking_id booking = true ->
  Database.update_booking_status_loop all i (before ++ booking :: after)
    booking_id new_status w
  = (Database.save_data
       (<[i + length before := dict_set "status" new_status booking]> all)
       Database.BOOKINGS_FILE ;; mret true) w.
Proof.
  induction before as [|p before IH]; intros i w Hbefore Hbooking.
  - destruct (id_matches_inv _ _ Hbooking) as (v & Hv & Heq).
    simpl app. simpl Database.update_booking_status_loop.
    unfold getitem. rewrite Hv, lift_bind, Heq. now rewrite Nat.add_0_r.
  - simpl in Hbefore. apply andb_true_iff in Hbefore as [Hp Hbefore].
    destruct (id_differs_inv _ _ Hp) as (v & Hv & Hne).
    simpl app. simpl Database.update_booking_status_loop.
    unfold getitem. rewrite Hv, lift_bind, Hne. fold (getitem p).
    rewrite (IH (S i) w Hbefore Hbooking).
    simpl length. now rewrite Nat.add_succ_r.
Qed.

(** [update_booking_status] changes the [status] of the first booking
    with the id and nothing else: the other fields of that booking and
    all other bookings are stored as they were.  A later
    [get_bookings({status: new_status})] returns that booking. *)
Theorem update_booking_status_then_listed (booking_id : value)
    (new_status : string) (before after : list dict) (booking : dict)
    (w : world) :
  files w !! "data/bookings.json" = Some (Json (before ++ booking :: after)) ->
  all_attempts_fail 5 (faults w) = false ->
  forallb (id_differs booking_id) before = true ->
  id_matches booking_id booking = true ->
  exists w' updated found,
    Database.update_booking_status booking_id (VStr new_status) w = (Ok true, w')
    /\ files w' !! "data/bookings.json"
       = Some (Json (before ++ updated :: after))
    /\ dict_get "status" updated = Some (VStr new_status)
    /\ (forall key, key <> "status" -> dict_get key updated = dict_get key booking)
    /\ Database.get_bookings (Some [("status", VStr new_status)]) w'
       = (Ok found, w')
    /\ In updated found.
Proof.
  intros Hfile Hsave Hbefore Hbooking.
  destruct (load_with_fallback "data/bookings.json" w) as [Hload _].
  specialize (Hload _ Hfile).
  set (updated := dict_set "status" (VStr new_status) booking).
  destruct (save_data_succeeds (before ++ updated :: after)
              Database.BOOKINGS_FILE w Hsave) as (w' & Hrun & Hfile' & _).
  destruct (load_with_fallback "data/bookings.json" w') as [Hload' _].
  specialize (Hload' _ Hfile').
  exists w', updated,
    (List.filter (fun b => Database.record_matches b [("status", VStr new_status)] true)
       (before ++ updated :: after)).
  split.
  { unfold Database.update_booking_status.
    rewrite (bind_Ok _ _ _ _ _ Hload).
    rewrite (update_booking_status_loop_found booking_id (VStr new_status) _
               after booking before 0 w Hbefore Hbooking).
    rewrite insert_at_length. fold updated.
    now rewrite (bind_Ok _ _ _ _ _ Hrun). }
  split; [exact Hfile'|].
  split; [apply dict_get_set_eq|].
  split; [intros key Hkey; apply dict_get_set_ne; congruence|].
  split.
  { unfold Database.get_bookings. now rewrite (bind_Ok _ _ _ _ _ Hload'). }
  apply filter_In. split; [apply in_elt|].
  simpl. subst updated. rewrite dict_get_set_eq. simpl.
  now rewrite String.eqb_refl.
Qed.

Lemma update_booking_status_then_listed_witness :
  exists w' updated found,
    Database.update_booking_status (VStr "b1") (VStr "confirmed")
      (world_of [("data/bookings.json", Json [stay])] [] 0) = (Ok true, w')
    /\ files w' !! "data/bookings.json" = Some (Json ([] ++ updated :: []))
    /\ dict_get "status" updated = Some (VStr "confirmed")
    /\ (forall key, key <> "status" -> dict_get key updated = dict_get key stay)
    /\ Database.get_bookings (Some [("status", VStr "confirmed")]) w'
       = (Ok found, w')
    /\ In updated found.
Proof.
  apply (update_booking_status_then_listed (VStr "b1") "confirmed" [] [] stay
           (world_of [("data/bookings.json", Json [stay])] [] 0));
    reflexivity.
Defined.

(** ** The auth service *)

Lemma any_email_spec (email : string) :
  forall users : list dict,
  forallb (dict_has "email") users = true ->
  Auth.any_email users email = Ok (existsb (has_email email) users).
Proof.
  induction users as [|user users IH]; [reflexivity|].
  simpl. intros [Huser Husers]%andb_true_iff.
  unfold dict_has in Huser. unfold getitem, has_email.
  destruct (dict_get "email" user) as [e|]; [|discriminate]. simpl.
  destruct (py_eq e (VStr email)); [reflexivity|]. now apply IH.
Qed.



Section AuthFlows.

Variable sha256_hex : string -> string.
Variable SECRET_KEY : string.
Variable isoformat : Z -> string.
Variable token : Type.
Variable jwt_encode : dict -> string -> token.
Variable jwt_decode : token -> string -> M dict.
Variable fromtimestamp : Z -> Z.
Variable timestamp : Z -> Z.

Lemma register_user_refused (email password full_name user_type : string)
    (users : list dict) (w : world) :
  files w !! "data/users.json" = Some (Json users) ->
  forallb (dict_has "email") users = true ->
  existsb (has_email email) users = true ->
  Auth.register_user sha256_hex isoformat email password full_name user_type w
  = (Ok (false, "Email already registered"), w).
Proof.
  intros Hfile Hemails Htaken.
  destruct (load_with_fallback "data/users.json" w) as [Hload _].
  unfold Auth.register_user, Auth.load_users.
  rewrite (bind_Ok _ _ _ _ _ (Hload _ Hfile)).
  rewrite (any_email_spec email users Hemails), lift_bind, Htaken.
  reflexivity.
Qed.

(** Registering an email that a stored user already has is refused with
    the message ["Email already registered"], and nothing is written:
    the world is left exactly as it was. *)
Theorem register_user_duplicate_email (email password full_name user_type : string)
    (users : list dict) (w : world) :
  files w !! "data/users.json" = Some (Json users) ->
  forallb (dict_has "email") users = true ->
  (exists user, In user users /\ dict_get "email" user = Some (VStr email)) ->
  Auth.register_user sha256_hex isoformat email password full_name user_type w
  = (Ok (false, "Email already registered"), w).
Proof.
  intros Hfile Hemails (user & Hin & Hemail).
  apply (register_user_refused _ _ _ _ users); try assumption.
  apply existsb_exists. exists user. split; [exact Hin|].
  unfold has_email. rewrite Hemail. simpl. apply String.eqb_refl.
Qed.


(** Round trip of the session token: before its expiry, which is the
    instant at which the local wall clock reads 24 hours more than at the
    login, and PyJWT giving back the payload of a valid token,
    [verify_token] accepts the token that [verify_user] issued and returns
    the id of the user who logged in. *)
Theorem issued_token_verifies (email password : string) (users : list dict)
    (tok : token) (user : dict) (w w2 : world) :
  accepts_unexpired jwt_encode jwt_decode ->
  files w !! "data/users.json" = Some (Json users) ->
  forallb user_fields_ok users = true ->
  Auth.verify_user sha256_hex SECRET_KEY token jwt_encode fromtimestamp
    timestamp email password w
  = (Ok (true, Some tok, Some user), w) ->
  (clock w2 < token_expiry fromtimestamp timestamp (clock w))%Z ->
  exists id,
    dict_get "id" user = Some id
    /\ Auth.verify_token SECRET_KEY token jwt_decode tok w2
       = (Ok (true, id,
              VDict (issued_payload user
                       (token_expiry fromtimestamp timestamp (clock w)))), w2).
Proof.
  intros Hjwt Hfile Hfields Hrun Hfresh.
  unfold Auth.verify_user, Auth.load_users in Hrun.
  destruct (load_with_fallback "data/users.json" w) as [Hload _].
  rewrite (bind_Ok _ _ _ _ _ (Hload _ Hfile)) in Hrun.
  rewrite (verify_user_loop_spec SECRET_KEY token jwt_encode fromtimestamp
             timestamp email _ w _ Hfields) in Hrun.
  destruct (List.find _ users) as [found|] eqn:Hfind; [|discriminate].
  injection Hrun as <- <-.
  apply find_some in Hfind as [Hin _].
  rewrite forallb_forall in Hfields. specialize (Hfields _ Hin).
  unfold user_fields_ok, dict_has in Hfields.
  destruct (dict_get "id" found) as [id|] eqn:Hid; [|discriminate].
  exists id. split; [reflexivity|].
  unfold Auth.verify_token, try_except.
  assert (Hexp : dict_get "exp"
                   (issued_payload found
                      (token_expiry fromtimestamp timestamp (clock w)))
                 = Some (VInt (token_expiry fromtimestamp timestamp (clock w))))
    by reflexivity.
  rewrite (bind_Ok _ _ _ _ _ (Hjwt _ SECRET_KEY _ w2 Hexp Hfresh)).
  unfold issued_payload, getitem. cbn [dict_get String.eqb Ascii.eqb Bool.eqb].
  rewrite Hid. reflexivity.
Qed.

End AuthFlows.

Lemma toy_jwt_accepts_unexpired : accepts_unexpired toy_encode toy_decode.
Proof.
  intros payload key exp w Hexp Hahead.
  assert (Hle : (exp <=? clock w)%Z = false) by (apply Z.leb_gt; lia).
  unfold toy_decode, toy_encode.
  rewrite String.eqb_refl, Hexp.
  unfold mbind, M_bind, datetime_now, raise. cbn [negb]. cbv beta iota.
  now rewrite Hle.
Defined.

Lemma register_user_duplicate_email_witness :
  Auth.register_user toy_hash toy_format "alice@example.com" "other" "Alice B."
    "renter" (world_of [("data/users.json", Json [alice])] [] 0)
  = (Ok (false, "Email already registered"),
     world_of [("data/users.json", Json [alice])] [] 0).
Proof.
  apply (register_user_duplicate_email toy_hash toy_format "alice@example.com"
           "other" "Alice B." "renter" [alice]
           (world_of [("data/users.json", Json [alice])] [] 0));
    [reflexivity|reflexivity|].
  exists alice. split; [now left|reflexivity].
Defined.


Lemma issued_token_verifies_witness :
  exists id,
    dict_get "id" alice = Some id
    /\ Auth.verify_token "secret" toy_token toy_decode
         (toy_encode (issued_payload alice 86400) "secret") (world_of [] [] 3600)
       = (Ok (true, id, VDict (issued_payload alice 86400)), world_of [] [] 3600).
Proof.
  apply (issued_token_verifies toy_hash "secret" toy_token toy_encode toy_decode
           toy_fromtimestamp toy_timestamp "alice@example.com" "pw123" [alice]
           (toy_encode (issued_payload alice 86400) "secret") alice
           (world_of [("data/users.json", Json [alice])] [] 0)
           (world_of [] [] 3600) toy_jwt_accepts_unexpired);
    reflexivity.
Defined.

(** ** Updates of a stored user *)

Lemma change_then_find (id : value) (change : dict -> dict)
    (before after : list dict) (r : dict) :
  forallb (id_differs id) before = true ->
  id_matches id r = true ->
  dict_get "id" (change r) = dict_get "id" r ->
  find_by_id (before ++ change r :: after) id = Ok (Some (change r)).
Proof.
  intros Hbefore Hr Hid. apply find_by_id_found; [exact Hbefore|].
  unfold id_matches in *. now rewrite Hid.
Qed.

Lemma update_user_found (user_id : value) (change : dict -> dict)
    (before after : list dict) (user : dict) (w : world) :
  files w !! "data/users.json" = Some (Json (before ++ user :: after)) ->
  fst (next_fault w) = NoFault ->
  forallb (id_differs user_id) before = true ->
  id_matches user_id user = true ->
  dict_get "id" (change user) = dict_get "id" user ->
  exists w',
    (users ← Auth.load_users;
     '(users', _) ← lift (change_first users user_id change);
     Auth.save_users users' ;; mret true) w = (Ok true, w')
    /\ (users ← Auth.load_users;
        '(users', found) ← lift (change_first users user_id change);
        if found : bool then Auth.save_users users' ;; mret true
        else mret false) w = (Ok true, w')
    /\ files w' !! "data/users.json"
       = Some (Json (before ++ change user :: after))
    /\ Auth.get_user_data user_id w' = (Ok (Some (change user)), w').
Proof.
  intros Hfile Hfault Hbefore Huser Hid.
  destruct (load_with_fallback "data/users.json" w) as [Hload _].
  destruct (write_json_no_fault "data/users.json"
              (before ++ change user :: after) w Hfault)
    as (w' & Hwrite & Hfiles & _).
  assert (Hfile' : files w' !! "data/users.json"
                   = Some (Json (before ++ change user :: after))).
  { rewrite Hfiles. apply lookup_insert_eq. }
  exists w'. unfold Auth.load_users, Auth.save_users.
  rewrite !(bind_Ok _ _ _ _ _ (Hload _ Hfile)).
  rewrite (change_first_found _ _ _ _ _ Hbefore Huser), !lift_bind.
  rewrite (bind_Ok _ _ _ _ _ Hwrite).
  split; [reflexivity|]. split; [reflexivity|].
  split; [exact Hfile'|].
  destruct (load_with_fallback "data/users.json" w') as [Hload' _].
  unfold Auth.get_user_data, Auth.load_users.
  rewrite (bind_Ok _ _ _ _ _ (Hload' _ Hfile')).
  now rewrite (change_then_find user_id change before after user).
Qed.

(** The role, wallet, KYC and profile updates change the first stored user
    with the id and no other user, and [get_user_data] then reads the
    changed record back.  For the profile update this needs the profile
    data not to carry an [id] of its own. *)
Theorem user_update_then_get_user_data (user_id new_role wallet_address
    verified : value) (profile_data : dict) (before after : list dict)
    (user : dict) (w : world) :
  files w !! "data/users.json" = Some (Json (before ++ user :: after)) ->
  fst (next_fault w) = NoFault ->
  forallb (id_differs user_id) before = true ->
  id_matches user_id user = true ->
  (exists w',
     Auth.update_user_role user_id new_role w = (Ok true, w')
     /\ files w' !! "data/users.json"
        = Some (Json (before ++ dict_set "user_type" new_role user :: after))
     /\ Auth.get_user_data user_id w'
        = (Ok (Some (dict_set "user_type" new_role user)), w'))
  /\ (exists w',
     Auth.update_user_wallet user_id wallet_address w = (Ok true, w')
     /\ files w' !! "data/users.json"
        = Some (Json (before ++ dict_set "wallet_address" wallet_address user
                      :: after))
     /\ Auth.get_user_data user_id w'
        = (Ok (Some (dict_set "wallet_address" wallet_address user)), w'))
  /\ (exists w',
     Auth.update_kyc_status user_id verified w = (Ok true, w')
     /\ files w' !! "data/users.json"
        = Some (Json (before ++ dict_set "kyc_verified" verified user :: after))
     /\ Auth.get_user_data user_id w'
        = (Ok (Some (dict_set "kyc_verified" verified user)), w'))
  /\ (dict_has "id" profile_data = false ->
      exists w',
        Auth.update_user_profile user_id profile_data w = (Ok true, w')
        /\ files w' !! "data/users.json"
           = Some (Json (before ++ dict_update user profile_data :: after))
        /\ Auth.get_user_data user_id w'
           = (Ok (Some (dict_update user profile_data)), w')).
Proof.
  intros Hfile Hfault Hbefore Huser.
  split; [|split; [|split]].
  - destruct (update_user_found user_id (dict_set "user_type" new_role)
                before after user w Hfile Hfault Hbefore Huser
                ltac:(now apply dict_get_set_ne)) as (w' & Hrun & _ & Hrest).
    now exists w'.
  - destruct (update_user_found user_id (dict_set "wallet_address" wallet_address)
                before after user w Hfile Hfault Hbefore Huser
                ltac:(now apply dict_get_set_ne)) as (w' & Hrun & _ & Hrest).
    now exists w'.
  - destruct (update_user_found user_id (dict_set "kyc_verified" verified)
                before after user w Hfile Hfault Hbefore Huser
                ltac:(now apply dict_get_set_ne)) as (w' & _ & Hrun & Hrest).
    now exists w'.
  - intros Hnoid.
    destruct (update_user_found user_id (fun u => dict_update u profile_data)
                before after user w Hfile Hfault Hbefore Huser
                ltac:(now apply dict_get_update_other)) as (w' & Hrun & _ & Hrest).
    now exists w'.
Qed.

Lemma user_update_then_get_user_data_witness :
  exists w',
    Auth.update_user_wallet (VStr "u1") (VStr "0xabc")
      (world_of [("data/users.json", Json [alice])] [] 0) = (Ok true, w')
    /\ files w' !! "data/users.json"
       = Some (Json ([] ++ dict_set "wallet_address" (VStr "0xabc") alice :: []))
    /\ Auth.get_user_data (VStr "u1") w'
       = (Ok (Some (dict_set "wallet_address" (VStr "0xabc") alice)), w').
Proof.
  destruct (user_update_then_get_user_data (VStr "u1") (VStr "owner")
              (VStr "0xabc") (VBool true) [("full_name", VStr "A.")] [] [] alice
              (world_of [("data/users.json", Json [alice])] [] 0)
              eq_refl eq_refl eq_refl eq_refl) as (_ & Hwallet & _).
  exact Hwallet.
Defined.

(** A users write that fails half-way costs the whole collection: the
    update raises, the file is left unparsable, and the next [load_users]
    replaces it by an empty collection without a word. *)
Theorem interrupted_users_write_empties_collection (user_id new_role : value)
    (users : list dict) (rest : list fault) (w : world) :
  files w !! "data/users.json" = Some (Json users) ->
  faults w = FailDuring :: rest ->
  hd NoFault rest = NoFault ->
  forallb (dict_has "id") users = true ->
  exists w1 w2,
    Auth.update_user_role user_id new_role w = (Raise OSError, w1)
    /\ files w1 !! "data/users.json" = Some Corrupt
    /\ Auth.load_users w1 = (Ok [], w2)
    /\ files w2 !! "data/users.json" = Some (Json []).
Proof.
  intros Hfile Hfaults Hnext Hids.
  destruct (load_with_fallback "data/users.json" w) as [Hload _].
  destruct (change_first_total user_id (dict_set "user_type" new_role) users Hids)
    as (users' & found & Hchange).
  destruct w as [fs flt c us un tr]. simpl in Hfile, Hfaults. subst flt.
  set (w1 := World (<["data/users.json" := Corrupt]> fs) rest c us un
               (tr ++ [EvWrite "data/users.json" FailDuring])).
  assert (Hcorrupt : files w1 !! "data/users.json" = Some Corrupt)
    by apply lookup_insert_eq.
  assert (Hfault1 : fst (next_fault w1) = NoFault).
  { unfold next_fault, w1. simpl. destruct rest; [reflexivity|exact Hnext]. }
  destruct (load_with_fallback "data/users.json" w1) as [_ Hreload].
  destruct (Hreload (or_intror Hcorrupt) Hfault1) as (w2 & Hrun2 & Hfiles2 & _).
  exists w1, w2. split.
  { unfold Auth.update_user_role, Auth.load_users, Auth.save_users.
    rewrite (bind_Ok _ _ _ _ _ (Hload _ Hfile)).
    rewrite Hchange, lift_bind. reflexivity. }
  split; [exact Hcorrupt|]. split; [exact Hrun2|].
  rewrite Hfiles2. apply lookup_insert_eq.
Qed.

Lemma interrupted_users_write_empties_collection_witness :
  exists w1 w2,
    Auth.update_user_role (VStr "u1") (VStr "renter")
      (world_of [("data/users.json", Json [alice])] [FailDuring] 0)
    = (Raise OSError, w1)
    /\ files w1 !! "data/users.json" = Some Corrupt
    /\ Auth.load_users w1 = (Ok [], w2)
    /\ files w2 !! "data/users.json" = Some (Json []).
Proof.
  apply (interrupted_users_write_empties_collection (VStr "u1") (VStr "renter")
           [alice] [] (world_of [("data/users.json", Json [alice])] [FailDuring] 0));
    reflexivity.
Defined.

Lemma upload_kyc_document_loop_found (user_id : value) (document : dict)
    (user : dict) (after : list dict) :
  forall before : list dict,
  forallb (id_differs user_id) before = true ->
  id_matches user_id user = true ->
  Auth.upload_kyc_document_loop (before ++ user :: after) user_id document
  = match documents_of user with
    | Some documents =>
        Ok (before
            ++ dict_set "kyc_documents" (VList (documents ++ [VDict document])) user
            :: after, true)
    | None => Raise AttributeError
    end.
Proof.
  induction before as [|p before IH]; intros Hbefore Huser.
  - destruct (id_matches_inv _ _ Huser) as (v & Hv & Heq).
    cbn [app Auth.upload_kyc_document_loop].
    unfold getitem. rewrite Hv.
    cbv beta iota delta [mbind result_bind]. rewrite Heq.
    unfold documents_of, dict_has.
    destruct (dict_get "kyc_documents" user) as [docs|] eqn:Hdocs; cbn [negb].
    + rewrite Hdocs. now destruct docs.
    + rewrite dict_get_set_eq. cbn [app]. now rewrite dict_set_set.
  - simpl in Hbefore. apply andb_true_iff in Hbefore as [Hp Hbefore].
    destruct (id_differs_inv _ _ Hp) as (v & Hv & Hne).
    cbn [app Auth.upload_kyc_document_loop].
    unfold getitem. rewrite Hv. fold (getitem p).
    cbv beta iota delta [mbind result_bind]. rewrite Hne.
    rewrite (IH Hbefore Huser).
    now destruct (documents_of user).
Qed.

Lemma upload_kyc_document_loop_none (user_id : value) (document : dict) :
  forall users : list dict,
  forallb (id_differs user_id) users = true ->
  Auth.upload_kyc_document_loop users user_id document = Ok (users, false).
Proof.
  induction users as [|p users IH]; [reflexivity|].
  simpl. intros [Hp Husers]%andb_true_iff.
  destruct (id_differs_inv _ _ Hp) as (v & Hv & Hne).
  unfold getitem. rewrite Hv. simpl. rewrite Hne. now rewrite (IH Husers).
Qed.

Lemma now_bind {B : Type} (f : Z -> M B) (w : world) :
  (datetime_now ≫= f) w = f (clock w) w.
Proof. reflexivity. Qed.

Section KycDocuments.

Variable isoformat : Z -> string.

(** [upload_kyc_document] appends one unverified document record, stamped
    with the time of the call, to the [kyc_documents] of the first user
    with the id, starting the list when the user has none; a
    [kyc_documents] that is not a list makes it raise [AttributeError]
    with nothing written; an unknown id gives [False] with nothing
    written. *)
Theorem upload_kyc_document_appends (user_id document_type file_path : value)
    (before after : list dict) (user : dict) (w : world) :
  files w !! "data/users.json" = Some (Json (before ++ user :: after)) ->
  forallb (id_differs user_id) before = true ->
  (id_matches user_id user = true ->
   match documents_of user with
   | Some documents =>
       fst (next_fault w) = NoFault ->
       exists w',
         Auth.upload_kyc_document isoformat user_id document_type file_path w
         = (Ok true, w')
         /\ files w' !! "data/users.json"
            = Some (Json (before
                          ++ dict_set "kyc_documents"
                               (VList (documents
                                       ++ [VDict [("type", document_type);
                                                  ("file_path", file_path);
                                                  ("uploaded_at",
                                                   VStr (isoformat (clock w)));
                                                  ("verified", VBool false)]]))
                               user
                          :: after))
   | None =>
       Auth.upload_kyc_document isoformat user_id document_type file_path w
       = (Raise AttributeError, w)
   end)
  /\ (forallb (id_differs user_id) (user :: after) = true ->
      Auth.upload_kyc_document isoformat user_id document_type file_path w
      = (Ok false, w)).
Proof.
  intros Hfile Hbefore.
  destruct (load_with_fallback "data/users.json" w) as [Hload _].
  specialize (Hload _ Hfile).
  split.
  - intros Huser.
    unfold Auth.upload_kyc_document, Auth.load_users, Auth.save_users.
    rewrite (bind_Ok _ _ _ _ _ Hload).
    rewrite now_bind.
    rewrite (upload_kyc_document_loop_found _ _ _ _ _ Hbefore Huser).
    destruct (documents_of user) as [documents|]; [|reflexivity].
    intros Hfault. rewrite lift_bind.
    match goal with
    | |- context [write_json ?p ?d] =>
        destruct (write_json_no_fault p d w Hfault) as (w' & Hwrite & Hfiles & _)
    end.
    rewrite (bind_Ok _ _ _ _ _ Hwrite).
    exists w'. split; [reflexivity|]. rewrite Hfiles. apply lookup_insert_eq.
  - intros Hrest.
    unfold Auth.upload_kyc_document, Auth.load_users.
    rewrite (bind_Ok _ _ _ _ _ Hload).
    rewrite now_bind.
    rewrite upload_kyc_document_loop_none; [reflexivity|].
    now rewrite forallb_app, Hbefore.
Qed.

End KycDocuments.

Lemma upload_kyc_document_appends_witness :
  (exists w',
     Auth.upload_kyc_document toy_format (VStr "u1") (VStr "passport")
       (VStr "data/kyc/u1.png")
       (world_of [("data/users.json", Json [alice])] [] 0) = (Ok true, w')
     /\ files w' !! "data/users.json"
        = Some (Json ([] ++ dict_set "kyc_documents"
                              (VList ([] ++ [VDict [("type", VStr "passport");
                                                    ("file_path",
                                                     VStr "data/kyc/u1.png");
                                                    ("uploaded_at",
                                                     VStr (toy_format 0));
                                                    ("verified", VBool false)]]))
                              alice
                      :: [])))
  /\ Auth.upload_kyc_document toy_format (VStr "nobody") (VStr "passport")
       (VStr "data/kyc/u1.png")
       (world_of [("data/users.json", Json [alice])] [] 0)
     = (Ok false, world_of [("data/users.json", Json [alice])] [] 0).
Proof.
  split.
  - apply (proj1 (upload_kyc_document_appends toy_format (VStr "u1")
                    (VStr "passport") (VStr "data/kyc/u1.png") [] [] alice
                    (world_of [("data/users.json", Json [alice])] [] 0)
                    eq_refl eq_refl) eq_refl eq_refl).
  - apply (proj2 (upload_kyc_document_appends toy_format (VStr "nobody")
                    (VStr "passport") (VStr "data/kyc/u1.png") [] [] alice
                    (world_of [("data/users.json", Json [alice])] [] 0)
                    eq_refl eq_refl) eq_refl).
Defined.

(** ** Verification sessions *)

Lemma dict_set_comm_present (k1 k2 : string) (a b : value) (d : dict) :
  k1 <> k2 -> dict_has k1 d = true ->
  dict_set k1 a (dict_set k2 b d) = dict_set k2 b (dict_set k1 a d).
Proof.
  intros Hne. unfold dict_has.
  induction d as [|[k v] d IH]; simpl; [discriminate|].
  destruct (String.eqb_spec k k1) as [->|H1].
  - intros _. destruct (String.eqb_spec k1 k2) as [E|_]; [congruence|].
    simpl. rewrite String.eqb_refl.
    destruct (String.eqb_spec k1 k2) as [E|_]; [congruence|reflexivity].
  - intros Hhas. destruct (String.eqb_spec k k2) as [->|H2]; simpl.
    + destruct (String.eqb_spec k2 k1) as [E|_]; [congruence|].
      now rewrite String.eqb_refl.
    + destruct (String.eqb_spec k k1) as [E|_]; [congruence|].
      destruct (String.eqb_spec k k2) as [E|_]; [congruence|].
      now rewrite IH.
Qed.

Lemma complete_overrides (v1 v2 : value) (t1 t2 : string) (session : dict) :
  VideoStream.complete v2 t2 (VideoStream.complete v1 t1 session)
  = VideoStream.complete v2 t2 session.
Proof.
  unfold VideoStream.complete.
  set (d0 := dict_set "status" (VStr "completed") session).
  set (d2 := dict_set "completed_at" (VStr t1) (dict_set "verified" v1 d0)).
  assert (Hstatus : dict_set "status" (VStr "completed") d2 = d2).
  { apply dict_set_same. subst d2 d0.
    rewrite !dict_get_set_ne by discriminate. apply dict_get_set_eq. }
  rewrite Hstatus. subst d2.
  rewrite (dict_set_comm_present "verified" "completed_at" v2 (VStr t1));
    [|discriminate|unfold dict_has; now rewrite dict_get_set_eq].
  now rewrite !dict_set_set.
Qed.

Section SessionFlows.

Variable isoformat : Z -> string.

(** Completion is re-settable, last write wins: completing a session with
    one outcome and then with another leaves the sessions file exactly as
    a single completion with the second outcome does.  Completing an
    unknown id gives [False] and writes nothing. *)
Theorem complete_verification_session_last_wins (session_id first second : value)
    (before after : list dict) (session : dict) (w : world) (later : Z) :
  files w !! "data/verification_sessions.json"
  = Some (Json (before ++ session :: after)) ->
  forallb (id_differs session_id) before = true ->
  (id_matches session_id session = true ->
   faults w = [] ->
   exists w1 w2 once,
     VideoStream.complete_verification_session isoformat session_id first w
     = (Ok true, w1)
     /\ VideoStream.complete_verification_session isoformat session_id second
          (set_clock later w1) = (Ok true, w2)
     /\ VideoStream.complete_verification_session isoformat session_id second
          (set_clock later w) = (Ok true, once)
     /\ files w2 = files once
     /\ files w2 !! "data/verification_sessions.json"
        = Some (Json (before
                      ++ VideoStream.complete second (isoformat later) session
                      :: after)))
  /\ (forallb (id_differs session_id) (session :: after) = true ->
      VideoStream.complete_verification_session isoformat session_id first w
      = (Ok false, w)).
Proof.
  intros Hfile Hbefore. split.
  - intros Hsession Hfaults.
    assert (Hnf : forall w0, faults w0 = [] -> fst (next_fault w0) = NoFault).
    { intros w0 H0. unfold next_fault. now rewrite H0. }
    destruct (complete_once isoformat session_id first before after session w
                Hfile (Hnf _ Hfaults) Hbefore Hsession)
      as (w1 & Hrun1 & Hfiles1 & Hfaults1 & _).
    rewrite Hfaults in Hfaults1. simpl in Hfaults1.
    set (done1 := VideoStream.complete first (isoformat (clock w)) session) in *.
    assert (Hfile1 : files (set_clock later w1) !! "data/verification_sessions.json"
                     = Some (Json (before ++ done1 :: after))).
    { simpl. rewrite Hfiles1. apply lookup_insert_eq. }
    assert (Hdone1 : id_matches session_id done1 = true).
    { subst done1. now rewrite complete_keeps_id. }
    destruct (complete_once isoformat session_id second before after done1
                (set_clock later w1) Hfile1 (Hnf (set_clock later w1) Hfaults1)
                Hbefore Hdone1) as (w2 & Hrun2 & Hfiles2 & _).
    destruct (complete_once isoformat session_id second before after session
                (set_clock later w) Hfile (Hnf (set_clock later w) Hfaults)
                Hbefore Hsession) as (once & Hrun3 & Hfiles3 & _).
    simpl in Hfiles2, Hfiles3. subst done1.
    rewrite complete_overrides in Hfiles2.
    exists w1, w2, once.
    split; [exact Hrun1|]. split; [exact Hrun2|]. split; [exact Hrun3|].
    split; [rewrite Hfiles2, Hfiles3, Hfiles1; apply insert_insert_eq|].
    rewrite Hfiles2. apply lookup_insert_eq.
  - intros Hrest.
    destruct (load_with_fallback "data/verification_sessions.json" w) as [Hload _].
    unfold VideoStream.complete_verification_session,
      VideoStream.load_verification_sessions.
    rewrite (bind_Ok _ _ _ _ _ (Hload _ Hfile)), now_bind.
    rewrite change_first_none; [reflexivity|].
    now rewrite forallb_app, Hbefore.
Qed.

(** Starting a session stores a [pending] session with no images under a
    fresh id and returns that id; [get_verification_session] then finds
    it.  (The id is fresh when no stored session has it.) *)
Theorem start_session_then_get (property_id owner_id renter_id : value)
    (sessions : list dict) (w : world) :
  files w !! "data/verification_sessions.json" = Some (Json sessions) ->
  fst (next_fault w) = NoFault ->
  forallb (id_differs (VStr (uuids w (uuid_next w)))) sessions = true ->
  exists w' session,
    VideoStream.start_live_verification_session isoformat property_id owner_id
      renter_id w = (Ok (Some (uuids w (uuid_next w))), w')
    /\ files w' !! "data/verification_sessions.json"
       = Some (Json (sessions ++ [session]))
    /\ VideoStream.get_verification_session (VStr (uuids w (uuid_next w))) w'
       = (Ok (Some session), w')
    /\ dict_get "status" session = Some (VStr "pending")
    /\ dict_get "images" session = Some (VList [])
    /\ dict_get "property_id" session = Some property_id
    /\ dict_get "owner_id" session = Some owner_id
    /\ dict_get "renter_id" session = Some renter_id.
Proof.
  intros Hfile Hfault Hfresh.
  set (sid := uuids w (uuid_next w)) in *.
  set (w1 := World (files w) (faults w) (clock w) (uuids w) (S (uuid_next w))
               (trace w)).
  set (session :=
         [("id", VStr sid); ("property_id", property_id); ("owner_id", owner_id);
          ("renter_id", renter_id); ("created_at", VStr (isoformat (clock w)));
          ("status", VStr "pending"); ("images", VList [])]).
  assert (Hfault1 : fst (next_fault w1) = NoFault).
  { clear -Hfault. destruct w as [fs [|f flt] c us un tr]; exact Hfault. }
  destruct (load_with_fallback "data/verification_sessions.json" w1) as [Hload _].
  specialize (Hload sessions Hfile).
  destruct (write_json_no_fault "data/verification_sessions.json"
              (sessions ++ [session]) w1 Hfault1) as (w' & Hwrite & Hfiles & _).
  assert (Hfile' : files w' !! "data/verification_sessions.json"
                   = Some (Json (sessions ++ [session]))).
  { rewrite Hfiles. apply lookup_insert_eq. }
  exists w', session.
  split.
  { unfold VideoStream.start_live_verification_session.
    unfold uuid4 at 1. unfold mbind at 1, M_bind at 1.
    fold w1. rewrite now_bind. cbn [clock w1]. fold sid. fold session.
    unfold try_except, VideoStream.load_verification_sessions,
      VideoStream.save_verification_sessions.
    rewrite (bind_Ok _ _ _ _ _ Hload), (bind_Ok _ _ _ _ _ Hwrite).
    reflexivity. }
  split; [exact Hfile'|].
  split.
  { destruct (load_with_fallback "data/verification_sessions.json" w')
      as [Hload' _].
    unfold VideoStream.get_verification_session,
      VideoStream.load_verification_sessions.
    rewrite (bind_Ok _ _ _ _ _ (Hload' _ Hfile')).
    rewrite find_by_id_found; [reflexivity|exact Hfresh|].
    unfold id_matches, session. simpl. apply String.eqb_refl. }
  repeat split.
Qed.

Lemma start_session_unfold (property_id owner_id renter_id : value) (w : world) :
  VideoStream.start_live_verification_session isoformat property_id owner_id
    renter_id w
  = try_except
      (sessions ← VideoStream.load_verification_sessions;
       VideoStream.save_verification_sessions
         (sessions
          ++ [[("id", VStr (uuids w (uuid_next w)));
               ("property_id", property_id); ("owner_id", owner_id);
               ("renter_id", renter_id);
               ("created_at", VStr (isoformat (clock w)));
               ("status", VStr "pending"); ("images", VList [])]]) ;;
       mret (Some (uuids w (uuid_next w))))
      (fun _ => print ;; mret None)
      (World (files w) (faults w) (clock w) (uuids w) (S (uuid_next w)) (trace w)).
Proof. reflexivity. Qed.

(** Starting a session never raises: whatever goes wrong while loading or
    writing is caught, and a write that fails gives [None]. *)
Theorem start_session_never_raises (property_id owner_id renter_id : value)
    (w : world) :
  (exists r w',
     VideoStream.start_live_verification_session isoformat property_id owner_id
       renter_id w = (Ok r, w'))
  /\ (forall sessions,
        files w !! "data/verification_sessions.json" = Some (Json sessions) ->
        fst (next_fault w) <> NoFault ->
        exists w',
          VideoStream.start_live_verification_session isoformat property_id
            owner_id renter_id w = (Ok None, w')).
Proof.
  rewrite start_session_unfold.
  set (w1 := World (files w) (faults w) (clock w) (uuids w) (S (uuid_next w))
               (trace w)).
  unfold try_except. split.
  - match goal with
    | |- context [match ?body w1 with _ => _ end] =>
        destruct (body w1) as [[r|e] w']
    end; eauto.
  - intros sessions Hfile Hfault.
    destruct (load_with_fallback "data/verification_sessions.json" w1) as [Hload _].
    specialize (Hload sessions Hfile).
    unfold VideoStream.load_verification_sessions,
      VideoStream.save_verification_sessions.
    rewrite (bind_Ok _ _ _ _ _ Hload).
    unfold write_json, mbind, M_bind.
    assert (Hfault1 : fst (next_fault w1) = fst (next_fault w)).
    { destruct w as [fs [|f flt] c us un tr]; reflexivity. }
    destruct (next_fault w1) as [f w1'] eqn:Hnext. simpl in Hfault1.
    destruct f; [congruence| |]; eauto.
Qed.

End SessionFlows.

Lemma add_verification_image_loop_found (session_id image_data : value)
    (stamp : string) (session : dict) (after : list dict) :
  forall before : list dict,
  forallb (id_differs session_id) before = true ->
  id_matches session_id session = true ->
  VideoStream.add_verification_image_loop (before ++ session :: after)
    session_id image_data stamp
  = match dict_get "images" session with
    | Some (VList images) =>
        Ok (before
            ++ dict_set "last_updated" (VStr stamp)
                 (dict_set "images" (VList (images ++ [image_data])) session)
            :: after, true)
    | Some _ => Raise AttributeError
    | None => Raise KeyError
    end.
Proof.
  induction before as [|p before IH]; intros Hbefore Hsession.
  - destruct (id_matches_inv _ _ Hsession) as (v & Hv & Heq).
    cbn [app VideoStream.add_verification_image_loop].
    unfold getitem. rewrite Hv.
    cbv beta iota delta [mbind result_bind]. rewrite Heq.
    destruct (dict_get "images" session) as [[]|]; reflexivity.
  - simpl in Hbefore. apply andb_true_iff in Hbefore as [Hp Hbefore].
    destruct (id_differs_inv _ _ Hp) as (v & Hv & Hne).
    cbn [app VideoStream.add_verification_image_loop].
    unfold getitem. rewrite Hv. fold (getitem p).
    cbv beta iota delta [mbind result_bind]. rewrite Hne.
    rewrite (IH Hbefore Hsession).
    destruct (dict_get "images" session) as [[]|]; reflexivity.
Qed.

Lemma add_verification_image_loop_none (session_id image_data : value)
    (stamp : string) :
  forall sessions : list dict,
  forallb (id_differs session_id) sessions = true ->
  VideoStream.add_verification_image_loop sessions session_id image_data stamp
  = Ok (sessions, false).
Proof.
  induction sessions as [|p sessions IH]; [reflexivity|].
  simpl. intros [Hp Hsessions]%andb_true_iff.
  destruct (id_differs_inv _ _ Hp) as (v & Hv & Hne).
  unfold getitem. rewrite Hv. simpl. rewrite Hne. now rewrite (IH Hsessions).
Qed.

Section SessionImages.

Variable isoformat : Z -> string.

(** [add_verification_image] appends the image to the [images] of the
    first session with the id and stamps [last_updated], leaving the other
    sessions alone, and the session read back shows it; a session without
    an [images] list makes it raise ([KeyError] when the field is missing,
    [AttributeError] when it is not a list) with nothing written; an
    unknown id gives [False] with nothing written. *)
Theorem add_verification_image_appends (session_id image_data : value)
    (before after : list dict) (session : dict) (w : world) :
  files w !! "data/verification_sessions.json"
  = Some (Json (before ++ session :: after)) ->
  forallb (id_differs session_id) before = true ->
  (id_matches session_id session = true ->
   match dict_get "images" session with
   | Some (VList images) =>
       fst (next_fault w) = NoFault ->
       exists w' updated,
         VideoStream.add_verification_image isoformat session_id image_data w
         = (Ok true, w')
         /\ files w' !! "data/verification_sessions.json"
            = Some (Json (before ++ updated :: after))
         /\ VideoStream.get_verification_session session_id w'
            = (Ok (Some updated), w')
         /\ dict_get "images" updated = Some (VList (images ++ [image_data]))
         /\ dict_get "last_updated" updated = Some (VStr (isoformat (clock w)))
         /\ forall key, key <> "images" -> key <> "last_updated" ->
              dict_get key updated = dict_get key session
   | Some _ =>
       VideoStream.add_verification_image isoformat session_id image_data w
       = (Raise AttributeError, w)
   | None =>
       VideoStream.add_verification_image isoformat session_id image_data w
       = (Raise KeyError, w)
   end)
  /\ (forallb (id_differs session_id) (session :: after) = true ->
      VideoStream.add_verification_image isoformat session_id image_data w
      = (Ok false, w)).
Proof.
  intros Hfile Hbefore.
  destruct (load_with_fallback "data/verification_sessions.json" w) as [Hload _].
  specialize (Hload _ Hfile).
  split.
  - intros Hsession.
    unfold VideoStream.add_verification_image,
      VideoStream.load_verification_sessions,
      VideoStream.save_verification_sessions.
    rewrite (bind_Ok _ _ _ _ _ Hload), now_bind.
    rewrite (add_verification_image_loop_found _ _ _ _ _ _ Hbefore Hsession).
    destruct (dict_get "images" session) as [[| | | | images |]|] eqn:Himages;
      try reflexivity.
    intros Hfault. rewrite lift_bind.
    set (updated := dict_set "last_updated" (VStr (isoformat (clock w)))
                      (dict_set "images" (VList (images ++ [image_data])) session)).
    destruct (write_json_no_fault "data/verification_sessions.json"
                (before ++ updated :: after) w Hfault)
      as (w' & Hwrite & Hfiles & _).
    assert (Hfile' : files w' !! "data/verification_sessions.json"
                     = Some (Json (before ++ updated :: after))).
    { rewrite Hfiles. apply lookup_insert_eq. }
    rewrite (bind_Ok _ _ _ _ _ Hwrite).
    exists w', updated. split; [reflexivity|]. split; [exact Hfile'|].
    split.
    { destruct (load_with_fallback "data/verification_sessions.json" w')
        as [Hload' _].
      unfold VideoStream.get_verification_session,
        VideoStream.load_verification_sessions.
      rewrite (bind_Ok _ _ _ _ _ (Hload' _ Hfile')).
      rewrite find_by_id_found; [reflexivity|exact Hbefore|].
      unfold id_matches in *. subst updated.
      now rewrite !dict_get_set_ne by discriminate. }
    subst updated.
    split; [rewrite dict_get_set_ne by discriminate; apply dict_get_set_eq|].
    split; [apply dict_get_set_eq|].
    intros key H1 H2. now rewrite !dict_get_set_ne by congruence.
  - intros Hrest.
    unfold VideoStream.add_verification_image,
      VideoStream.load_verification_sessions.
    rewrite (bind_Ok _ _ _ _ _ Hload), now_bind.
    rewrite add_verification_image_loop_none; [reflexivity|].
    now rewrite forallb_app, Hbefore.
Qed.

End SessionImages.

Lemma add_verification_image_appends_witness :
  (exists w' updated,
     VideoStream.add_verification_image toy_format (VStr "s1")
       (VDict [("image_hash", VStr "abc")])
       (world_of [("data/verification_sessions.json", Json [viewing])] [] 0)
     = (Ok true, w')
     /\ dict_get "images" updated
        = Some (VList ([] ++ [VDict [("image_hash", VStr "abc")]]))
     /\ dict_get "status" updated = dict_get "status" viewing)
  /\ VideoStream.add_verification_image toy_format (VStr "s2")
       (VDict [("image_hash", VStr "abc")])
       (world_of [("data/verification_sessions.json", Json [viewing])] [] 0)
     = (Ok false,
        world_of [("data/verification_sessions.json", Json [viewing])] [] 0).
Proof.
  split.
  - destruct (proj1 (add_verification_image_appends toy_format (VStr "s1")
                       (VDict [("image_hash", VStr "abc")]) [] [] viewing
                       (world_of [("data/verification_sessions.json",
                                   Json [viewing])] [] 0)
                       eq_refl eq_refl) eq_refl eq_refl)
      as (w' & updated & Hrun & _ & _ & Himages & _ & Hkeys).
    exists w', updated. split; [exact Hrun|]. split; [exact Himages|].
    apply Hkeys; discriminate.
  - apply (proj2 (add_verification_image_appends toy_format (VStr "s2")
                    (VDict [("image_hash", VStr "abc")]) [] [] viewing
                    (world_of [("data/verification_sessions.json",
                                Json [viewing])] [] 0)
                    eq_refl eq_refl) eq_refl).
Defined.

Lemma complete_verification_session_last_wins_witness :
  exists w1 w2 once,
    VideoStream.complete_verification_session toy_format (VStr "s1") (VBool true)
      (world_of [("data/verification_sessions.json", Json [viewing])] [] 0)
    = (Ok true, w1)
    /\ VideoStream.complete_verification_session toy_format (VStr "s1")
         (VBool false) (set_clock 60 w1) = (Ok true, w2)
    /\ VideoStream.complete_verification_session toy_format (VStr "s1")
         (VBool false)
         (set_clock 60
            (world_of [("data/verification_sessions.json", Json [viewing])] [] 0))
       = (Ok true, once)
    /\ files w2 = files once
    /\ files w2 !! "data/verification_sessions.json"
       = Some (Json ([] ++ VideoStream.complete (VBool false) (toy_format 60)
                             viewing :: [])).
Proof.
  apply (proj1 (complete_verification_session_last_wins toy_format (VStr "s1")
                  (VBool true) (VBool false) [] [] viewing
                  (world_of [("data/verification_sessions.json",
                              Json [viewing])] [] 0) 60 eq_refl eq_refl));
    reflexivity.
Defined.

Lemma start_session_then_get_witness :
  exists w' session,
    VideoStream.start_live_verification_session toy_format (VStr "p1")
      (VStr "u1") (VStr "u2")
      (world_of [("data/verification_sessions.json", Json [viewing])] [] 0)
    = (Ok (Some "00000000-0000-4000-8000-000000000000"), w')
    /\ files w' !! "data/verification_sessions.json"
       = Some (Json ([viewing] ++ [session]))
    /\ VideoStream.get_verification_session
         (VStr "00000000-0000-4000-8000-000000000000") w'
       = (Ok (Some session), w')
    /\ dict_get "status" session = Some (VStr "pending").
Proof.
  destruct (start_session_then_get toy_format (VStr "p1") (VStr "u1") (VStr "u2")
              [viewing]
              (world_of [("data/verification_sessions.json", Json [viewing])] [] 0)
              eq_refl eq_refl eq_refl)
    as (w' & session & Hrun & Hfile & Hget & Hstatus & _).
  exists w', session. auto.
Defined.

Lemma start_session_never_raises_witness :
  exists w',
    VideoStream.start_live_verification_session toy_format (VStr "p1")
      (VStr "u1") (VStr "u2")
      (world_of [("data/verification_sessions.json", Json [viewing])]
         [FailBefore] 0)
    = (Ok None, w').
Proof.
  apply (proj2 (start_session_never_raises toy_format (VStr "p1") (VStr "u1")
                  (VStr "u2")
                  (world_of [("data/verification_sessions.json", Json [viewing])]
                     [FailBefore] 0)) [viewing]);
    [reflexivity|discriminate].
Defined.

(** ** The sample data *)

Lemma randint_bounds (a b : Z) (draw : nat) :
  (a <= b)%Z ->
  (a <=? Database.randint a b draw)%Z && (Database.randint a b draw <=? b)%Z = true.
Proof.
  intros Hab. unfold Database.randint.
  pose proof (Z.mod_pos_bound (Z.of_nat draw) (b - a + 1) ltac:(lia)) as Hmod.
  apply andb_true_iff. split; apply Z.leb_le; lia.
Qed.

Section SampleData.

Variable strftime : Z -> string.

Lemma sample_property_spec (draw : nat -> nat) (i : nat) (w : world) :
  exists p,
    Database.sample_property strftime draw i w
    = (Ok p, World (files w) (faults w) (clock w) (uuids w) (S (uuid_next w))
               (trace w))
    /\ well_formed_sample p = true.
Proof.
  unfold Database.sample_property, uuid4, datetime_now, mbind, M_bind, mret,
    M_ret. cbv beta iota zeta.
  eexists. split; [reflexivity|].
  unfold well_formed_sample, status_is. cbn [dict_get String.eqb Ascii.eqb Bool.eqb].
  rewrite (randint_bounds 1000 10000) by lia.
  cbn [py_eq String.eqb Ascii.eqb Bool.eqb andb].
  rewrite !andb_true_r.
  unfold Database.choice.
  pose proof (Nat.mod_upper_bound (draw (7 * i)%nat)
                (length (map fst Database.property_types)) ltac:(discriminate))
    as Hlt.
  destruct (draw (7 * i)%nat mod length (map fst Database.property_types))%nat
    as [|[|[|[|[|[|n]]]]]];
    [| | | | | |
     change (length (map fst Database.property_types)) with 6 in Hlt; lia];
    cbv -[Database.randint Z.leb andb Nat.mul Nat.add];
    rewrite andb_true_r;
    first [apply (randint_bounds 4 8) | apply (randint_bounds 8 15)
          | apply (randint_bounds 20 100)]; lia.
Qed.

Lemma sample_properties_loop_spec (draw : nat -> nat) :
  forall (turns : list nat) (w : world),
  exists properties,
    Database.sample_properties_loop strftime draw turns w
    = (Ok properties,
       World (files w) (faults w) (clock w) (uuids w)
         (length turns + uuid_next w) (trace w))
    /\ length properties = length turns
    /\ forallb well_formed_sample properties = true.
Proof.
  induction turns as [|i turns IH]; intros w.
  - exists []. destruct w. repeat split.
  - destruct (sample_property_spec draw i w) as (p & Hp & Hok).
    destruct (IH (World (files w) (faults w) (clock w) (uuids w)
                    (S (uuid_next w)) (trace w))) as (ps & Hps & Hlen & Hall).
    exists (p :: ps). split; [|split].
    + cbn [Database.sample_properties_loop].
      rewrite (bind_Ok _ _ _ _ _ Hp), (bind_Ok _ _ _ _ _ Hps).
      cbn [files faults clock uuids uuid_next trace length].
      now rewrite Nat.add_succ_r.
    + simpl. now rewrite Hlen.
    + simpl. now rewrite Hok, Hall.
Qed.

Lemma sample_run (draw : nat -> nat) (w : world) :
  exists properties w',
    Database.generate_sample_properties strftime draw w = (Ok properties, w')
    /\ length properties = 50
    /\ forallb well_formed_sample properties = true
    /\ files w' = files w
    /\ faults w' = faults w.
Proof.
  destruct (sample_properties_loop_spec draw (seq 0 50) w)
    as (properties & Hrun & Hlen & Hall).
  eexists properties, _. split; [exact Hrun|].
  split; [now rewrite Hlen, length_seq|]. repeat split. exact Hall.
Qed.

(** Whatever the random generator draws, [generate_sample_properties]
    returns exactly 50 listings, each of one of the six property types,
    priced between 1000 and 10000, with a capacity in the range of its
    type (4-8 for houses and apartments, 8-15 for villas, 20-100
    otherwise), active and owned by ["sample_owner_id"]; it writes
    nothing. *)
Theorem generate_sample_properties_well_formed (draw : nat -> nat) (w : world) :
  exists properties w',
    Database.generate_sample_properties strftime draw w = (Ok properties, w')
    /\ length properties = 50
    /\ forallb well_formed_sample properties = true
    /\ files w' = files w
    /\ faults w' = faults w
    /\ trace w' = trace w.
Proof.
  destruct (sample_properties_loop_spec draw (seq 0 50) w)
    as (properties & Hrun & Hlen & Hall).
  eexists properties, _. split; [exact Hrun|].
  split; [now rewrite Hlen, length_seq|]. repeat split. exact Hall.
Qed.

Lemma save_data_no_fault (data : list dict) (path : string) (w : world) :
  faults w = [] ->
  exists w',
    Database.save_data data path w = (Ok (Some true), w')
    /\ faults w' = []
    /\ files w' !! path = Some (Json data)
    /\ (forall p, p <> path -> p <> path +:+ ".tmp" ->
          files w' !! p = files w !! p).
Proof.
  intros Hfaults.
  destruct (Database.save_data data path w) as [r w'] eqn:Hrun.
  pose proof Hrun as Hframe. unfold Database.save_data in Hframe.
  apply save_data_loop_frame in Hframe as [Hframe _].
  destruct (save_data_succeeds data path w) as (w'' & Hrun' & Hfile & _).
  { now rewrite Hfaults. }
  rewrite Hrun in Hrun'. injection Hrun' as -> <-.
  exists w'. split; [reflexivity|]. split; [|split; assumption].
  clear -Hrun Hfaults. destruct w as [fs flt c us un tr]. simpl in Hfaults.
  subst flt. unfold Database.save_data, Database.max_retries in Hrun.
  simpl seq in Hrun. rewrite save_data_loop_cons in Hrun.
  unfold mbind, M_bind, mret, M_ret, write_json, os_replace, next_fault, log,
    set_files in Hrun. simpl in Hrun. rewrite lookup_insert_eq in Hrun.
  now injection Hrun as <-.
Qed.

Lemma ensure_file {B : Type} (path : string) (k : M B) (w : world) :
  faults w = [] ->
  exists w',
    (present ← Database.path_exists path;
     (if negb present then Database.save_data [] path ;; mret tt else mret tt) ;;
     k) w = k w'
    /\ faults w' = []
    /\ files w' !! path = match files w !! path with
                          | Some content => Some content
                          | None => Some (Json [])
                          end
    /\ (forall p, p <> path -> p <> path +:+ ".tmp" ->
          files w' !! p = files w !! p).
Proof.
  intros Hfaults.
  unfold Database.path_exists. unfold mbind at 1, M_bind at 1.
  destruct (files w !! path) as [content|] eqn:Hfile; cbn [negb].
  - exists w. rewrite Hfile. repeat split. exact Hfaults.
  - destruct (save_data_no_fault [] path w Hfaults)
      as (w' & Hrun & Hfaults' & Hfile' & Hframe).
    exists w'. split; [|repeat split; assumption].
    unfold mbind at 1, M_bind at 1.
    now rewrite (bind_Ok _ _ _ _ _ Hrun).
Qed.

(** With no I/O fault, [initialize_sample_data] replaces whatever the
    properties file held by 50 fresh samples, leaves the users, bookings
    and reviews files as they are when they exist and creates them empty
    when they do not, and returns [True]. *)
Theorem initialize_sample_data_overwrites_properties (draw : nat -> nat)
    (w : world) :
  faults w = [] ->
  exists properties w',
    Database.initialize_sample_data strftime draw w = (Ok true, w')
    /\ files w' !! "data/properties.json" = Some (Json properties)
    /\ length properties = 50
    /\ forallb well_formed_sample properties = true
    /\ forall path, In path ["data/users.json"; "data/bookings.json";
                             "data/reviews.json"] ->
         files w' !! path = match files w !! path with
                            | Some content => Some content
                            | None => Some (Json [])
                            end.
Proof.
  intros Hfaults.
  destruct (sample_run draw w)
    as (properties & w0 & Hgen & Hlen & Hall & Hfiles0 & Hfaults0).
  rewrite Hfaults in Hfaults0.
  destruct (save_data_no_fault properties Database.PROPERTIES_FILE w0 Hfaults0)
    as (w1 & Hsave & Hfaults1 & Hprops1 & Hframe1).
  unfold Database.initialize_sample_data.
  rewrite (bind_Ok _ _ _ _ _ Hgen), (bind_Ok _ _ _ _ _ Hsave).
  match goal with
  | |- context [(Database.path_exists Database.USERS_FILE ≫= _) w1] =>
      match goal with
      | |- context [_ ≫= (fun _ : unit => ?k)] =>
          destruct (ensure_file Database.USERS_FILE k w1 Hfaults1)
            as (w2 & Hu & Hfaults2 & Husers2 & Hframe2)
      end
  end.
  rewrite Hu.
  match goal with
  | |- context [_ ≫= (fun _ : unit => ?k)] =>
      destruct (ensure_file Database.BOOKINGS_FILE k w2 Hfaults2)
        as (w3 & Hb & Hfaults3 & Hbook3 & Hframe3)
  end.
  rewrite Hb.
  destruct (ensure_file Database.REVIEWS_FILE (mret true) w3 Hfaults3)
    as (w4 & Hr & _ & Hrev4 & Hframe4).
  rewrite Hr.
  unfold Database.USERS_FILE, Database.BOOKINGS_FILE, Database.REVIEWS_FILE,
    Database.PROPERTIES_FILE in *.
  exists properties, w4.
  split; [reflexivity|].
  split.
  { rewrite Hframe4, Hframe3, Hframe2 by discriminate. exact Hprops1. }
  split; [exact Hlen|]. split; [exact Hall|].
  intros path [<-|[<-|[<-|[]]]].
  - rewrite Hframe4, Hframe3 by discriminate. rewrite Husers2.
    rewrite Hframe1 by discriminate. now rewrite Hfiles0.
  - rewrite Hframe4 by discriminate. rewrite Hbook3.
    rewrite Hframe2, Hframe1 by discriminate. now rewrite Hfiles0.
  - rewrite Hrev4.
    rewrite Hframe3, Hframe2, Hframe1 by discriminate. now rewrite Hfiles0.
Qed.

End SampleData.

Lemma initialize_sample_data_overwrites_properties_witness :
  exists properties w',
    Database.initialize_sample_data toy_format (fun n => n)
      (world_of [("data/properties.json", Json [cottage]);
                 ("data/users.json", Json [alice])] [] 0) = (Ok true, w')
    /\ files w' !! "data/properties.json" = Some (Json properties)
    /\ length properties = 50
    /\ forallb well_formed_sample properties = true
    /\ forall path, In path ["data/users.json"; "data/bookings.json";
                             "data/reviews.json"] ->
         files w' !! path
         = match files (world_of [("data/properties.json", Json [cottage]);
                                  ("data/users.json", Json [alice])] [] 0)
                 !! path with
           | Some content => Some content
           | None => Some (Json [])
           end.
Proof.
  apply (initialize_sample_data_overwrites_properties toy_format (fun n => n)
           (world_of [("data/properties.json", Json [cottage]);
                      ("data/users.json", Json [alice])] [] 0)).
  reflexivity.
Defined.

(** ** [database-implementation.py]: creation, bookings, reviews *)

Lemma comprehension_field (key : string) (wanted : value) (records : list dict) :
  forallb (dict_has key) records = true ->
  comprehension (DatabaseImpl.field_equals key wanted) records
  = Ok (List.filter (field_is key wanted) records).
Proof.
  induction records as [|r records IH]; [reflexivity|].
  simpl. intros [Hr Hrecords]%andb_true_iff. rewrite (IH Hrecords).
  unfold DatabaseImpl.field_equals, getitem, field_is, dict_has in *.
  destruct (dict_get key r) as [v|]; [|discriminate]. simpl.
  now destruct (py_eq v wanted).
Qed.

Lemma owned_ids_spec (owner_id : value) :
  forall properties : list dict,
  forallb (fun p => dict_has "owner_id" p && dict_has "id" p) properties = true ->
  exists ids,
    DatabaseImpl.owned_ids properties owner_id = Ok ids
    /\ forall booking property_id,
         dict_get "property_id" booking = Some property_id ->
         DatabaseImpl.py_in property_id ids
         = existsb (books_property_of owner_id booking) properties.
Proof.
  induction properties as [|p properties IH].
  - intros _. exists []. split; [reflexivity|]. reflexivity.
  - simpl. intros [Hp Hrest]%andb_true_iff.
    destruct (IH Hrest) as (ids & Hids & Hin).
    apply andb_true_iff in Hp as [Ho Hi]. unfold dict_has in Ho, Hi.
    unfold getitem.
    destruct (dict_get "owner_id" p) as [owner|] eqn:Howner; [|discriminate].
    destruct (dict_get "id" p) as [id|] eqn:Hid; [|discriminate].
    rewrite Hids. cbv beta iota delta [mbind result_bind].
    destruct (py_eq owner owner_id) eqn:Heq;
      cbv beta iota delta [mbind result_bind mret result_ret];
      eexists; (split; [reflexivity|]);
      intros booking property_id Hb;
      unfold books_property_of at 1; rewrite Howner, Hid, Hb, Heq; simpl;
      now rewrite (Hin booking property_id Hb).
Qed.

Section ImplFlows.

Variable isoformat : Z -> string.
Variable str_lower : string -> string.
Variable float_of_str : string -> result Q.

(** In [database-implementation.py] the caller's data is laid over the
    defaults of a new property: every field the caller gives is stored as
    given, even [id], [owner_id] (whatever the [owner_id] argument says)
    and [status]; the generated id, the [owner_id] argument and the
    status ["active"] are used only where the caller gives none.  The
    unfiltered list then ends with the new property. *)
Theorem impl_create_property_caller_wins (owner_id : value)
    (property_data : dict) (stored : list dict) (w : world) :
  files w !! "data/properties.json" = Some (Json stored) ->
  all_attempts_fail 5 (faults w) = false ->
  NoDup (map fst property_data) ->
  exists w' created,
    DatabaseImpl.create_property isoformat owner_id property_data w
    = (Ok created, w')
    /\ files w' !! "data/properties.json" = Some (Json (stored ++ [created]))
    /\ (forall key given, dict_get key property_data = Some given ->
          dict_get key created = Some given)
    /\ (dict_has "id" property_data = false ->
        dict_get "id" created = Some (VStr (uuids w (uuid_next w))))
    /\ (dict_has "owner_id" property_data = false ->
        dict_get "owner_id" created = Some owner_id)
    /\ (dict_has "status" property_data = false ->
        dict_get "status" created = Some (VStr "active"))
    /\ DatabaseImpl.get_properties str_lower float_of_str None w'
       = (Ok (stored ++ [created]), w').
Proof.
  intros Hfile Hsave Hkeys.
  destruct (load_with_fallback "data/properties.json" w) as [Hload _].
  specialize (Hload _ Hfile).
  set (w1 := World (files w) (faults w) (clock w) (uuids w) (S (uuid_next w))
               (trace w)).
  unfold DatabaseImpl.create_property, DatabaseImpl.load_data.
  rewrite (bind_Ok _ _ _ _ _ Hload).
  unfold uuid4 at 1. unfold mbind at 1, M_bind at 1. fold w1.
  rewrite !now_bind. cbn [clock w1].
  set (created := dict_merge _ property_data).
  destruct (save_data_succeeds (stored ++ [created]) Database.PROPERTIES_FILE w1
              Hsave) as (w' & Hrun & Hfile' & _).
  unfold DatabaseImpl.save_data. rewrite (bind_Ok _ _ _ _ _ Hrun).
  exists w', created. split; [reflexivity|]. split; [exact Hfile'|].
  subst created. unfold dict_merge.
  split; [intros key given Hgiven; now apply dict_get_update_in|].
  split; [intros H; now rewrite dict_get_update_other|].
  split; [intros H; now rewrite dict_get_update_other|].
  split; [intros H; now rewrite dict_get_update_other|].
  destruct (load_with_fallback "data/properties.json" w') as [Hload' _].
  unfold DatabaseImpl.get_properties, DatabaseImpl.load_data.
  now rewrite (bind_Ok _ _ _ _ _ (Hload' _ Hfile')).
Qed.

(** With only an [owner_id] filter, [get_bookings] of
    [database-implementation.py] goes through the properties: it returns,
    in stored order, exactly the bookings whose [property_id] is the id of
    a property that the owner owns.  An [owner_id] field on the booking
    itself plays no part. *)
Theorem impl_get_bookings_of_owner (owner_id : value)
    (bookings properties : list dict) (w : world) :
  files w !! "data/bookings.json" = Some (Json bookings) ->
  files w !! "data/properties.json" = Some (Json properties) ->
  forallb (fun p => dict_has "owner_id" p && dict_has "id" p) properties = true ->
  forallb (dict_has "property_id") bookings = true ->
  DatabaseImpl.get_bookings (Some [("owner_id", owner_id)]) w
  = (Ok (List.filter
           (fun b => existsb (books_property_of owner_id b) properties)
           bookings), w).
Proof.
  intros Hb Hp Hprops Hbooks.
  destruct (load_with_fallback "data/bookings.json" w) as [Hloadb _].
  destruct (load_with_fallback "data/properties.json" w) as [Hloadp _].
  unfold DatabaseImpl.get_bookings, DatabaseImpl.load_data.
  rewrite (bind_Ok _ _ _ _ _ (Hloadb _ Hb)).
  cbn [truthy negb default]. unfold DatabaseImpl.stage, id.
  cbn [dict_get String.eqb Ascii.eqb Bool.eqb].
  change (lift (mret bookings ≫= _)) with (lift (Ok bookings)).
  rewrite lift_bind.
  rewrite (bind_Ok _ _ _ _ _ (Hloadp _ Hp)).
  destruct (owned_ids_spec owner_id properties Hprops) as (ids & Hids & Hin).
  rewrite Hids, lift_bind. unfold lift. f_equal.
  clear -Hbooks Hin. induction bookings as [|b bookings IH]; [reflexivity|].
  simpl in Hbooks. apply andb_true_iff in Hbooks as [Hpid Hrest].
  simpl. rewrite (IH Hrest). unfold dict_has in Hpid. unfold getitem.
  destruct (dict_get "property_id" b) as [pid|] eqn:Hget; [|discriminate].
  simpl. rewrite (Hin b pid Hget).
  now destruct (existsb (books_property_of owner_id b) properties).
Qed.

End ImplFlows.

(** [get_reviews] of [database-implementation.py]: a [property_id] that
    counts as true selects the reviews of that property and the [user_id]
    is then not looked at; otherwise a [user_id] that counts as true
    selects by the [reviewer_id] field; with neither, all reviews are
    returned. *)
Theorem impl_get_reviews_property_first (property_id user_id : value)
    (reviews : list dict) (w : world) :
  files w !! "data/reviews.json" = Some (Json reviews) ->
  (DatabaseImpl.value_truthy property_id = true ->
   forallb (dict_has "property_id") reviews = true ->
   DatabaseImpl.get_reviews property_id user_id w
   = (Ok (List.filter (field_is "property_id" property_id) reviews), w))
  /\ (DatabaseImpl.value_truthy property_id = false ->
      DatabaseImpl.value_truthy user_id = true ->
      forallb (dict_has "reviewer_id") reviews = true ->
      DatabaseImpl.get_reviews property_id user_id w
      = (Ok (List.filter (field_is "reviewer_id" user_id) reviews), w))
  /\ (DatabaseImpl.value_truthy property_id = false ->
      DatabaseImpl.value_truthy user_id = false ->
      DatabaseImpl.get_reviews property_id user_id w = (Ok reviews, w)).
Proof.
  intros Hfile.
  destruct (load_with_fallback "data/reviews.json" w) as [Hload _].
  unfold DatabaseImpl.get_reviews, DatabaseImpl.load_data.
  rewrite (bind_Ok _ _ _ _ _ (Hload _ Hfile)).
  split; [|split].
  - intros -> Hall. now rewrite comprehension_field.
  - intros -> -> Hall. now rewrite comprehension_field.
  - now intros -> ->.
Qed.

Lemma impl_create_property_caller_wins_witness :
  exists w' created,
    DatabaseImpl.create_property toy_format (VStr "u7")
      [("owner_id", VStr "u1"); ("status", VStr "draft"); ("title", VStr "Loft")]
      (properties_world [cottage]) = (Ok created, w')
    /\ files w' !! "data/properties.json" = Some (Json ([cottage] ++ [created]))
    /\ dict_get "owner_id" created = Some (VStr "u1")
    /\ dict_get "status" created = Some (VStr "draft")
    /\ dict_get "id" created = Some (VStr "00000000-0000-4000-8000-000000000000").
Proof.
  destruct (impl_create_property_caller_wins toy_format toy_lower toy_float
              (VStr "u7")
              [("owner_id", VStr "u1"); ("status", VStr "draft");
               ("title", VStr "Loft")] [cottage] (properties_world [cottage])
              eq_refl eq_refl)
    as (w' & created & Hrun & Hfile & Hgiven & Hid & _).
  { apply (bool_decide_unpack
             (NoDup (map fst [("owner_id", VStr "u1"); ("status", VStr "draft");
                              ("title", VStr "Loft")]))).
    vm_compute. exact I. }
  exists w', created. split; [exact Hrun|]. split; [exact Hfile|].
  split; [apply Hgiven; reflexivity|].
  split; [apply Hgiven; reflexivity|apply Hid; reflexivity].
Defined.

Lemma impl_get_bookings_of_owner_witness :
  DatabaseImpl.get_bookings (Some [("owner_id", VStr "u1")])
    (world_of [("data/bookings.json", Json [stay]);
               ("data/properties.json", Json [cottage])] [] 0)
  = (Ok (List.filter
           (fun b => existsb (books_property_of (VStr "u1") b) [cottage])
           [stay]),
     world_of [("data/bookings.json", Json [stay]);
               ("data/properties.json", Json [cottage])] [] 0).
Proof.
  apply (impl_get_bookings_of_owner (VStr "u1") [stay] [cottage]
           (world_of [("data/bookings.json", Json [stay]);
                      ("data/properties.json", Json [cottage])] [] 0));
    reflexivity.
Defined.

Lemma impl_get_reviews_property_first_witness :
  DatabaseImpl.get_reviews (VStr "p1") (VStr "u9")
    (world_of [("data/reviews.json", Json [rave])] [] 0)
  = (Ok (List.filter (field_is "property_id" (VStr "p1")) [rave]),
     world_of [("data/reviews.json", Json [rave])] [] 0)
  /\ DatabaseImpl.get_reviews VNone (VStr "")
       (world_of [("data/reviews.json", Json [rave])] [] 0)
     = (Ok [rave], world_of [("data/reviews.json", Json [rave])] [] 0).
Proof.
  destruct (impl_get_reviews_property_first (VStr "p1") (VStr "u9") [rave]
              (world_of [("data/reviews.json", Json [rave])] [] 0) eq_refl)
    as (Hfirst & _).
  destruct (impl_get_reviews_property_first VNone (VStr "") [rave]
              (world_of [("data/reviews.json", Json [rave])] [] 0) eq_refl)
    as (_ & _ & Hall).
  split; [apply Hfirst; reflexivity|apply Hall; reflexivity].
Defined.

(** ** The access check of the application *)

Section AccessCheck.

Variable sha256_hex : string -> string.
Variable SECRET_KEY : string.
Variable token : Type.
Variable jwt_encode : dict -> string -> token.
Variable jwt_decode : token -> string -> M dict.
Variable fromtimestamp : Z -> Z.
Variable timestamp : Z -> Z.

Lemma verify_user_issues (email password : string) (users : list dict)
    (tok : token) (user : dict) (w : world) :
  files w !! "data/users.json" = Some (Json users) ->
  forallb user_fields_ok users = true ->
  Auth.verify_user sha256_hex SECRET_KEY token jwt_encode fromtimestamp
    timestamp email password w
  = (Ok (true, Some tok, Some user), w) ->
  tok = jwt_encode
          (issued_payload user (token_expiry fromtimestamp timestamp (clock w)))
          SECRET_KEY
  /\ exists id, dict_get "id" user = Some id.
Proof.
  intros Hfile Hfields Hrun.
  unfold Auth.verify_user, Auth.load_users in Hrun.
  destruct (load_with_fallback "data/users.json" w) as [Hload _].
  rewrite (bind_Ok _ _ _ _ _ (Hload _ Hfile)) in Hrun.
  rewrite (verify_user_loop_spec SECRET_KEY token jwt_encode fromtimestamp
             timestamp email _ w _ Hfields) in Hrun.
  destruct (List.find _ users) as [found|] eqn:Hfind; [|discriminate].
  injection Hrun as <- <-. split; [reflexivity|].
  apply find_some in Hfind as [Hin _].
  rewrite forallb_forall in Hfields. specialize (Hfields _ Hin).
  unfold user_fields_ok, dict_has in Hfields.
  destruct (dict_get "id" found) as [id|]; [now exists id|discriminate].
Qed.

Lemma verify_token_accepts (payload : dict) (exp : Z) (id : value) (w : world) :
  accepts_unexpired jwt_encode jwt_decode ->
  dict_get "exp" payload = Some (VInt exp) ->
  (clock w < exp)%Z ->
  dict_get "user_id" payload = Some id ->
  Auth.verify_token SECRET_KEY token jwt_decode (jwt_encode payload SECRET_KEY) w
  = (Ok (true, id, VDict payload), w).
Proof.
  intros Hjwt Hexp Hahead Hid.
  unfold Auth.verify_token, try_except.
  rewrite (bind_Ok _ _ _ _ _ (Hjwt payload SECRET_KEY exp w Hexp Hahead)).
  unfold getitem. now rewrite Hid.
Qed.

(** After a login, with the user and the token of [verify_user] kept in
    the session, [check_auth] lets the user through until the token
    expires, which is at the instant at which the local wall clock reads
    24 hours more than at the login, and turns the user away afterwards
    (PyJWT accepting valid tokens and raising [ExpiredSignatureError] on
    expired ones, and the user's id being a string); without a user or
    without a token in the session it turns the user away without looking
    at the token. *)
Theorem check_auth_follows_token_expiry (email password uid : string)
    (users : list dict) (tok : token) (user : dict) (w : world) :
  accepts_unexpired jwt_encode jwt_decode ->
  rejects_expired jwt_encode jwt_decode ->
  files w !! "data/users.json" = Some (Json users) ->
  forallb user_fields_ok users = true ->
  Auth.verify_user sha256_hex SECRET_KEY token jwt_encode fromtimestamp
    timestamp email password w
  = (Ok (true, Some tok, Some user), w) ->
  dict_get "id" user = Some (VStr uid) ->
  (forall w2, (clock w2 < token_expiry fromtimestamp timestamp (clock w))%Z ->
     MainApp.check_auth SECRET_KEY token jwt_decode (Some user) (Some tok) w2
     = (Ok true, w2))
  /\ (forall w2, (token_expiry fromtimestamp timestamp (clock w) < clock w2)%Z ->
     MainApp.check_auth SECRET_KEY token jwt_decode (Some user) (Some tok) w2
     = (Ok false, w2))
  /\ (forall w2,
     MainApp.check_auth SECRET_KEY token jwt_decode None (Some tok) w2
     = (Ok false, w2)
     /\ MainApp.check_auth SECRET_KEY token jwt_decode (Some user) None w2
        = (Ok false, w2)).
Proof.
  intros Haccept Hreject Hfile Hfields Hrun Hid.
  destruct (verify_user_issues email password users tok user w Hfile Hfields Hrun)
    as (-> & _).
  set (expiry := token_expiry fromtimestamp timestamp (clock w)) in *.
  assert (Hexp : dict_get "exp" (issued_payload user expiry)
                 = Some (VInt expiry)) by reflexivity.
  assert (Huid : dict_get "user_id" (issued_payload user expiry)
                 = Some (VStr uid)).
  { unfold issued_payload. cbn [dict_get String.eqb Ascii.eqb Bool.eqb].
    now rewrite Hid. }
  destruct user as [|field fields]; [discriminate|].
  split; [|split].
  - intros w2 Hahead. unfold MainApp.check_auth.
    rewrite (bind_Ok _ _ _ _ _
               (verify_token_accepts _ _ _ w2 Haccept Hexp Hahead Huid)).
    unfold getitem. rewrite Hid, lift_bind.
    now rewrite (proj2 (py_eq_VStr (VStr uid) uid) eq_refl).
  - intros w2 Hpast. unfold MainApp.check_auth.
    now rewrite (bind_Ok _ _ _ _ _
                   (verify_token_expired SECRET_KEY token jwt_encode jwt_decode
                      _ _ w2 Hreject Hexp Hpast)).
  - intros w2. split; reflexivity.
Qed.

End AccessCheck.

Lemma check_auth_follows_token_expiry_witness :
  (forall w2, (clock w2 < 86400)%Z ->
     MainApp.check_auth "secret" toy_token toy_decode (Some alice)
       (Some (toy_encode (issued_payload alice 86400) "secret")) w2
     = (Ok true, w2))
  /\ (forall w2, (86400 < clock w2)%Z ->
     MainApp.check_auth "secret" toy_token toy_decode (Some alice)
       (Some (toy_encode (issued_payload alice 86400) "secret")) w2
     = (Ok false, w2))
  /\ (forall w2,
     MainApp.check_auth "secret" toy_token toy_decode None
       (Some (toy_encode (issued_payload alice 86400) "secret")) w2
     = (Ok false, w2)
     /\ MainApp.check_auth "secret" toy_token toy_decode (Some alice) None w2
        = (Ok false, w2)).
Proof.
  apply (check_auth_follows_token_expiry toy_hash "secret" toy_token toy_encode
           toy_decode toy_fromtimestamp toy_timestamp "alice@example.com" "pw123" "u1" [alice]
           (toy_encode (issued_payload alice 86400) "secret") alice
           (world_of [("data/users.json", Json [alice])] [] 0)
           toy_jwt_accepts_unexpired toy_jwt_rejects_expired);
    reflexivity.
Defined.

(** Where the clocks go back by an hour during the life of the token, the
    token lives 25 hours: 24 hours and 43 minutes after the login
    [check_auth] still lets the user through. *)
Example check_auth_when_clocks_go_back :
  token_expiry autumn_fromtimestamp autumn_timestamp 0 = 90000%Z
  /\ fst (Auth.verify_user toy_hash "secret" toy_token toy_encode
            autumn_fromtimestamp autumn_timestamp "alice@example.com" "pw123"
            (world_of [("data/users.json", Json [alice])] [] 0))
     = Ok (true, Some (toy_encode (issued_payload alice 90000) "secret"),
           Some alice)
  /\ fst (MainApp.check_auth "secret" toy_token toy_decode (Some alice)
            (Some (toy_encode (issued_payload alice 90000) "secret"))
            (world_of [] [] 89000))
     = Ok true.
Proof. repeat split; vm_compute; reflexivity. Qed.
